(** * Polynomial trend-surface regression: a shallow embedding

    The development follows [scripts/TrendSurfaceAnalysis.py]
    (class [EnhancedTrendSurfaceAlgorithm]) and
    [plugin/EnhancedTrendSurface/core_analysis.py]
    (class [TrendSurfaceAnalyzer]).

    Conventions.
    - A NumPy 1-D array is a [list]; a 2-D array is a [Matrix] (its column
      count is kept explicitly, as [A.shape[1]] is defined for zero rows).
    - Numbers are elements of a type [F] carrying the arithmetic of
      [Float64]; no law of arithmetic is assumed unless a theorem lists it
      as a hypothesis.
    - NumPy, SciPy and scikit-learn routines are the fields of [NumLib];
      a routine that can raise returns a [Res].
    - A Python exception is a value of [exn]; [try]/[except] is [try_except].
    - The [feedback] object and NumPy's global random state live in
      [World]; functions that use them are computations in [M]. *)

From Stdlib Require Import PrimFloat.
From Stdlib Require Import String DecimalString ZArith QArith Qabs Bool Arith Lia List Permutation.
Import ListNotations.
Local Open Scope string_scope.
Local Open Scope list_scope.
Local Open Scope nat_scope.

(** ** Exceptions and results *)

Inductive exn : Type :=
| LinAlgError (msg : string)
| ValueError (msg : string)
| IndexError (msg : string)
| UnboundLocalError (msg : string)
| QgsProcessingException (msg : string)
| PyException (msg : string).

(** [str(e)] *)
Definition str_exn (e : exn) : string :=
  match e with
  | LinAlgError m | ValueError m | IndexError m
  | UnboundLocalError m | QgsProcessingException m | PyException m => m
  end.

(** [isinstance(e, np.linalg.LinAlgError)] *)
Definition is_LinAlgError (e : exn) : bool :=
  match e with LinAlgError _ => true | _ => false end.

Inductive Res (A : Type) : Type :=
| Ok (a : A)
| Raise (e : exn).
Arguments Ok {A} a.
Arguments Raise {A} e.

Definition res_bind {A B} (r : Res A) (k : A -> Res B) : Res B :=
  match r with Ok a => k a | Raise e => Raise e end.

Declare Scope res_scope.
Delimit Scope res_scope with res.
Notation "x <- c ;; k" := (res_bind c (fun x => k))
  (at level 61, c at next level, right associativity) : res_scope.
Notation "' p <- c ;; k" := (res_bind c (fun x => let 'p := x in k))
  (at level 61, p pattern, c at next level, right associativity) : res_scope.

(** A loop [for b in l: acc = f(acc, b)] whose body may raise. *)
Fixpoint res_fold {A B} (f : A -> B -> Res A) (l : list B) (a : A) : Res A :=
  match l with
  | [] => Ok a
  | b :: l' => res_bind (f a b) (res_fold f l')
  end.

(** [range(n)] *)
Definition range (n : nat) : list nat := seq 0 n.

(** ** Float64 arithmetic *)

Class Float64 (F : Type) : Type := {
  f0 : F;
  f1 : F;
  fadd : F -> F -> F;
  fsub : F -> F -> F;
  fmul : F -> F -> F;
  fdiv : F -> F -> F
}.

Section Arrays.
Context {F : Type} {FA : Float64 F}.

(** [x ** n] for a non-negative integer exponent. *)
Fixpoint fpow (x : F) (n : nat) : F :=
  match n with
  | O => f1
  | S n' => fmul x (fpow x n')
  end.

(** A 2-D array: [shape = (length rows, n_cols)]. *)
Record Matrix : Type := mkMatrix {
  n_cols : nat;
  rows : list (list F)
}.

Definition shape (A : Matrix) : nat * nat := (length (rows A), n_cols A).

(** [np.ones((n, m))] *)
Definition np_ones (n m : nat) : Matrix := mkMatrix m (repeat (repeat f1 m) n).

(** Element-wise binary operation on 1-D arrays with NumPy broadcasting:
    equal lengths pair up, a length-1 operand is stretched, anything else
    raises [ValueError]. *)
Definition broadcast2 (op : F -> F -> F) (a b : list F) : Res (list F) :=
  if length a =? length b then Ok (map (fun p => op (fst p) (snd p)) (combine a b))
  else match a, b with
       | [a0], _ => Ok (map (op a0) b)
       | _, [b0] => Ok (map (fun v => op v b0) a)
       | _, _ => Raise (ValueError "operands could not be broadcast together")
       end.

Definition np_add := broadcast2 fadd.
Definition np_sub := broadcast2 fsub.
Definition np_mul := broadcast2 fmul.
Definition np_div := broadcast2 fdiv.

(** [x ** n] on an array. *)
Definition np_power (x : list F) (n : nat) : list F := map (fun v => fpow v n) x.

(** [l[i] = v] for [i] in range. *)
Fixpoint set_nth (i : nat) (v : F) (l : list F) : list F :=
  match l, i with
  | [], _ => []
  | _ :: t, O => v :: t
  | h :: t, S i' => h :: set_nth i' v t
  end.

(** [A[:, col] = v] *)
Definition set_column (A : Matrix) (col : nat) (v : list F) : Res Matrix :=
  if n_cols A <=? col then Raise (IndexError "index is out of bounds for axis 1")
  else if length v =? length (rows A) then
    Ok (mkMatrix (n_cols A)
          (map (fun p => set_nth col (snd p) (fst p)) (combine (rows A) v)))
  else match v with
       | [v0] => Ok (mkMatrix (n_cols A) (map (set_nth col v0) (rows A)))
       | _ => Raise (ValueError "could not broadcast input array")
       end.

(** [np.sum] of a 1-D array. *)
Definition np_sum (l : list F) : F := fold_left fadd l f0.

(** Inner product of two 1-D arrays of equal length. *)
Definition dot_vv (a b : list F) : F :=
  np_sum (map (fun p => fmul (fst p) (snd p)) (combine a b)).

(** [np.dot(A, c)] for a 2-D [A] and a 1-D [c]. *)
Definition np_dot (A : Matrix) (c : list F) : Res (list F) :=
  if n_cols A =? length c then Ok (map (fun r => dot_vv r c) (rows A))
  else Raise (ValueError "shapes not aligned").

(** ** The design matrix and the polynomial evaluator *)

Definition n_terms_of (degree : nat) : nat := (degree + 1) * (degree + 2) / 2.

(** [create_design_matrix] (identical in both source files). *)
Definition create_design_matrix (x y : list F) (degree : nat) : Res Matrix :=
  let n_points := length x in
  let n_terms := n_terms_of degree in
  let A := np_ones n_points n_terms in
  res_bind
    (res_fold (fun st d =>
       res_fold (fun st j =>
         let '(A, col_index) := st in
         if col_index <? n_terms then
           (v <- np_mul (np_power x (d - j)) (np_power y j) ;;
            A' <- set_column A col_index v ;;
            Ok (A', col_index + 1))%res
         else Ok (A, col_index))
       (range (d + 1)) st)
     (range (degree + 1)) (A, 0))
    (fun st => Ok (fst st)).

(** [evaluate_polynomial] (identical in both source files). *)
Definition evaluate_polynomial (x y : F) (coefficients : list F) (degree : nat) : F :=
  fst (fold_left (fun st d =>
         fold_left (fun st j =>
           let '(value, idx) := st in
           if idx <? length coefficients then
             (fadd value (fmul (fmul (nth idx coefficients f0) (fpow x (d - j))) (fpow y j)),
              idx + 1)
           else (value, idx))
         (range (d + 1)) st)
       (range (degree + 1)) (f0, 0)).

End Arrays.
Arguments Matrix F : clear implicits.

(** ** The caller's world: feedback object and global random state *)

Inductive event : Type :=
| PushInfo (msg : string)
| PushWarning (msg : string)
| SetProgress (percent : Z).

(** [feedback_log] is kept newest first.  [cancel_answers] lists the answers
    the next calls of [feedback.isCanceled()] will give (none left: [False]).
    [np_random_state] is the state of NumPy's global generator. *)
Record World : Type := mkWorld {
  feedback_log : list event;
  cancel_answers : list bool;
  np_random_state : N
}.

Definition M (A : Type) : Type := World -> Res A * World.

Definition ret {A} (a : A) : M A := fun w => (Ok a, w).

Definition bind {A B} (m : M A) (k : A -> M B) : M B :=
  fun w => match m w with
           | (Ok a, w') => k a w'
           | (Raise e, w') => (Raise e, w')
           end.

Definition raise {A} (e : exn) : M A := fun w => (Raise e, w).

Definition lift {A} (r : Res A) : M A := fun w => (r, w).

(** [try: m  except Exception as e: handler(e)] *)
Definition try_except {A} (m : M A) (handler : exn -> M A) : M A :=
  fun w => match m w with
           | (Ok a, w') => (Ok a, w')
           | (Raise e, w') => handler e w'
           end.

Definition res_try {A} (r : Res A) (handler : exn -> Res A) : Res A :=
  match r with Ok a => Ok a | Raise e => handler e end.

Declare Scope m_scope.
Delimit Scope m_scope with M.
Notation "x <- c ;; k" := (bind c (fun x => k))
  (at level 61, c at next level, right associativity) : m_scope.
Notation "' p <- c ;; k" := (bind c (fun x => let 'p := x in k))
  (at level 61, p pattern, c at next level, right associativity) : m_scope.
Notation "c ;;; k" := (bind c (fun _ => k))
  (at level 61, right associativity) : m_scope.

Definition log_event (e : event) : M unit :=
  fun w => (Ok tt, mkWorld (e :: feedback_log w) (cancel_answers w) (np_random_state w)).

Definition pushInfo (msg : string) : M unit := log_event (PushInfo msg).
Definition pushWarning (msg : string) : M unit := log_event (PushWarning msg).

Definition isCanceled : M bool :=
  fun w => match cancel_answers w with
           | [] => (Ok false, w)
           | b :: rest => (Ok b, mkWorld (feedback_log w) rest (np_random_state w))
           end.

(** [np.random.seed(s)] *)
Definition np_random_seed (s : N) : M unit :=
  fun w => (Ok tt, mkWorld (feedback_log w) (cancel_answers w) s).

(** [str(n)] for a non-negative integer. *)
Definition str_nat (n : nat) : string := NilZero.string_of_uint (Nat.to_uint n).

(** ** Library routines *)

Class NumLib (F : Type) {FA : Float64 F} : Type := {
  float_lit : Q -> F;
  of_int : Z -> F;
  np_sqrt : F -> F;
  np_abs : F -> F;
  np_log : F -> F;
  f_ltb : F -> F -> bool;
  f_leb : F -> F -> bool;
  np_median : list F -> F;
  np_max : list F -> Res F;
  np_linalg_lstsq : Matrix F -> list F -> Res (list F * list F * Z * list F);
  np_linalg_solve : Matrix F -> list F -> Res (list F);
  np_linalg_pinv : Matrix F -> Res (Matrix F);
  np_linalg_inv : Matrix F -> Res (Matrix F);
  stats_t_ppf : F -> Z -> Res F;
  stats_normaltest : list F -> Res (F * F);
  mean_squared_error : list F -> list F -> Res F;
  r2_score : list F -> list F -> Res F;
  np_random_shuffle : N -> list nat -> list nat * N;
  format_float : nat -> F -> string
}.

(** [np.random.shuffle(indices)] on the global generator. *)
Definition shuffle {F : Type} {FA : Float64 F} {NL : NumLib F} (indices : list nat)
  : M (list nat) :=
  fun w => let '(l, g) := np_random_shuffle (np_random_state w) indices in
           (Ok l, mkWorld (feedback_log w) (cancel_answers w) g).

(** The outcome of one pass of a loop body: [break], or go on with a new
    state. *)
Inductive loop_step (S : Type) : Type :=
| Break
| Continue (s : S).
Arguments Break {S}.
Arguments Continue {S} s.

Section Solvers.
Context {F : Type} {FA : Float64 F} {NL : NumLib F}.

(** [A * v[:, np.newaxis]]: a [(n, p)] array times an [(m, 1)] array. *)
Definition scale_rows (A : Matrix F) (v : list F) : Res (Matrix F) :=
  if length (rows A) =? length v then
    Ok (mkMatrix (n_cols A)
          (map (fun p => map (fun a => fmul a (snd p)) (fst p)) (combine (rows A) v)))
  else match rows A, v with
       | _, [v0] => Ok (mkMatrix (n_cols A) (map (map (fun a => fmul a v0)) (rows A)))
       | [r0], _ => Ok (mkMatrix (n_cols A) (map (fun vi => map (fun a => fmul a vi) r0) v))
       | _, _ => Raise (ValueError "operands could not be broadcast together")
       end.

(** [A.T] *)
Definition transpose (A : Matrix F) : Matrix F :=
  mkMatrix (length (rows A))
    (map (fun j => map (fun r => nth j r f0) (rows A)) (range (n_cols A))).

(** [A @ B] for 2-D arrays. *)
Definition matmul (A B : Matrix F) : Res (Matrix F) :=
  if n_cols A =? length (rows B) then
    Ok (mkMatrix (n_cols B)
          (map (fun r => map (fun c => dot_vv r c) (rows (transpose B))) (rows A)))
  else Raise (ValueError "matmul: dimension mismatch").

(** [np.mean] and [np.std] of a 1-D array. *)
Definition np_mean (l : list F) : F := fdiv (np_sum l) (of_int (Z.of_nat (length l))).

Definition np_std (l : list F) : F :=
  let m := np_mean l in
  np_sqrt (np_mean (map (fun v => fpow (np_abs (fsub v m)) 2) l)).

(** [a[idx]] with an integer index array. *)
Fixpoint take_idx {A} (a : list A) (idx : list nat) : Res (list A) :=
  match idx with
  | [] => Ok []
  | i :: rest =>
      match nth_error a i with
      | Some v => res_bind (take_idx a rest) (fun t => Ok (v :: t))
      | None => Raise (IndexError "index is out of bounds for axis 0")
      end
  end.

(** The [model_stats] dictionary. *)
Record ModelStats : Type := mkModelStats {
  rank : Z;
  singular_values : list F;
  effective_parameters : Z;
  robust_iterations : option nat
}.

(** [w is not None and len(w) == len(z)] *)
Definition usable_weights (w : option (list F)) (z : list F) : option (list F) :=
  match w with
  | Some wv => if length wv =? length z then Some wv else None
  | None => None
  end.

(** [least_squares_fit] of [scripts/TrendSurfaceAnalysis.py]. *)
Definition least_squares_fit (A : Matrix F) (z : list F) (w : option (list F))
  : M (list F * list F * ModelStats) :=
  try_except
    ('(coefficients, _, rank, s) <-
       match usable_weights w z with
       | Some wv =>
           let W_sqrt := map np_sqrt wv in
           A_weighted <- lift (scale_rows A W_sqrt) ;;
           z_weighted <- lift (np_mul z W_sqrt) ;;
           sol <- lift (np_linalg_lstsq A_weighted z_weighted) ;;
           pushInfo "Used weighted least squares" ;;;
           ret sol
       | None =>
           sol <- lift (np_linalg_lstsq A z) ;;
           pushInfo "Used ordinary least squares" ;;;
           ret sol
       end ;;
     z_pred <- lift (np_dot A coefficients) ;;
     residuals <- lift (np_sub z z_pred) ;;
     ret (coefficients, residuals, mkModelStats rank s rank None))%M
    (fun e =>
       if is_LinAlgError e then
         raise (QgsProcessingException
                  ("Matrix solving failed: " ++ str_exn e
                   ++ ". Try reducing polynomial degree.")%string)
       else
         raise (QgsProcessingException ("Regression failed: " ++ str_exn e)%string)).

(** [np.where(abs_residuals <= k, 1.0, k / abs_residuals)] *)
Definition huber_weights (abs_residuals : list F) (k : F) : list F :=
  map (fun a => if f_leb a k then f1 else fdiv k a) abs_residuals.

(** One pass of the loop body of [robust_regression_fit]. *)
Definition robust_iteration (A : Matrix F) (z : list F) (w : option (list F)) (tol : F)
  (iteration : nat) (coefficients residuals : list F)
  : M (loop_step (list F * list F)) :=
  (let abs_residuals := map np_abs residuals in
   let mad := np_median abs_residuals in
   if f_ltb mad (float_lit (1 # 10000000000)) then ret Break
   else
     let k := fmul (float_lit (1345 # 1000)) mad in
     let robust_weights := huber_weights abs_residuals k in
     robust_weights <- match w with
                       | Some wv => lift (np_mul robust_weights wv)
                       | None => ret robust_weights
                       end ;;
     let W_sqrt := map np_sqrt robust_weights in
     A_weighted <- lift (scale_rows A W_sqrt) ;;
     z_weighted <- lift (np_mul z W_sqrt) ;;
     match np_linalg_lstsq A_weighted z_weighted with
     | Raise _ => ret Break
     | Ok (new_coefficients, _, _, _) =>
         diff <- lift (np_sub new_coefficients coefficients) ;;
         coefficient_change <- lift (np_max (map np_abs diff)) ;;
         if f_ltb coefficient_change tol then
           pushInfo ("Robust regression converged after "
                     ++ str_nat (iteration + 1) ++ " iterations")%string ;;;
           ret Break
         else
           pred <- lift (np_dot A new_coefficients) ;;
           residuals' <- lift (np_sub z pred) ;;
           ret (Continue (new_coefficients, residuals'))
     end)%M.

(** [for iteration in range(max_iter): ...]; the third component is the
    last value bound to [iteration], if any. *)
Fixpoint robust_loop (A : Matrix F) (z : list F) (w : option (list F)) (tol : F)
  (iterations : list nat) (last : option nat) (coefficients residuals : list F)
  : M (list F * list F * option nat) :=
  match iterations with
  | [] => ret (coefficients, residuals, last)
  | iteration :: rest =>
      (step <- robust_iteration A z w tol iteration coefficients residuals ;;
       match step with
       | Break => ret (coefficients, residuals, Some iteration)
       | Continue (c, r) => robust_loop A z w tol rest (Some iteration) c r
       end)%M
  end.

(** [robust_regression_fit]; the source's defaults are [max_iter=20],
    [tol=1e-6]. *)
Definition robust_regression_fit (A : Matrix F) (z : list F) (w : option (list F))
  (max_iter : nat) (tol : F) : M (list F * list F * ModelStats) :=
  (pushInfo "Starting robust regression..." ;;;
   '(coefficients, residuals, model_stats) <- least_squares_fit A z w ;;
   '(coefficients, residuals, last) <-
      robust_loop A z w tol (range max_iter) None coefficients residuals ;;
   match last with
   | None => raise (UnboundLocalError "local variable 'iteration' referenced before assignment")
   | Some iteration =>
       ret (coefficients, residuals,
            mkModelStats (rank model_stats) (singular_values model_stats)
              (effective_parameters model_stats) (Some (iteration + 1)))
   end)%M.

Definition default_max_iter : nat := 20.
Definition default_tol : F := float_lit (1 # 1000000).

(** ** Cross-validation *)

Record CVResult : Type := mkCVResult {
  mse_mean : F;
  mse_std : F;
  r2_mean : F;
  r2_std : F;
  folds_completed : nat
}.

(** [indices[a:b]] *)
Definition slice {A} (l : list A) (a b : nat) : list A := firstn (b - a) (skipn a l).

(** The [try] block of one fold; [None] is the [continue] taken when the
    training partition is smaller than the number of columns. *)
Definition cv_fold_fit (x y z : list F) (w : option (list F)) (degree : nat)
  (train_idx test_idx : list nat) : M (option (F * F)) :=
  (x_train <- lift (take_idx x train_idx) ;;
   y_train <- lift (take_idx y train_idx) ;;
   A_train <- lift (create_design_matrix x_train y_train degree) ;;
   if length train_idx <? snd (shape A_train) then ret None
   else
     w_train <- match w with
                | Some wv => wt <- lift (take_idx wv train_idx) ;; ret (Some wt)
                | None => ret None
                end ;;
     z_train <- lift (take_idx z train_idx) ;;
     '(coefficients, _, _) <- least_squares_fit A_train z_train w_train ;;
     x_test <- lift (take_idx x test_idx) ;;
     y_test <- lift (take_idx y test_idx) ;;
     A_test <- lift (create_design_matrix x_test y_test degree) ;;
     z_pred_test <- lift (np_dot A_test coefficients) ;;
     z_test <- lift (take_idx z test_idx) ;;
     mse <- lift (mean_squared_error z_test z_pred_test) ;;
     z_test' <- lift (take_idx z test_idx) ;;
     r2 <- lift (r2_score z_test' z_pred_test) ;;
     ret (Some (mse, r2)))%M.

(** [for fold in range(min(k, n)): ...] *)
Fixpoint cv_loop (x y z : list F) (w : option (list F)) (degree : nat)
  (indices : list nat) (fold_size n : nat) (folds : list nat)
  (mse_scores r2_scores : list F) : M (list F * list F) :=
  match folds with
  | [] => ret (mse_scores, r2_scores)
  | fold :: rest =>
      (canceled <- isCanceled ;;
       if canceled then ret (mse_scores, r2_scores)
       else
         let test_start := fold * fold_size in
         let test_end := Nat.min (test_start + fold_size) n in
         if n <=? test_start then ret (mse_scores, r2_scores)
         else
           let test_idx := slice indices test_start test_end in
           let train_idx := firstn test_start indices ++ skipn test_end indices in
           if (length train_idx =? 0) || (length test_idx =? 0) then
             cv_loop x y z w degree indices fold_size n rest mse_scores r2_scores
           else
             scored <- try_except (cv_fold_fit x y z w degree train_idx test_idx)
                         (fun e =>
                            pushWarning ("Cross-validation fold " ++ str_nat fold
                                         ++ " failed: " ++ str_exn e)%string ;;;
                            ret None) ;;
             match scored with
             | Some (mse, r2) =>
                 cv_loop x y z w degree indices fold_size n rest
                   (mse_scores ++ [mse]) (r2_scores ++ [r2])
             | None =>
                 cv_loop x y z w degree indices fold_size n rest mse_scores r2_scores
             end)%M
  end.

(** [cross_validation]; the source's default is [k=5]. *)
Definition cross_validation (x y z : list F) (w : option (list F)) (degree k : nat)
  : M (option CVResult) :=
  (let n := length z in
   if n <? 10 then
     pushWarning "Too few points for cross-validation" ;;; ret None
   else
     indices <- shuffle (range n) ;;
     if k =? 0 then raise (PyException "integer division or modulo by zero")
     else
       let fold_size := n / k in
       '(mse_scores, r2_scores) <-
          cv_loop x y z w degree indices fold_size n (range (Nat.min k n)) [] [] ;;
       match mse_scores with
       | [] => ret None
       | _ => ret (Some (mkCVResult (np_mean mse_scores) (np_std mse_scores)
                           (np_mean r2_scores) (np_std r2_scores)
                           (length mse_scores)))
       end)%M.

Definition default_k : nat := 5.

(** ** Diagnostics *)

Record ConfidenceInfo : Type := mkConfidenceInfo {
  rse : F;
  std_errors : list F;
  t_value : F;
  confidence_level : F
}.

(** [np.diag] of a 2-D array. *)
Definition np_diag (A : Matrix F) : list F :=
  map (fun i => nth i (nth i (rows A) []) f0)
      (range (Nat.min (length (rows A)) (n_cols A))).

(** [A * c] for a scalar [c]. *)
Definition scale_matrix (A : Matrix F) (c : F) : Matrix F :=
  mkMatrix (n_cols A) (map (map (fun a => fmul a c)) (rows A)).

Definition calculate_confidence_intervals (A : Matrix F) (coefficients residuals : list F)
  (confidence_level : F) (model_stats : ModelStats) (n_samples : nat) : ConfidenceInfo :=
  let n := n_samples in
  let p := length coefficients in
  if n <=? p then
    mkConfidenceInfo f0 (map (fun _ => f0) coefficients) f0 confidence_level
  else
    let ss_res := np_sum (np_power residuals 2) in
    let rse := np_sqrt (fdiv ss_res (of_int (Z.of_nat n - Z.of_nat p))) in
    let std_errors :=
      match (AtA <- matmul (transpose A) A ;;
             inv <- np_linalg_inv AtA ;;
             Ok (map np_sqrt (np_diag (scale_matrix inv (fpow rse 2)))))%res with
      | Ok se => se
      | Raise _ => map (fun _ => fmul f1 rse) coefficients
      end in
    let t_value :=
      match stats_t_ppf
              (fsub f1 (fdiv (fsub f1 confidence_level) (of_int 2)))
              (Z.of_nat n - Z.of_nat p) with
      | Ok t => t
      | Raise _ => float_lit (196 # 100)
      end in
    mkConfidenceInfo rse std_errors t_value confidence_level.

(** The [statistics] dictionary; the three [cv_*] keys are absent unless
    cross-validation results were merged in. *)
Record ModelStatistics : Type := mkModelStatistics {
  n_observations : nat;
  n_parameters : nat;
  r2 : F;
  r2_adjusted : F;
  rmse : F;
  mae : F;
  aic : F;
  bic : F;
  normality_p : F;
  residual_mean : F;
  residual_std : F;
  cv_mse : option F;
  cv_r2 : option F;
  cv_folds : option nat
}.

Definition calculate_statistics (z_obs z_pred residuals : list F) (degree : nat)
  (cv_results : option CVResult) : ModelStatistics :=
  let n := length z_obs in
  let p := (degree + 1) * (degree + 2) / 2 in
  if n <=? p then
    mkModelStatistics n p f0 f0 f0 f0 f0 f0 f0 f0 f0 None None None
  else
    let fn := of_int (Z.of_nat n) in
    let fp := of_int (Z.of_nat p) in
    let ss_res := np_sum (np_power residuals 2) in
    let z_mean := np_mean z_obs in
    let ss_tot := np_sum (np_power (map (fun v => fsub v z_mean) z_obs) 2) in
    let r2 := if f_ltb f0 ss_tot then fsub f1 (fdiv ss_res ss_tot) else f0 in
    let r2_adj :=
      if 0 <? n - p - 1 then
        fsub f1 (fdiv (fmul (fsub f1 r2) (of_int (Z.of_nat n - 1)))
                      (of_int (Z.of_nat n - Z.of_nat p - 1)))
      else r2 in
    let rmse := np_sqrt (fdiv ss_res fn) in
    let mae := np_mean (map np_abs residuals) in
    let aic :=
      if f_ltb f0 ss_res then
        fadd (fmul fn (np_log (fdiv ss_res fn))) (of_int (2 * Z.of_nat p))
      else f0 in
    let bic :=
      if f_ltb f0 ss_res then
        fadd (fmul fn (np_log (fdiv ss_res fn))) (fmul fp (np_log fn))
      else f0 in
    let normality_p :=
      match stats_normaltest residuals with
      | Ok (_, pval) => pval
      | Raise _ => f0
      end in
    let cv := match cv_results with
              | Some r => (Some (mse_mean r), Some (r2_mean r), Some (folds_completed r))
              | None => (None, None, None)
              end in
    mkModelStatistics n p r2 r2_adj rmse mae aic bic normality_p
      (np_mean residuals) (np_std residuals)
      (fst (fst cv)) (snd (fst cv)) (snd cv).

(** ** The analysis driver *)

Record AnalysisResult : Type := mkAnalysisResult {
  res_coefficients : list F;
  res_predictions : list F;
  res_residuals : list F;
  res_design_matrix : Matrix F;
  res_model_stats : ModelStats;
  res_confidence_intervals : ConfidenceInfo;
  res_statistics : ModelStatistics;
  res_cv_results : option CVResult;
  res_degree : nat
}.

Definition trend_surface_analysis (x y z : list F) (w : option (list F)) (degree : nat)
  (confidence_level : F) (cross_validation_flag robust_regression : bool)
  : M AnalysisResult :=
  (A <- lift (create_design_matrix x y degree) ;;
   let '(n_samples, n_features) := shape A in
   pushInfo ("Design matrix shape: (" ++ str_nat n_samples ++ ", "
             ++ str_nat n_features ++ ")")%string ;;;
   if n_samples <? n_features then
     raise (QgsProcessingException
              ("Insufficient data points (" ++ str_nat n_samples
               ++ ") for polynomial degree " ++ str_nat degree
               ++ " (requires at least " ++ str_nat n_features ++ " points)")%string)
   else
     '(coefficients, residuals, model_stats) <-
        (if robust_regression
         then robust_regression_fit A z w default_max_iter default_tol
         else least_squares_fit A z w) ;;
     z_pred <- lift (np_dot A coefficients) ;;
     cv_results <-
        (if cross_validation_flag && (10 <? length z)
         then cross_validation x y z w degree default_k
         else ret None) ;;
     let confidence_intervals :=
       calculate_confidence_intervals A coefficients residuals confidence_level
         model_stats (length z) in
     let statistics := calculate_statistics z z_pred residuals degree cv_results in
     pushInfo ("Model R²: " ++ format_float 4 (r2 statistics))%string ;;;
     pushInfo ("RMSE: " ++ format_float 4 (rmse statistics))%string ;;;
     ret (mkAnalysisResult coefficients z_pred residuals A model_stats
            confidence_intervals statistics cv_results degree))%M.

End Solvers.

Module CoreAnalysis.
Section Plugin.
Context {F : Type} {FA : Float64 F} {NL : NumLib F}.

(** [polynomial_regression] of [plugin/EnhancedTrendSurface/core_analysis.py]:
    normal equations, with a pseudo-inverse fallback on [LinAlgError]. *)
Definition polynomial_regression (A : Matrix F) (z : list F) : Res (list F * list F) :=
  res_try
    (ATA <- matmul (transpose A) A ;;
     ATz <- np_dot (transpose A) z ;;
     coefficients <- np_linalg_solve ATA ATz ;;
     Az <- np_dot A coefficients ;;
     residuals <- np_sub z Az ;;
     Ok (coefficients, residuals))%res
    (fun e =>
       if is_LinAlgError e then
         (P <- np_linalg_pinv A ;;
          coefficients <- np_dot P z ;;
          Az <- np_dot A coefficients ;;
          residuals <- np_sub z Az ;;
          Ok (coefficients, residuals))%res
       else Raise e).

End Plugin.
End CoreAnalysis.

(** ** Vocabulary of the statements *)

(** The exponent pairs in the order of the two nested [range] loops. *)
Definition exponent_pairs (degree : nat) : list (nat * nat) :=
  flat_map (fun d => map (pair d) (range (d + 1))) (range (degree + 1)).

Section TermVocabulary.
Context {F : Type} {FA : Float64 F}.

(** The monomial [x^(d-j) * y^j] at a point. *)
Definition monomial (pt : F * F) (dj : nat * nat) : F :=
  fmul (fpow (fst pt) (fst dj - snd dj)) (fpow (snd pt) (snd dj)).

(** The row the spec prescribes for a point: for [d = 0..degree],
    [j = 0..d], the monomial [x^(d-j) * y^j]. *)
Definition poly_terms (x y : F) (degree : nat) : list F :=
  map (monomial (x, y)) (exponent_pairs degree).

(** The body of the inner loop of [create_design_matrix]. *)
Definition fill_column (x y : list F) (n_terms : nat) (st : Matrix F * nat)
  (dj : nat * nat) : Res (Matrix F * nat) :=
  let '(A, col_index) := st in
  if col_index <? n_terms then
    (v <- np_mul (np_power x (fst dj - snd dj)) (np_power y (snd dj)) ;;
     A' <- set_column A col_index v ;;
     Ok (A', col_index + 1))%res
  else Ok (A, col_index).

(** The matrix after the columns of [done] have been written. *)
Definition partial_matrix (pts : list (F * F)) (n_terms : nat)
  (done : list (nat * nat)) : Matrix F :=
  mkMatrix n_terms
    (map (fun pt => map (monomial pt) done ++ repeat f1 (n_terms - length done)) pts).

(** One summand of the evaluator, multiplied in the order of the source. *)
Definition weighted_term (x y : F) (dj : nat * nat) (c : F) : F :=
  fmul (fmul c (fpow x (fst dj - snd dj))) (fpow y (snd dj)).

(** The evaluator as one loop over the exponent pairs. *)
Definition add_term (x y : F) (coefficients : list F) (st : F * nat) (dj : nat * nat)
  : F * nat :=
  let '(value, idx) := st in
  if idx <? length coefficients then
    (fadd value (fmul (fmul (nth idx coefficients f0) (fpow x (fst dj - snd dj)))
                      (fpow y (snd dj))),
     idx + 1)
  else (value, idx).

End TermVocabulary.

Section FitVocabulary.
Context {F : Type} {FA : Float64 F} {NL : NumLib F}.

(** [z - np.dot(A, coefficients)] *)
Definition residual_of (A : Matrix F) (z coefficients : list F) : Res (list F) :=
  res_bind (np_dot A coefficients) (np_sub z).

(** The system [least_squares_fit] hands to [np.linalg.lstsq]: rows and
    targets scaled by the square roots of the weights when usable weights
    are given, the plain system otherwise. *)
Definition solved_system (A : Matrix F) (z : list F) (w : option (list F))
  : Res (Matrix F * list F) :=
  match usable_weights w z with
  | Some wv =>
      (A_weighted <- scale_rows A (map np_sqrt wv) ;;
       z_weighted <- np_mul z (map np_sqrt wv) ;;
       Ok (A_weighted, z_weighted))%res
  | None => Ok (A, z)
  end.

(** The message of the [QgsProcessingException] that replaces [e]. *)
Definition fit_error_message (e : exn) : string :=
  if is_LinAlgError e then
    ("Matrix solving failed: " ++ str_exn e ++ ". Try reducing polynomial degree.")%string
  else ("Regression failed: " ++ str_exn e)%string.

(** The pseudo-inverse fallback of [polynomial_regression]. *)
Definition pinv_fallback (A : Matrix F) (z : list F) : Res (list F * list F) :=
  (P <- np_linalg_pinv A ;;
   coefficients <- np_dot P z ;;
   residuals <- residual_of A z coefficients ;;
   Ok (coefficients, residuals))%res.

(** The weights of one reweighting pass: Huber weights of the residuals
    with threshold [1.345 * MAD], times the caller's weights if any. *)
Definition robust_weights_of (w : option (list F)) (residuals : list F) : Res (list F) :=
  let abs_residuals := map np_abs residuals in
  let k := fmul (float_lit (1345 # 1000)) (np_median abs_residuals) in
  match w with
  | Some wv => np_mul (huber_weights abs_residuals k) wv
  | None => Ok (huber_weights abs_residuals k)
  end.

(** The system solved by the refit of one pass. *)
Definition reweighted_system (A : Matrix F) (z : list F) (w : option (list F))
  (residuals : list F) : Res (Matrix F * list F) :=
  (rw <- robust_weights_of w residuals ;;
   A_weighted <- scale_rows A (map np_sqrt rw) ;;
   z_weighted <- np_mul z (map np_sqrt rw) ;;
   Ok (A_weighted, z_weighted))%res.

(** [np.max(np.abs(new_coefficients - coefficients))] *)
Definition coefficient_change (new_coefficients coefficients : list F) : Res F :=
  res_bind (np_sub new_coefficients coefficients) (fun d => np_max (map np_abs d)).

Definition converged_message (iteration : nat) : event :=
  PushInfo ("Robust regression converged after " ++ str_nat (iteration + 1)
            ++ " iterations")%string.

Definition log_to (e : event) (w : World) : World :=
  mkWorld (e :: feedback_log w) (cancel_answers w) (np_random_state w).

(** What a scored fold has computed: a least-squares fit on the training
    partition, weighted by the caller's weights of the training samples
    when weights were supplied and plain otherwise, scored on the held-out
    partition. *)
Definition fold_fit_spec (x y z : list F) (w : option (list F)) (degree : nat)
  (train_idx test_idx : list nat) (mse r2 : F) : Prop :=
  exists x_train y_train z_train A_train As zs c ss rk sv
         x_test y_test z_test A_test z_pred,
    take_idx x train_idx = Ok x_train
    /\ take_idx y train_idx = Ok y_train
    /\ take_idx z train_idx = Ok z_train
    /\ create_design_matrix x_train y_train degree = Ok A_train
    /\ match w with
       | Some wv =>
           exists w_train,
             take_idx wv train_idx = Ok w_train
             /\ scale_rows A_train (map np_sqrt w_train) = Ok As
             /\ np_mul z_train (map np_sqrt w_train) = Ok zs
       | None => As = A_train /\ zs = z_train
       end
    /\ np_linalg_lstsq As zs = Ok (c, ss, rk, sv)
    /\ take_idx x test_idx = Ok x_test
    /\ take_idx y test_idx = Ok y_test
    /\ take_idx z test_idx = Ok z_test
    /\ create_design_matrix x_test y_test degree = Ok A_test
    /\ np_dot A_test c = Ok z_pred
    /\ mean_squared_error z_test z_pred = Ok mse
    /\ r2_score z_test z_pred = Ok r2.

(** The partitions of fold [fold]. *)
Definition fold_train (indices : list nat) (fold_size n fold : nat) : list nat :=
  firstn (fold * fold_size) indices
  ++ skipn (Nat.min (fold * fold_size + fold_size) n) indices.

Definition fold_test (indices : list nat) (fold_size n fold : nat) : list nat :=
  slice indices (fold * fold_size) (Nat.min (fold * fold_size + fold_size) n).

(** Two worlds that agree on everything a computation can read: the
    answers of [isCanceled] and the state of the random generator. *)
Definition same_inputs (w1 w2 : World) : Prop :=
  cancel_answers w1 = cancel_answers w2 /\ np_random_state w1 = np_random_state w2.

(** A computation whose result does not depend on the feedback log. *)
Definition log_blind {A} (m : M A) : Prop :=
  forall w1 w2, same_inputs w1 w2 ->
    fst (m w1) = fst (m w2) /\ same_inputs (snd (m w1)) (snd (m w2)).

End FitVocabulary.

(** ** Data collection, the plugin's R2 and the rasters

    The remaining functions of the two source files that do arithmetic:
    [collect_data] and the part of [processAlgorithm] that feeds it to the
    analysis, [calculate_r2], [generate_rasters] and [create_trend_surface].
    A feature is a point or multi-point geometry with named attributes, an
    attribute being [None] or a number.  [save_raster] writes a file:
    the raster functions return the list of the [save_raster] calls they
    make, in order. *)

Class RasterLib (F : Type) {FA : Float64 F} : Type := {
  np_isnan : F -> bool;
  f_eqb : F -> F -> bool;
  np_min : list F -> Res F;
  py_min : list F -> Res F;
  py_max : list F -> Res F;
  py_truediv : F -> F -> Res F;
  py_int : F -> Res Z;
  np_float32 : F -> F
}.

Definition setProgress (percent : Z) : M unit := log_event (SetProgress percent).

(** [str(n)] for an integer. *)
Definition str_int (n : Z) : string := NilZero.string_of_int (Z.to_int n).

(** A non-empty string is true. *)
Definition truthy (s : string) : bool :=
  match s with EmptyString => false | _ => true end.

(** [l[i] = f(l[i])] for [i] in range. *)
Fixpoint update_nth {A} (i : nat) (f : A -> A) (l : list A) : list A :=
  match l, i with
  | [], _ => []
  | h :: t, O => f h :: t
  | h :: t, S i' => h :: update_nth i' f t
  end.

Section Collection.
Context {F : Type} {FA : Float64 F} {NL : NumLib F} {RL : RasterLib F}.

Inductive Geometry : Type :=
| PointGeometry (x y : F)
| MultiPointGeometry (points : list (F * F)).

Record Feature : Type := mkFeature {
  geometry : Geometry;
  attributes : list (string * option F)
}.

Record FeatureSource : Type := mkFeatureSource {
  featureCount : Z;
  getFeatures : list Feature
}.

(** [feature[name]] *)
Definition get_attribute (feature : Feature) (name : string) : Res (option F) :=
  match find (fun kv => String.eqb (fst kv) name) (attributes feature) with
  | Some kv => Ok (snd kv)
  | None => Raise (PyException ("KeyError: " ++ name)%string)
  end.

(** The three appends made for one point of a feature. *)
Definition collect_point (feature : Feature) (weight_field : string) (z_value : F)
  (st : list (F * F) * list F * list F) (point : F * F)
  : Res (list (F * F) * list F * list F) :=
  let '(points, z_values, weights) := st in
  let points := points ++ [point] in
  let z_values := z_values ++ [z_value] in
  if truthy weight_field then
    (wt <- get_attribute feature weight_field ;;
     match wt with
     | Some v => Ok (points, z_values, weights ++ [v])
     | None => Ok (points, z_values, weights)
     end)%res
  else Ok (points, z_values, weights).

(** [for i, feature in enumerate(source.getFeatures()): ...] *)
Fixpoint collect_loop (total_features : Z) (z_field weight_field : string)
  (features : list Feature) (i : nat) (st : list (F * F) * list F * list F)
  : M (list (F * F) * list F * list F) :=
  match features with
  | [] => ret st
  | feature :: rest =>
      (canceled <- isCanceled ;;
       if canceled then ret st
       else
         (if i mod 100 =? 0 then
            q <- lift (py_truediv (of_int (Z.of_nat i)) (of_int total_features)) ;;
            percent <- lift (py_int (fmul q (of_int 20))) ;;
            setProgress percent
          else ret tt) ;;;
         z_value <- lift (get_attribute feature z_field) ;;
         match z_value with
         | None => collect_loop total_features z_field weight_field rest (i + 1) st
         | Some zv =>
             if np_isnan zv then
               collect_loop total_features z_field weight_field rest (i + 1) st
             else
               st' <- lift (match geometry feature with
                            | MultiPointGeometry multi_points =>
                                res_fold (collect_point feature weight_field zv)
                                  multi_points st
                            | PointGeometry px py =>
                                collect_point feature weight_field zv st (px, py)
                            end) ;;
               collect_loop total_features z_field weight_field rest (i + 1) st'
         end)%M
  end.

(** [collect_data] of [scripts/TrendSurfaceAnalysis.py]. *)
Definition collect_data (source : FeatureSource) (z_field weight_field : string)
  : M (list (F * F) * list F * option (list F)) :=
  ('(points, z_values, weights) <-
     collect_loop (featureCount source) z_field weight_field (getFeatures source) 0
       ([], [], []) ;;
   weights <- (if truthy weight_field && negb (length weights =? length points) then
                 pushWarning
                   "Weight field not available for all points. Using unweighted regression." ;;;
                 ret None
               else ret (Some weights)) ;;
   pushInfo ("Successfully collected " ++ str_nat (length points)
             ++ " valid points")%string ;;;
   ret (points, z_values, weights))%M.

(** [np.array(weights) if weights else None]: [None] and the empty list
    both give [None]. *)
Definition weights_array (weights : option (list F)) : option (list F) :=
  match weights with
  | Some (v :: l) => Some (v :: l)
  | _ => None
  end.

(** [processAlgorithm], from the collection of the points to the call of
    [trend_surface_analysis] (source lines 208-228). *)
Definition collect_and_analyze (source : FeatureSource) (z_field weight_field : string)
  (polynomial_degree : nat) (confidence_level : F)
  (cross_validation_flag robust_regression : bool) : M AnalysisResult :=
  (pushInfo "Collecting data points..." ;;;
   '(points, z_values, weights) <- collect_data source z_field weight_field ;;
   if length points <? 3 then
     raise (QgsProcessingException "Insufficient points to generate trend surface")
   else
     let x := map fst points in
     let y := map snd points in
     let z := z_values in
     let w := weights_array weights in
     pushInfo ("Data collected: " ++ str_nat (length x) ++ " points")%string ;;;
     lo <- lift (np_min z) ;;
     hi <- lift (np_max z) ;;
     pushInfo ("Z value range: " ++ format_float 2 lo ++ " to "
               ++ format_float 2 hi)%string ;;;
     trend_surface_analysis x y z w polynomial_degree confidence_level
       cross_validation_flag robust_regression)%M.

(** [calculate_r2] of [plugin/EnhancedTrendSurface/core_analysis.py]. *)
Definition calculate_r2 (z_obs z_pred : list F) : Res F :=
  (d <- np_sub z_obs z_pred ;;
   let ss_res := np_sum (np_power d 2) in
   let z_mean := np_mean z_obs in
   let ss_tot := np_sum (np_power (map (fun v => fsub v z_mean) z_obs) 2) in
   Ok (if negb (f_eqb ss_tot f0) then fsub f1 (fdiv ss_res ss_tot) else f0))%res.

(** *** Rasters *)

Record Extent : Type := mkExtent {
  xMinimum : F;
  xMaximum : F;
  yMinimum : F;
  yMaximum : F
}.

(** One call of [save_raster]. *)
Record RasterWrite : Type := mkRasterWrite {
  rw_path : string;
  rw_data : list (list F);
  rw_xmin : F;
  rw_ymax : F;
  rw_cell_size : F;
  rw_crs : string;
  rw_description : string
}.

(** [np.zeros((rows, cols), dtype=np.float32)] *)
Definition np_zeros (n_rows n_columns : nat) : list (list F) :=
  repeat (repeat f0 n_columns) n_rows.

(** [data[row, col] = v], stored as float32. *)
Definition set_cell (data : list (list F)) (row col : nat) (v : F) : list (list F) :=
  update_nth row (set_nth col (np_float32 v)) data.

(** [max(1, int((hi - lo) / cell_size) + 1)] *)
Definition grid_dimension (lo hi cell_size : F) : Res Z :=
  (q <- py_truediv (fsub hi lo) cell_size ;;
   i <- py_int q ;;
   Ok (Z.max 1 (i + 1)))%res.

(** The inner loop of [generate_rasters]: one row of both grids. *)
Definition fill_row (coefficients : list F) (degree : nat) (rse_value xmin ymax cell_size : F)
  (n_columns row : nat) (data : list (list F) * list (list F))
  : list (list F) * list (list F) :=
  let y_val := fsub ymax (fmul (of_int (Z.of_nat row)) cell_size) in
  fold_left (fun st col =>
               let '(trend_data, confidence_data) := st in
               let x_val := fadd xmin (fmul (of_int (Z.of_nat col)) cell_size) in
               let trend_val := evaluate_polynomial x_val y_val coefficients degree in
               (set_cell trend_data row col trend_val,
                set_cell confidence_data row col rse_value))
            (range n_columns) data.

(** [for row in range(rows): ...] of [generate_rasters]. *)
Fixpoint fill_rows (coefficients : list F) (degree : nat) (rse_value xmin ymax cell_size : F)
  (n_rows n_columns : nat) (todo : list nat) (data : list (list F) * list (list F))
  : M (list (list F) * list (list F)) :=
  match todo with
  | [] => ret data
  | row :: rest =>
      (canceled <- isCanceled ;;
       if canceled then ret data
       else
         (if row mod 100 =? 0 then
            q <- lift (py_truediv (of_int (Z.of_nat row)) (of_int (Z.of_nat n_rows))) ;;
            p <- lift (py_int (fmul q (of_int 40))) ;;
            setProgress (50 + p)
          else ret tt) ;;;
         fill_rows coefficients degree rse_value xmin ymax cell_size n_rows n_columns rest
           (fill_row coefficients degree rse_value xmin ymax cell_size n_columns row data))%M
  end.

(** The extent of the rasters: the given one, or the bounding box of the
    points widened by 10 percent of its range on each side. *)
Definition raster_extent (x y : list F) (extent : option Extent) : Res (F * F * F * F) :=
  match extent with
  | None =>
      (xmin <- np_min x ;;
       xmax <- np_max x ;;
       ymin <- np_min y ;;
       ymax <- np_max y ;;
       let x_range := fsub xmax xmin in
       let y_range := fsub ymax ymin in
       Ok (fsub xmin (fmul x_range (float_lit (1 # 10))),
           fadd xmax (fmul x_range (float_lit (1 # 10))),
           fsub ymin (fmul y_range (float_lit (1 # 10))),
           fadd ymax (fmul y_range (float_lit (1 # 10)))))%res
  | Some e => Ok (xMinimum e, xMaximum e, yMinimum e, yMaximum e)
  end.

(** [generate_rasters] of [scripts/TrendSurfaceAnalysis.py]; an empty path
    stands for an output that was not requested. *)
Definition generate_rasters (x y : list F) (results : AnalysisResult)
  (extent : option Extent) (cell_size : F) (crs : string)
  (output_trend output_residuals output_confidence : string) : M (list RasterWrite) :=
  ('(xmin, xmax, ymin, ymax) <- lift (raster_extent x y extent) ;;
   cols <- lift (grid_dimension xmin xmax cell_size) ;;
   rows <- lift (grid_dimension ymin ymax cell_size) ;;
   pushInfo ("Generating rasters with dimensions: " ++ str_int cols ++ " x "
             ++ str_int rows)%string ;;;
   let n_rows := Z.to_nat rows in
   let n_columns := Z.to_nat cols in
   let coefficients := res_coefficients results in
   let degree := res_degree results in
   let confidence_info := res_confidence_intervals results in
   '(trend_data, confidence_data) <-
      fill_rows coefficients degree (rse confidence_info) xmin ymax cell_size
        n_rows n_columns (range n_rows)
        (np_zeros n_rows n_columns, np_zeros n_rows n_columns) ;;
   let trend :=
     [mkRasterWrite output_trend trend_data xmin ymax cell_size crs "Trend Surface"] in
   let residuals :=
     if truthy output_residuals then
       [mkRasterWrite output_residuals (np_zeros n_rows n_columns) xmin ymax cell_size
          crs "Residuals"]
     else [] in
   let confidence :=
     if truthy output_confidence then
       [mkRasterWrite output_confidence confidence_data xmin ymax cell_size crs
          "Confidence"]
     else [] in
   ret (trend ++ residuals ++ confidence))%M.

(** The inner loop of the plugin's [create_trend_surface]. *)
Definition fill_trend_row (coefficients : list F) (degree : nat) (xmin ymax cell_size : F)
  (n_columns row : nat) (trend_data : list (list F)) : list (list F) :=
  let y_val := fsub ymax (fmul (of_int (Z.of_nat row)) cell_size) in
  fold_left (fun trend_data col =>
               let x_val := fadd xmin (fmul (of_int (Z.of_nat col)) cell_size) in
               set_cell trend_data row col
                 (evaluate_polynomial x_val y_val coefficients degree))
            (range n_columns) trend_data.

(** [for row in range(rows): ...] of [create_trend_surface], which logs
    every hundredth row. *)
Fixpoint fill_trend_rows (coefficients : list F) (degree : nat) (xmin ymax cell_size : F)
  (n_rows n_columns : nat) (todo : list nat) (trend_data : list (list F))
  : M (list (list F)) :=
  match todo with
  | [] => ret trend_data
  | row :: rest =>
      ((if row mod 100 =? 0 then
          pushInfo ("Processing row " ++ str_nat row ++ "/" ++ str_nat n_rows)%string
        else ret tt) ;;;
       fill_trend_rows coefficients degree xmin ymax cell_size n_rows n_columns rest
         (fill_trend_row coefficients degree xmin ymax cell_size n_columns row trend_data))%M
  end.

(** The extent of the plugin's raster, from the analysed points when none
    is given. *)
Definition surface_extent (points : list (F * F)) (extent : option Extent)
  : Res (F * F * F * F) :=
  match extent with
  | None =>
      let x_coords := map fst points in
      let y_coords := map snd points in
      (xmin <- py_min x_coords ;;
       xmax <- py_max x_coords ;;
       ymin <- py_min y_coords ;;
       ymax <- py_max y_coords ;;
       let x_buffer := fmul (fsub xmax xmin) (float_lit (1 # 10)) in
       let y_buffer := fmul (fsub ymax ymin) (float_lit (1 # 10)) in
       Ok (fsub xmin x_buffer, fadd xmax x_buffer,
           fsub ymin y_buffer, fadd ymax y_buffer))%res
  | Some e => Ok (xMinimum e, xMaximum e, yMinimum e, yMaximum e)
  end.

(** [create_trend_surface] of [plugin/EnhancedTrendSurface/core_analysis.py];
    [self.log] writes to the feedback log.  The result is the returned path
    and the [save_raster] call made. *)
Definition create_trend_surface (points : list (F * F)) (coefficients : list F)
  (degree : nat) (extent : option Extent) (cell_size : F) (crs output_path : string)
  : M (string * RasterWrite) :=
  try_except
    (pushInfo "Creating trend surface raster..." ;;;
     '(xmin, xmax, ymin, ymax) <- lift (surface_extent points extent) ;;
     cols <- lift (grid_dimension xmin xmax cell_size) ;;
     rows <- lift (grid_dimension ymin ymax cell_size) ;;
     pushInfo ("Raster dimensions: " ++ str_int cols ++ " x " ++ str_int rows)%string ;;;
     let n_rows := Z.to_nat rows in
     let n_columns := Z.to_nat cols in
     trend_data <-
       fill_trend_rows coefficients degree xmin ymax cell_size n_rows n_columns
         (range n_rows) (np_zeros n_rows n_columns) ;;
     pushInfo ("Trend surface saved: " ++ output_path)%string ;;;
     ret (output_path,
          mkRasterWrite output_path trend_data xmin ymax cell_size crs ""))%M
    (fun e =>
       (pushInfo ("Error creating trend surface: " ++ str_exn e)%string ;;;
        raise e)%M).

End Collection.

(** ** Vocabulary of the further properties *)

(** A computation that leaves the observation [proj] of the world as it
    found it, whatever its outcome. *)
Definition preserves {A B} (proj : World -> B) (m : M A) : Prop :=
  forall w, proj (snd (m w)) = proj w.

(** A computation that returns a value from every world. *)
Definition never_raises {A} (m : M A) : Prop :=
  forall w, exists a w', m w = (Ok a, w').

Section RasterVocabulary.
Context {F : Type} {FA : Float64 F} {NL : NumLib F} {RL : RasterLib F}.

(** What the collection loop keeps true of its three lists. *)
Definition collected (weight_field : string) (st : list (F * F) * list F * list F)
  : Prop :=
  let '(points, z_values, weights) := st in
  length z_values = length points
  /\ length weights <= length points
  /\ Forall (fun v => np_isnan v = false) z_values
  /\ (truthy weight_field = false -> weights = []).

(** The value stored in cell [(row, col)] of the trend grid. *)
Definition trend_cell (coefficients : list F) (degree : nat) (xmin ymax cell_size : F)
  (row col : nat) : F :=
  np_float32
    (evaluate_polynomial
       (fadd xmin (fmul (of_int (Z.of_nat col)) cell_size))
       (fsub ymax (fmul (of_int (Z.of_nat row)) cell_size))
       coefficients degree).

(** The value stored in every cell of the confidence grid. *)
Definition constant_cell (v : F) (row col : nat) : F := np_float32 v.

(** A grid whose first [done] rows hold [cell] and whose other rows are
    still zero. *)
Definition partial_grid (cell : nat -> nat -> F) (n_rows n_columns done : nat)
  : list (list F) :=
  map (fun row => map (cell row) (range n_columns)) (range done)
  ++ repeat (repeat f0 n_columns) (n_rows - done).

(** The number of polls of [isCanceled] answered no before the first yes,
    at most [limit]. *)
Fixpoint rows_before_cancel (answers : list bool) (limit : nat) : nat :=
  match limit, answers with
  | O, _ => 0
  | S limit', [] => limit
  | S limit', true :: _ => 0
  | S limit', false :: rest => S (rows_before_cancel rest limit')
  end.

End RasterVocabulary.

(** ** Executable instances

    [Float64_Z]: integer arithmetic, a commutative ring with Leibniz
    equality, for the algebraic statements.

    [ExactQ]: a double of the numeric libraries over reduced rationals.
    Arithmetic, medians, maxima, means and the least-squares solution (by
    the normal equations and Gauss-Jordan elimination) are exact; a
    singular system is reported as [LinAlgError]; the square root is exact
    on squares of rationals and rounded down otherwise; the routines with
    no rational counterpart (logarithm, Student quantile, normality test)
    answer with a fixed value or raise.

    [Binary64]: the arithmetic of the program itself, on the kernel's
    primitive floats, for the statements that rounding decides.

    [NanQ]: the rationals with a NaN, and a library that handles NaN and
    rank-deficient matrices the way NumPy does, for the runs in which a
    solver fails or hands back NaN. *)

#[export] Instance Float64_Z : Float64 Z := {
  f0 := 0%Z; f1 := 1%Z;
  fadd := Z.add; fsub := Z.sub; fmul := Z.mul; fdiv := Z.div
}.

(** IEEE 754 binary64 with round to nearest even, the arithmetic of
    Python's [float] and of NumPy's [float64]. *)
Module Binary64.

#[export] Instance Float64_binary64 : Float64 float := {
  f0 := 0%float; f1 := 1%float;
  fadd := PrimFloat.add;
  fsub := PrimFloat.sub;
  fmul := PrimFloat.mul;
  fdiv := PrimFloat.div
}.



End Binary64.

Module ExactQ.

#[export] Instance Float64_Q : Float64 Q := {
  f0 := 0%Q; f1 := 1%Q;
  fadd := fun a b => Qred (a + b);
  fsub := fun a b => Qred (a - b);
  fmul := fun a b => Qred (a * b);
  fdiv := fun a b => Qred (a / b)
}.

Definition is_zero (q : Q) : bool := (Qnum q =? 0)%Z.

Definition q_sqrt (q : Q) : Q :=
  Qred (Z.sqrt (Qnum q * Zpos (Qden q)) # Qden q).

Fixpoint insert_sorted (v : Q) (l : list Q) : list Q :=
  match l with
  | [] => [v]
  | h :: t => if Qle_bool v h then v :: l else h :: insert_sorted v t
  end.

Definition sort (l : list Q) : list Q := fold_right insert_sorted [] l.

Definition q_median (l : list Q) : Q :=
  let s := sort l in
  let n := length s in
  if Nat.even n then fdiv (fadd (nth (n / 2 - 1) s 0%Q) (nth (n / 2) s 0%Q)) (2 # 1)
  else nth (n / 2) s 0%Q.

Definition q_max (l : list Q) : Res Q :=
  match l with
  | [] => Raise (ValueError "zero-size array to reduction operation maximum")
  | h :: t => Ok (fold_left (fun m v => if Qle_bool m v then v else m) t h)
  end.

(** Splits off the first row whose leading entry is not zero. *)
Fixpoint find_pivot (rs : list (list Q)) : option (list Q * list (list Q)) :=
  match rs with
  | [] => None
  | r :: rest =>
      if is_zero (hd 0%Q r) then
        match find_pivot rest with
        | Some (p, others) => Some (p, r :: others)
        | None => None
        end
      else Some (r, rest)
  end.

(** Solves the square system whose rows are [a_1 ... a_n | b]. *)
Fixpoint gauss (n : nat) (rs : list (list Q)) : option (list Q) :=
  match n with
  | O => Some []
  | S n' =>
      match find_pivot rs with
      | None => None
      | Some (p, others) =>
          let p' := map (fun v => fdiv v (hd 0%Q p)) (tl p) in
          let others' :=
            map (fun o => map (fun ab => fsub (fst ab) (fmul (hd 0%Q o) (snd ab)))
                              (combine (tl o) p')) others in
          match gauss n' others' with
          | None => None
          | Some xs => Some (fsub (last p' 0%Q) (dot_vv (removelast p') xs) :: xs)
          end
      end
  end.

Definition q_solve (A : Matrix Q) (b : list Q) : Res (list Q) :=
  if negb ((length (rows A) =? n_cols A) && (length b =? n_cols A)) then
    Raise (LinAlgError "Last 2 dimensions of the array must be square")
  else
    match gauss (n_cols A) (map (fun rb => fst rb ++ [snd rb]) (combine (rows A) b)) with
    | Some xs => Ok xs
    | None => Raise (LinAlgError "Singular matrix")
    end.

Definition q_transpose (A : Matrix Q) : Matrix Q :=
  mkMatrix (length (rows A))
    (map (fun j => map (fun r => nth j r 0%Q) (rows A)) (range (n_cols A))).

Definition q_matmul (A B : Matrix Q) : Matrix Q :=
  mkMatrix (n_cols B)
    (map (fun r => map (fun c => dot_vv r c) (rows (q_transpose B))) (rows A)).

Definition unit_vector (n i : nat) : list Q :=
  map (fun j => if j =? i then 1%Q else 0%Q) (range n).

Definition q_inv (A : Matrix Q) : Res (Matrix Q) :=
  res_bind
    (res_fold (fun cols i => res_bind (q_solve A (unit_vector (n_cols A) i))
                               (fun c => Ok (cols ++ [c])))
              (range (n_cols A)) [])
    (fun cols => Ok (q_transpose (mkMatrix (n_cols A) cols))).

Definition q_pinv (A : Matrix Q) : Res (Matrix Q) :=
  res_bind (q_inv (q_matmul (q_transpose A) A))
           (fun I => Ok (q_matmul I (q_transpose A))).

Definition q_lstsq (A : Matrix Q) (z : list Q) : Res (list Q * list Q * Z * list Q) :=
  if negb (length (rows A) =? length z) then
    Raise (LinAlgError "Incompatible dimensions")
  else
    let At := q_transpose A in
    match q_solve (q_matmul At A) (map (fun r => dot_vv r z) (rows At)) with
    | Ok c =>
        let r := map (fun rz => fsub (snd rz) (dot_vv (fst rz) c)) (combine (rows A) z) in
        Ok (c, [np_sum (map (fun v => fmul v v) r)], Z.of_nat (n_cols A), [])
    | Raise _ => Raise (LinAlgError "SVD did not converge in Linear Least Squares")
    end.

Definition q_mean (l : list Q) : Q := fdiv (np_sum l) (inject_Z (Z.of_nat (length l))).

Definition q_mean_squared_error (y_true y_pred : list Q) : Res Q :=
  if negb (length y_true =? length y_pred) || (length y_true =? 0) then
    Raise (ValueError "Found input variables with inconsistent numbers of samples")
  else Ok (q_mean (map (fun p => fpow (fsub (fst p) (snd p)) 2) (combine y_true y_pred))).

Definition q_r2_score (y_true y_pred : list Q) : Res Q :=
  if negb (length y_true =? length y_pred) || (length y_true =? 0) then
    Raise (ValueError "Found input variables with inconsistent numbers of samples")
  else
    let ss_res := np_sum (map (fun p => fpow (fsub (fst p) (snd p)) 2)
                              (combine y_true y_pred)) in
    let m := q_mean y_true in
    let ss_tot := np_sum (map (fun v => fpow (fsub v m) 2) y_true) in
    if is_zero ss_tot then Ok (if is_zero ss_res then 1%Q else 0%Q)
    else Ok (fsub 1%Q (fdiv ss_res ss_tot)).

(** The generator's state is a counter; shuffling rotates the array by
    the state and steps the counter. *)
Definition q_shuffle (g : N) (l : list nat) : list nat * N :=
  let r := (N.to_nat g) mod (Nat.max 1 (length l)) in
  (skipn r l ++ firstn r l, (g * 5 + 3)%N).

Definition q_format (digits : nat) (q : Q) : string :=
  (NilZero.string_of_int (Z.to_int (Qnum q)) ++ "/"
   ++ NilZero.string_of_uint (Pos.to_uint (Qden q)))%string.

(** The double, for given [lstsq] and [solve] routines. *)
Definition numlib_with
  (lstsq : Matrix Q -> list Q -> Res (list Q * list Q * Z * list Q))
  (solve : Matrix Q -> list Q -> Res (list Q)) : NumLib Q := {|
  float_lit := Qred;
  of_int := inject_Z;
  np_sqrt := q_sqrt;
  np_abs := fun q => Qred (Qabs q);
  np_log := fun _ => 0%Q;
  f_ltb := fun a b => negb (Qle_bool b a);
  f_leb := Qle_bool;
  np_median := q_median;
  np_max := q_max;
  np_linalg_lstsq := lstsq;
  np_linalg_solve := solve;
  np_linalg_pinv := q_pinv;
  np_linalg_inv := q_inv;
  stats_t_ppf := fun _ _ => Raise (PyException "t quantile unavailable");
  stats_normaltest := fun _ => Raise (ValueError "normaltest unavailable");
  mean_squared_error := q_mean_squared_error;
  r2_score := q_r2_score;
  np_random_shuffle := q_shuffle;
  format_float := q_format
|}.

Definition numlib : NumLib Q := numlib_with q_lstsq q_solve.

Definition world0 : World := mkWorld [] [] 0%N.

(** The four samples of the plane [z = 1 + x + 2y] and their design
    matrix of degree 1. *)
Definition plane_x : list Q := [0; 1; 0; 1]%Q.
Definition plane_y : list Q := [0; 0; 1; 1]%Q.
Definition plane_z : list Q := [1; 2; 3; 4]%Q.
Definition plane_A : Matrix Q := mkMatrix 3 [[1; 0; 0]; [1; 1; 0]; [1; 0; 1]; [1; 1; 1]]%Q.

(** The same points with the last value off the plane, and weights. *)
Definition bent_z : list Q := [1; 2; 3; 5]%Q.
Definition bent_w : list Q := [1; 4; 1; 4]%Q.

(** Three samples: as many as a plane has coefficients. *)
Definition three_z : list Q := [1; 2; 3]%Q.

(** Ten noisy samples of the same plane, with weights. *)
Definition ten_x : list Q := [0; 1; 2; 3; 4; 5; 6; 7; 8; 9]%Q.
Definition ten_y : list Q := [0; 1; 0; 2; 1; 3; 0; 2; 1; 3]%Q.
Definition ten_z : list Q := [1; 5; 3; 7; 7; 13; 7; 12; 10; 16]%Q.
Definition ten_w : list Q := [1; 4; 1; 9; 1; 4; 1; 1; 9; 1]%Q.
Definition ten_A : Matrix Q :=
  mkMatrix 3 [[1; 0; 0]; [1; 1; 1]; [1; 2; 0]; [1; 3; 2]; [1; 4; 1];
              [1; 5; 3]; [1; 6; 0]; [1; 7; 2]; [1; 8; 1]; [1; 9; 3]]%Q.
Definition world7 : World := mkWorld [] [] 7%N.
Definition world_used : World := mkWorld [PushInfo "Data collected: 10 points"] [] 99%N.

End ExactQ.

(** The rationals with a NaN, and a library that treats NaN and rank
    deficiency as NumPy does: NaN propagates through arithmetic and is the
    square root of a negative number; [np.linalg.lstsq] and
    [np.linalg.pinv] are rank-tolerant (minimum-norm solution, Moore-Penrose
    inverse) and raise [LinAlgError] on a matrix that contains NaN;
    [np.linalg.lstsq] returns NaN coefficients for a target that contains
    NaN; [np.linalg.solve] raises on an exactly singular matrix and returns
    NaN for NaN input.  Infinities are not modelled: a division by zero
    gives NaN. *)
Module NanQ.
Import ExactQ.

Inductive qn : Type :=
| Fin (q : Q)
| NaN.

Definition lift2 (op : Q -> Q -> Q) (a b : qn) : qn :=
  match a, b with
  | Fin x, Fin y => Fin (op x y)
  | _, _ => NaN
  end.

#[export] Instance Float64_qn : Float64 qn := {
  f0 := Fin 0%Q; f1 := Fin 1%Q;
  fadd := lift2 (fun x y => Qred (x + y));
  fsub := lift2 (fun x y => Qred (x - y));
  fmul := lift2 (fun x y => Qred (x * y));
  fdiv := fun a b =>
            match a, b with
            | Fin x, Fin y => if is_zero y then NaN else Fin (Qred (x / y))
            | _, _ => NaN
            end
}.

(** The values of an array without NaN. *)
Fixpoint finite (l : list qn) : option (list Q) :=
  match l with
  | [] => Some []
  | Fin q :: rest => option_map (cons q) (finite rest)
  | NaN :: _ => None
  end.

Fixpoint finite_rows (rs : list (list qn)) : option (list (list Q)) :=
  match rs with
  | [] => Some []
  | r :: rest =>
      match finite r, finite_rows rest with
      | Some r', Some rest' => Some (r' :: rest')
      | _, _ => None
      end
  end.

Definition finite_matrix (A : Matrix qn) : option (Matrix Q) :=
  option_map (mkMatrix (n_cols A)) (finite_rows (rows A)).

Definition of_matrix (A : Matrix Q) : Matrix qn :=
  mkMatrix (n_cols A) (map (map Fin) (rows A)).

(** One column of Gauss-Jordan elimination: [done] holds the pivot rows
    found so far, [rest] the rows not yet used. *)
Definition eliminate (j : nat) (st : list (list Q) * list (list Q) * list nat)
  : list (list Q) * list (list Q) * list nat :=
  let '(done, rest, pivots) := st in
  let nonzero := fun r : list Q => negb (is_zero (nth j r 0%Q)) in
  match filter nonzero rest with
  | [] => st
  | p :: _ =>
      let p' := map (fun v => fdiv v (nth j p 0%Q)) p in
      let clear := fun r : list Q =>
                     map (fun ab => fsub (fst ab) (fmul (nth j r 0%Q) (snd ab)))
                         (combine r p') in
      let others :=
        (fix drop_first (l : list (list Q)) : list (list Q) :=
           match l with
           | [] => []
           | r :: t => if nonzero r then t else r :: drop_first t
           end) rest in
      (map clear done ++ [p'], map clear others, pivots ++ [j])
  end.

(** The reduced rows of [A] that are not zero, and the pivot columns. *)
Definition reduced (A : Matrix Q) : list (list Q) * list nat :=
  let '(done, _, pivots) :=
    fold_left (fun st j => eliminate j st) (range (n_cols A)) ([], rows A, []) in
  (done, pivots).

Definition q_rank (A : Matrix Q) : nat := length (snd (reduced A)).

(** The Moore-Penrose inverse through the rank factorisation [A = B C]:
    [C^T (C C^T)^-1 (B^T B)^-1 B^T]. *)
Definition q_pinv_any_rank (A : Matrix Q) : Matrix Q :=
  let '(c_rows, pivots) := reduced A in
  let r := length pivots in
  let B := mkMatrix r (map (fun row => map (fun j => nth j row 0%Q) pivots) (rows A)) in
  let C := mkMatrix (n_cols A) c_rows in
  match q_inv (q_matmul C (q_transpose C)), q_inv (q_matmul (q_transpose B) B) with
  | Ok CCt_inv, Ok BtB_inv =>
      q_matmul (q_transpose C) (q_matmul CCt_inv (q_matmul BtB_inv (q_transpose B)))
  | _, _ => mkMatrix (length (rows A)) (repeat (repeat 0%Q (length (rows A))) (n_cols A))
  end.

Definition n_sqrt (a : qn) : qn :=
  match a with
  | Fin q => if Qle_bool 0 q then Fin (q_sqrt q) else NaN
  | NaN => NaN
  end.

Definition n_lstsq (A : Matrix qn) (z : list qn) : Res (list qn * list qn * Z * list qn) :=
  if negb (length (rows A) =? length z) then
    Raise (LinAlgError "Incompatible dimensions")
  else
    match finite_matrix A with
    | None => Raise (LinAlgError "SVD did not converge in Linear Least Squares")
    | Some Aq =>
        match finite z with
        | None => Ok (repeat NaN (n_cols A), [], Z.of_nat (q_rank Aq), [])
        | Some zq =>
            let c := map (fun r => dot_vv r zq) (rows (q_pinv_any_rank Aq)) in
            let r := map (fun rz => fsub (snd rz) (dot_vv (fst rz) c))
                         (combine (rows Aq) zq) in
            let full := (q_rank Aq =? n_cols A) && (n_cols A <? length zq) in
            Ok (map Fin c,
                if full then [Fin (np_sum (map (fun v => fmul v v) r))] else [],
                Z.of_nat (q_rank Aq), [])
        end
    end.

Definition n_solve (A : Matrix qn) (b : list qn) : Res (list qn) :=
  if negb ((length (rows A) =? n_cols A) && (length b =? n_cols A)) then
    Raise (LinAlgError "Last 2 dimensions of the array must be square")
  else
    match finite_matrix A, finite b with
    | Some Aq, Some bq => res_bind (q_solve Aq bq) (fun x => Ok (map Fin x))
    | _, _ => Ok (repeat NaN (n_cols A))
    end.

Definition n_pinv (A : Matrix qn) : Res (Matrix qn) :=
  match finite_matrix A with
  | Some Aq => Ok (of_matrix (q_pinv_any_rank Aq))
  | None => Raise (LinAlgError "SVD did not converge")
  end.

Definition n_inv (A : Matrix qn) : Res (Matrix qn) :=
  match finite_matrix A with
  | Some Aq => res_bind (q_inv Aq) (fun I => Ok (of_matrix I))
  | None => Ok (mkMatrix (n_cols A) (map (map (fun _ => NaN)) (rows A)))
  end.

Definition n_score (score : list Q -> list Q -> Res Q) (y_true y_pred : list qn) : Res qn :=
  match finite y_true, finite y_pred with
  | Some t, Some p => res_bind (score t p) (fun s => Ok (Fin s))
  | _, _ => Raise (ValueError "Input contains NaN.")
  end.

#[export] Instance numlib : NumLib qn := {|
  float_lit := fun q => Fin (Qred q);
  of_int := fun z => Fin (inject_Z z);
  np_sqrt := n_sqrt;
  np_abs := fun a => match a with Fin q => Fin (Qred (Qabs q)) | NaN => NaN end;
  np_log := fun a => match a with Fin _ => Fin 0%Q | NaN => NaN end;
  f_ltb := fun a b => match a, b with
                      | Fin x, Fin y => negb (Qle_bool y x)
                      | _, _ => false
                      end;
  f_leb := fun a b => match a, b with
                      | Fin x, Fin y => Qle_bool x y
                      | _, _ => false
                      end;
  np_median := fun l => match finite l with Some v => Fin (q_median v) | None => NaN end;
  np_max := fun l => match finite l with
                     | Some v => res_bind (q_max v) (fun m => Ok (Fin m))
                     | None => Ok NaN
                     end;
  np_linalg_lstsq := n_lstsq;
  np_linalg_solve := n_solve;
  np_linalg_pinv := n_pinv;
  np_linalg_inv := n_inv;
  stats_t_ppf := fun _ _ => Raise (PyException "t quantile unavailable");
  stats_normaltest := fun _ => Raise (ValueError "normaltest unavailable");
  mean_squared_error := n_score q_mean_squared_error;
  r2_score := n_score q_r2_score;
  np_random_shuffle := q_shuffle;
  format_float := fun d a => match a with Fin q => q_format d q | NaN => "nan" end
|}.

(** The four points of the plane, with the bent values, and weights of
    which one is negative. *)
Definition plane_A : Matrix qn := of_matrix ExactQ.plane_A.
Definition bent_z : list qn := map Fin ExactQ.bent_z.
Definition negative_w : list qn := [Fin 1; Fin (-1); Fin 1; Fin 1]%Q.

(** The bent values with the second one missing. *)
Definition nan_z : list qn := [Fin 1%Q; NaN; Fin 3%Q; Fin 5%Q].

(** Three points on the line [x = y]: the columns of [x] and of [y]
    coincide, and the normal equations are singular. *)
Definition line_A : Matrix qn := of_matrix (mkMatrix 3 [[1; 0; 0]; [1; 1; 1]; [1; 2; 2]]%Q).
Definition line_z : list qn := [Fin 1; Fin 2; Fin 4]%Q.

End NanQ.

(** The further routines over the rationals: no number is NaN, [int]
    truncates towards zero, float32 storage is exact, division raises on a
    zero divisor. *)
Module ExactQRaster.
Import ExactQ.

Definition q_min (l : list Q) : Res Q :=
  match l with
  | [] => Raise (ValueError "zero-size array to reduction operation minimum")
  | h :: t => Ok (fold_left (fun m v => if Qle_bool v m then v else m) t h)
  end.

Definition q_truediv (a b : Q) : Res Q :=
  if is_zero b then Raise (PyException "float division by zero") else Ok (fdiv a b).

#[export] Instance rasterlib : RasterLib Q := {|
  np_isnan := fun _ => false;
  f_eqb := Qeq_bool;
  np_min := q_min;
  py_min := q_min;
  py_max := q_max;
  py_truediv := q_truediv;
  py_int := fun q => Ok (Z.quot (Qnum q) (Zpos (Qden q)));
  np_float32 := fun q => q
|}.

(** Features: three points with a value and a weight, one without a value,
    one multi-point without a weight. *)
Definition valued (px py v wt : Q) : Feature (F := Q) :=
  mkFeature (PointGeometry px py) [("z", Some v); ("w", Some wt)].

Definition unvalued (px py : Q) : Feature (F := Q) :=
  mkFeature (PointGeometry px py) [("z", None); ("w", Some 1%Q)].

Definition unweighted_pair : Feature (F := Q) :=
  mkFeature (MultiPointGeometry [(5, 5); (6, 6)]%Q) [("z", Some 9%Q); ("w", None)].

Definition plane_source : FeatureSource (F := Q) :=
  mkFeatureSource 5
    [valued 0 0 1 1; unvalued 2 2; valued 1 0 2 4; valued 0 1 3 1; valued 1 1 4 4].

Definition mixed_source : FeatureSource (F := Q) :=
  mkFeatureSource 4 [valued 0 0 1 1; unweighted_pair; valued 1 0 2 4; valued 0 1 3 1].

Definition short_source : FeatureSource (F := Q) :=
  mkFeatureSource 3 [valued 0 0 1 1; unvalued 2 2; valued 1 0 2 4].

(** The plane [z = 1 + x + 2y] as an analysis result, and a unit extent. *)
Definition plane_extent : Extent (F := Q) := mkExtent 0%Q 2%Q 0%Q 1%Q.

Definition plane_result : AnalysisResult (F := Q) :=
  mkAnalysisResult [1; 1; 2]%Q plane_z [0; 0; 0; 0]%Q plane_A
    (mkModelStats 3 [] 3 None)
    (mkConfidenceInfo (1 # 2)%Q [0; 0; 0]%Q (196 # 100)%Q (95 # 100)%Q)
    (mkModelStatistics 4 3 1%Q 1%Q 0%Q 0%Q 0%Q 0%Q 0%Q 0%Q 0%Q None None None)
    None 1.

Definition world_cancel_second : World := mkWorld [] [false; true] 0%N.

End ExactQRaster.

(** * Properties *)

(** ** Generic facts about loops and lists *)

Lemma res_fold_app {A B} (f : A -> B -> Res A) (l1 l2 : list B) (a : A) :
  res_fold f (l1 ++ l2) a = res_bind (res_fold f l1 a) (res_fold f l2).
Proof.
  revert a; induction l1 as [|b l1 IH]; intros a; simpl; [reflexivity|].
  destruct (f a b); simpl; auto.
Qed.

(** A nested loop is one loop over the flattened index pairs. *)
Lemma res_fold_nested {A} (g : A -> nat * nat -> Res A) (inner : nat -> list nat)
  (ds : list nat) (a : A) :
  res_fold (fun st d => res_fold (fun st j => g st (d, j)) (inner d) st) ds a
  = res_fold g (flat_map (fun d => map (pair d) (inner d)) ds) a.
Proof.
  revert a; induction ds as [|d ds IH]; intros a; simpl; [reflexivity|].
  rewrite res_fold_app.
  assert (E : forall l s, res_fold (fun st j => g st (d, j)) l s
                          = res_fold g (map (pair d) l) s).
  { induction l as [|j l IHl]; intros s; simpl; [reflexivity|].
    destruct (g s (d, j)); simpl; auto. }
  rewrite E. destruct (res_fold g (map (pair d) (inner d)) a); simpl; auto.
Qed.

Lemma fold_left_nested {A} (g : A -> nat * nat -> A) (inner : nat -> list nat)
  (ds : list nat) (a : A) :
  fold_left (fun st d => fold_left (fun st j => g st (d, j)) (inner d) st) ds a
  = fold_left g (flat_map (fun d => map (pair d) (inner d)) ds) a.
Proof.
  revert a; induction ds as [|d ds IH]; intros a; simpl; [reflexivity|].
  rewrite fold_left_app, IH. f_equal.
  generalize (inner d) a. induction l as [|j l IHl]; intros s; simpl; auto.
Qed.

Lemma map_const_repeat {A B} (c : B) (l : list A) :
  map (fun _ => c) l = repeat c (length l).
Proof. induction l; simpl; congruence. Qed.

Lemma combine_map_both {A B C} (f : A -> B) (g : A -> C) (l : list A) :
  combine (map f l) (map g l) = map (fun a => (f a, g a)) l.
Proof. induction l; simpl; congruence. Qed.


(** ** The term enumeration *)

Lemma exponent_pairs_succ (degree : nat) :
  exponent_pairs (S degree)
  = exponent_pairs degree ++ map (pair (S degree)) (range (S degree + 1)).
Proof.
  unfold exponent_pairs, range.
  rewrite (Nat.add_1_r (S degree)), (seq_S (S degree) 0), flat_map_app.
  rewrite (Nat.add_1_r degree). f_equal.
  cbn [flat_map]. rewrite app_nil_r, Nat.add_1_r, seq_S. reflexivity.
Qed.

Lemma exponent_pairs_length2 (degree : nat) :
  2 * length (exponent_pairs degree) = (degree + 1) * (degree + 2).
Proof.
  induction degree as [|n IH]; [reflexivity|].
  rewrite exponent_pairs_succ, length_app, length_map.
  unfold range. rewrite length_seq. lia.
Qed.

Lemma exponent_pairs_length (degree : nat) :
  length (exponent_pairs degree) = n_terms_of degree.
Proof.
  unfold n_terms_of. rewrite <- exponent_pairs_length2.
  rewrite Nat.mul_comm, Nat.div_mul; lia.
Qed.

Lemma exponent_pairs_head (degree : nat) :
  exists rest, exponent_pairs degree = (0, 0) :: rest.
Proof.
  induction degree as [|n [rest IH]]; [exists []; reflexivity|].
  rewrite exponent_pairs_succ, IH. eexists; reflexivity.
Qed.

Section Enumeration.
Context {F : Type} {FA : Float64 F}.

Lemma create_design_matrix_flat (x y : list F) (degree : nat) :
  create_design_matrix x y degree
  = res_bind (res_fold (fill_column x y (n_terms_of degree)) (exponent_pairs degree)
                (np_ones (length x) (n_terms_of degree), 0))
             (fun st => Ok (fst st)).
Proof.
  unfold create_design_matrix, exponent_pairs. f_equal.
  rewrite <- (res_fold_nested (fill_column x y (n_terms_of degree))
                (fun d => range (d + 1))).
  reflexivity.
Qed.

Lemma np_mul_monomials (x y : list F) (dj : nat * nat) :
  length x = length y ->
  np_mul (np_power x (fst dj - snd dj)) (np_power y (snd dj))
  = Ok (map (fun pt => monomial pt dj) (combine x y)).
Proof.
  intros E. unfold np_mul, broadcast2, np_power.
  rewrite !length_map, E, Nat.eqb_refl. f_equal.
  revert y E; induction x as [|a x IH]; intros [|b y] E; simpl in *; try discriminate; auto.
  f_equal. apply IH. lia.
Qed.

Lemma set_nth_middle (done : list F) (v old : F) (rest : list F) :
  set_nth (length done) v (done ++ old :: rest) = done ++ v :: rest.
Proof. induction done; simpl; congruence. Qed.

Lemma fill_column_step (x y : list F) (n_terms : nat) (done : list (nat * nat))
  (dj : nat * nat) :
  length x = length y -> length done < n_terms ->
  fill_column x y n_terms (partial_matrix (combine x y) n_terms done, length done) dj
  = Ok (partial_matrix (combine x y) n_terms (done ++ [dj]), length (done ++ [dj])).
Proof.
  intros E L. unfold fill_column.
  destruct (Nat.ltb_spec (length done) n_terms) as [_|]; [|lia].
  rewrite np_mul_monomials by assumption. simpl.
  unfold set_column, partial_matrix; simpl.
  destruct (Nat.leb_spec n_terms (length done)) as [|_]; [lia|].
  rewrite !length_map, Nat.eqb_refl. simpl.
  rewrite length_app. simpl. do 3 f_equal.
  rewrite combine_map_both, map_map. apply map_ext. intros pt. simpl.
  replace (n_terms - length done) with (S (n_terms - (length done + 1))) by lia.
  simpl. rewrite <- (length_map (monomial pt) done), set_nth_middle.
  rewrite map_app, <- app_assoc. reflexivity.
Qed.

Lemma fill_columns (x y : list F) (n_terms : nat) (todo done : list (nat * nat)) :
  length x = length y -> length done + length todo <= n_terms ->
  res_fold (fill_column x y n_terms) todo
    (partial_matrix (combine x y) n_terms done, length done)
  = Ok (partial_matrix (combine x y) n_terms (done ++ todo), length (done ++ todo)).
Proof.
  intros E. revert done.
  induction todo as [|dj todo IH]; intros done L; simpl in L; cbn [res_fold].
  - rewrite app_nil_r. reflexivity.
  - rewrite fill_column_step by (auto; lia). cbn [res_bind].
    rewrite IH by (rewrite length_app; simpl; lia).
    rewrite <- app_assoc. reflexivity.
Qed.

(** What [create_design_matrix] returns on arrays of equal length. *)
Lemma create_design_matrix_rows (x y : list F) (degree : nat) :
  length x = length y ->
  create_design_matrix x y degree
  = Ok (mkMatrix (n_terms_of degree)
          (map (fun pt => poly_terms (fst pt) (snd pt) degree) (combine x y))).
Proof.
  intros E. rewrite create_design_matrix_flat.
  assert (I : np_ones (length x) (n_terms_of degree)
              = partial_matrix (combine x y) (n_terms_of degree) []).
  { unfold np_ones, partial_matrix. simpl. rewrite Nat.sub_0_r.
    rewrite map_const_repeat, length_combine, <- E, Nat.min_id. reflexivity. }
  rewrite I. change 0 with (length (@nil (nat * nat))).
  rewrite fill_columns by (auto; rewrite exponent_pairs_length; simpl; lia).
  simpl. unfold partial_matrix. do 2 f_equal. apply map_ext. intros [a b].
  rewrite exponent_pairs_length, Nat.sub_diag. simpl.
  rewrite app_nil_r. reflexivity.
Qed.

Lemma nth_row_points (x y : list F) (g : F * F -> list F) (i : nat) :
  length x = length y -> i < length x ->
  nth i (map g (combine x y)) [] = g (nth i x f0, nth i y f0).
Proof.
  intros E L.
  rewrite <- (combine_nth x y i f0 f0 E).
  rewrite (nth_indep _ [] (g (f0, f0))) by (rewrite length_map, length_combine; lia).
  apply (map_nth g).
Qed.

(** The column of the pair [(d, j)] is column [d(d+1)/2 + j]. *)
Lemma triangle_double (d : nat) : 2 * (d * (d + 1) / 2) = d * (d + 1).
Proof.
  induction d as [|d IH]; [reflexivity|].
  replace (S d * (S d + 1)) with (d * (d + 1) + (d + 1) * 2) by lia.
  rewrite Nat.div_add by lia. lia.
Qed.

Lemma exponent_pairs_index (degree d j : nat) :
  j <= d -> d <= degree ->
  nth (d * (d + 1) / 2 + j) (exponent_pairs degree) (0, 0) = (d, j).
Proof.
  intros Hj. induction degree as [|n IH]; intros Hd.
  - assert (d = 0) by lia. assert (j = 0) by lia. subst. reflexivity.
  - rewrite exponent_pairs_succ.
    pose proof (exponent_pairs_length2 n) as L2.
    pose proof (triangle_double d) as T.
    destruct (Nat.eq_dec d (S n)) as [->|Hne].
    + assert (E : S n * (S n + 1) / 2 = length (exponent_pairs n)) by nia.
      rewrite E, app_nth2_plus.
      rewrite (nth_indep _ (0, 0) (S n, 0))
        by (rewrite length_map; unfold range; rewrite length_seq; lia).
      rewrite (map_nth (pair (S n))). unfold range.
      rewrite seq_nth by lia. reflexivity.
    + rewrite app_nth1 by nia. apply IH. lia.
Qed.

Lemma evaluate_polynomial_flat (x y : F) (coefficients : list F) (degree : nat) :
  evaluate_polynomial x y coefficients degree
  = fst (fold_left (add_term x y coefficients) (exponent_pairs degree) (f0, 0)).
Proof.
  unfold evaluate_polynomial, exponent_pairs. f_equal.
  rewrite <- (fold_left_nested (add_term x y coefficients) (fun d => range (d + 1))).
  reflexivity.
Qed.

Lemma add_term_beyond (x y : F) (c : list F) (ps : list (nat * nat)) :
  forall v idx, length c <= idx ->
    fold_left (add_term x y c) ps (v, idx) = (v, idx).
Proof.
  induction ps as [|dj ps IH]; intros v idx L; [reflexivity|].
  cbn [fold_left]. unfold add_term at 2.
  destruct (Nat.ltb_spec idx (length c)); [lia|]. apply IH. exact L.
Qed.

Lemma add_terms_sum_any (x y : F) (ps : list (nat * nat)) :
  forall (pre rest : list F) (acc : F),
    fst (fold_left (add_term x y (pre ++ rest)) ps (acc, length pre))
    = fold_left fadd
        (map (fun p => weighted_term x y (fst p) (snd p)) (combine ps rest))
        acc.
Proof.
  induction ps as [|dj ps IH]; intros pre [|c rest] acc; try reflexivity.
  - rewrite app_nil_r, add_term_beyond by lia. reflexivity.
  - cbn [fold_left map combine fst snd]. unfold add_term at 2.
    rewrite length_app; cbn [length].
    destruct (Nat.ltb_spec (length pre) (length pre + S (length rest))) as [_|]; [|lia].
    rewrite nth_middle.
    replace (pre ++ c :: rest) with ((pre ++ [c]) ++ rest)
      by (rewrite <- app_assoc; reflexivity).
    replace (length pre + 1) with (length (pre ++ [c]))
      by (rewrite length_app; reflexivity).
    rewrite IH. reflexivity.
Qed.


Section MultiplicationLaws.
Hypothesis fmul_comm : forall a b : F, fmul a b = fmul b a.
Hypothesis fmul_assoc : forall a b c : F, fmul (fmul a b) c = fmul a (fmul b c).



End MultiplicationLaws.

End Enumeration.

(** ** The design matrix (C9) and its agreement with the evaluator (C1) *)

Section DesignMatrix.
Context {F : Type} {FA : Float64 F}.

(** C9. For every degree of at least 1 and arrays [x], [y] of equal
    length, [create_design_matrix] returns a matrix with one row per point
    and exactly [(degree+1)(degree+2)/2] columns; the row of point [i] lists
    the monomials [x_i^(d-j) * y_i^j] for [d = 0..degree], [j = 0..d] in
    that order, the monomial of [(d, j)] sitting in column [d(d+1)/2 + j];
    column 0 holds the constant term, which is 1 on every row as soon as
    [1 * 1 = 1]. *)
Theorem create_design_matrix_columns (x y : list F) (degree : nat) :
  fmul f1 f1 = f1 ->
  1 <= degree -> length x = length y ->
  exists A,
    create_design_matrix x y degree = Ok A
    /\ shape A = (length x, (degree + 1) * (degree + 2) / 2)
    /\ forall i, i < length x ->
         let row := nth i (rows A) [] in
         let xi := nth i x f0 in
         let yi := nth i y f0 in
         length row = (degree + 1) * (degree + 2) / 2
         /\ row = flat_map (fun d => map (fun j => fmul (fpow xi (d - j)) (fpow yi j))
                                         (range (d + 1)))
                           (range (degree + 1))
         /\ (forall d j, j <= d -> d <= degree ->
               nth (d * (d + 1) / 2 + j) row f0 = fmul (fpow xi (d - j)) (fpow yi j))
         /\ nth 0 row f0 = f1.
Proof.
  intros One _ E. eexists. split; [apply create_design_matrix_rows; exact E|].
  unfold shape; cbn [rows n_cols].
  split.
  { rewrite length_map, length_combine, <- E, Nat.min_id. reflexivity. }
  intros i Li. cbv zeta.
  rewrite (nth_row_points x y (fun pt => poly_terms (fst pt) (snd pt) degree) i E Li).
  cbn [fst snd]. unfold poly_terms.
  repeat split.
  - rewrite length_map, exponent_pairs_length. reflexivity.
  - unfold exponent_pairs. generalize (range (degree + 1)).
    induction l as [|d l IH]; [reflexivity|]. cbn [flat_map].
    rewrite map_app, IH, map_map. reflexivity.
  - intros d j Hj Hd.
    rewrite (nth_indep _ f0 (monomial (nth i x f0, nth i y f0) (0, 0))).
    2:{ rewrite length_map. pose proof (exponent_pairs_length2 degree).
        pose proof (triangle_double d). nia. }
    rewrite (map_nth (monomial (nth i x f0, nth i y f0))).
    rewrite exponent_pairs_index by assumption. reflexivity.
  - destruct (exponent_pairs_head degree) as [rest ->]. exact One.
Qed.


End DesignMatrix.

(** ** Reasoning about computations in [Res] and [M] *)

Lemma res_bind_ok {A B} (r : Res A) (k : A -> Res B) (b : B) :
  res_bind r k = Ok b -> exists a, r = Ok a /\ k a = Ok b.
Proof. destruct r; simpl; intros E; [eauto | discriminate]. Qed.

Lemma bind_ok {A B} (m : M A) (k : A -> M B) (w w' : World) (b : B) :
  bind m k w = (Ok b, w') -> exists a w1, m w = (Ok a, w1) /\ k a w1 = (Ok b, w').
Proof.
  unfold bind. destruct (m w) as [[a|e] w1]; intros E; [eauto | discriminate].
Qed.

Lemma lift_ok {A} (r : Res A) (w w' : World) (a : A) :
  lift r w = (Ok a, w') -> r = Ok a /\ w' = w.
Proof. unfold lift. intros E. inversion E. auto. Qed.

Lemma ret_ok {A} (a a' : A) (w w' : World) :
  ret a w = (Ok a', w') -> a' = a /\ w' = w.
Proof. unfold ret. intros E. inversion E. auto. Qed.

Lemma try_except_ok {A} (m : M A) (h : exn -> M A) (w w' : World) (a : A) :
  try_except m h w = (Ok a, w') ->
  m w = (Ok a, w') \/ exists e w1, m w = (Raise e, w1) /\ h e w1 = (Ok a, w').
Proof.
  unfold try_except. destruct (m w) as [[v|e] w1]; intros E; [left; exact E | right; eauto].
Qed.

Lemma bind_lift {A B} (r : Res A) (k : A -> M B) (a : A) (w : World) :
  r = Ok a -> bind (lift r) k w = k a w.
Proof. intros ->. reflexivity. Qed.

Lemma bind_lift_raise {A B} (r : Res A) (k : A -> M B) (e : exn) (w : World) :
  r = Raise e -> bind (lift r) k w = (Raise e, w).
Proof. intros ->. reflexivity. Qed.

(** Unfolds the monad of a run [H] and splits it along every library call
    and test it makes, dropping the impossible cases. *)
Ltac run_cases H :=
  cbv [try_except bind lift ret raise pushInfo pushWarning log_event isCanceled] in H;
  repeat (match type of H with
          | context [match ?x with _ => _ end] =>
              lazymatch x with
              | context [match _ with _ => _ end] => fail
              | _ => first [ is_var x; destruct x | destruct x eqn:? ]
              end
          end; cbn beta iota in H; try discriminate H).

Ltac use_equations :=
  repeat (match goal with
          | E : _ = Ok _ |- _ => rewrite E
          | E : _ = Some _ |- _ => rewrite E
          | E : _ = None |- _ => rewrite E
          end; cbn [res_bind]).

(** ** The least-squares solver (C6, C2) *)

Section SolverProperties.
Context {F : Type} {FA : Float64 F} {NL : NumLib F}.

(** The body of the [try] block of [least_squares_fit]. *)
Lemma least_squares_fit_ok (A : Matrix F) (z : list F) (w : option (list F))
  (world world' : World) (c r : list F) (st : ModelStats) :
  least_squares_fit A z w world = (Ok (c, r, st), world') ->
  exists As zs ss rk sv,
    solved_system A z w = Ok (As, zs)
    /\ np_linalg_lstsq As zs = Ok (c, ss, rk, sv)
    /\ residual_of A z c = Ok r
    /\ st = mkModelStats rk sv rk None.
Proof.
  intros Run. unfold least_squares_fit in Run. run_cases Run.
  all: inversion Run; subst; clear Run.
  all: unfold solved_system, residual_of; use_equations; cbn [res_bind]; eauto 10.
Qed.

(** C6. Whenever [least_squares_fit] returns, weighted or not, the
    residuals it returns are [z - np.dot(A, coefficients)] for the caller's
    unweighted [A] and [z]; the weights enter only the system given to
    [np.linalg.lstsq], whose solution is the returned coefficient vector. *)
Theorem least_squares_fit_residuals_unweighted (A : Matrix F) (z : list F)
  (w : option (list F)) (world world' : World) (c r : list F) (st : ModelStats) :
  least_squares_fit A z w world = (Ok (c, r, st), world') ->
  (exists z_pred, np_dot A c = Ok z_pred /\ np_sub z z_pred = Ok r)
  /\ (exists As zs ss rk sv,
        solved_system A z w = Ok (As, zs) /\ np_linalg_lstsq As zs = Ok (c, ss, rk, sv)).
Proof.
  intros Run. destruct (least_squares_fit_ok _ _ _ _ _ _ _ _ Run)
    as (As & zs & ss & rk & sv & Sys & Sol & Res & _).
  split.
  - unfold residual_of in Res. apply res_bind_ok in Res. exact Res.
  - eauto 8.
Qed.

(** What a returning [polynomial_regression] has computed. *)
Lemma polynomial_regression_ok (A : Matrix F) (z c r : list F) :
  CoreAnalysis.polynomial_regression A z = Ok (c, r) ->
  (exists AtA Atz, matmul (transpose A) A = Ok AtA
                   /\ np_dot (transpose A) z = Ok Atz
                   /\ np_linalg_solve AtA Atz = Ok c)
  \/ (exists P, np_linalg_pinv A = Ok P /\ np_dot P z = Ok c).
Proof.
  unfold CoreAnalysis.polynomial_regression, res_try, res_bind. intros Run.
  run_cases Run.
  all: inversion Run; subst; clear Run.
  all: first [ left; do 2 eexists; repeat split; first [eassumption | reflexivity]
             | right; eexists; split; first [eassumption | reflexivity] ].
Qed.

(** C2, as the code has it.  [least_squares_fit] never retries: when
    [np.linalg.lstsq] raises on the system it was given, the fit raises
    [QgsProcessingException] at once, leaving the feedback log as it was.
    The retry exists in the plugin's [polynomial_regression] only: when
    [np.linalg.solve] raises [LinAlgError] on the normal equations the
    result is that of the pseudo-inverse, and an exception of the fallback
    reaches the caller unchanged.  Neither function looks at the
    coefficients it got: whenever [least_squares_fit] returns, its
    coefficients are exactly those [np.linalg.lstsq] produced, and whenever
    [polynomial_regression] returns, exactly those of [np.linalg.solve] or
    of [pinv(A) @ z]; so NaN coefficients come back without an error
    precisely when the library routine hands them back without raising. *)
Theorem solver_failure_handling (A : Matrix F) (z : list F) (w : option (list F))
  (world : World) :
  (forall As zs e,
      solved_system A z w = Ok (As, zs) ->
      np_linalg_lstsq As zs = Raise e ->
      least_squares_fit A z w world
      = (Raise (QgsProcessingException (fit_error_message e)), world))
  /\ (forall c r st world',
        least_squares_fit A z w world = (Ok (c, r, st), world') ->
        exists As zs ss rk sv,
          solved_system A z w = Ok (As, zs)
          /\ np_linalg_lstsq As zs = Ok (c, ss, rk, sv))
  /\ (forall AtA Atz msg,
        matmul (transpose A) A = Ok AtA ->
        np_dot (transpose A) z = Ok Atz ->
        np_linalg_solve AtA Atz = Raise (LinAlgError msg) ->
        CoreAnalysis.polynomial_regression A z = pinv_fallback A z
        /\ (forall e, np_linalg_pinv A = Raise e ->
                      CoreAnalysis.polynomial_regression A z = Raise e))
  /\ (forall c r,
        CoreAnalysis.polynomial_regression A z = Ok (c, r) ->
        (exists AtA Atz, matmul (transpose A) A = Ok AtA
                         /\ np_dot (transpose A) z = Ok Atz
                         /\ np_linalg_solve AtA Atz = Ok c)
        \/ (exists P, np_linalg_pinv A = Ok P /\ np_dot P z = Ok c)).
Proof.
  split; [|split; [|split]].
  - intros As zs e Sys Sol. unfold solved_system in Sys.
    unfold least_squares_fit, fit_error_message.
    cbv [try_except bind lift ret raise pushInfo log_event].
    destruct (usable_weights w z) as [wv|].
    + destruct (scale_rows A (map np_sqrt wv)); [|discriminate].
      destruct (np_mul z (map np_sqrt wv)); [|discriminate].
      cbn [res_bind] in Sys. inversion Sys; subst. rewrite Sol.
      destruct (is_LinAlgError e); reflexivity.
    + inversion Sys; subst. rewrite Sol.
      destruct (is_LinAlgError e); reflexivity.
  - intros c r st world' Run.
    destruct (least_squares_fit_ok _ _ _ _ _ _ _ _ Run)
      as (As & zs & ss & rk & sv & Sys & Sol & _).
    eauto 8.
  - intros AtA Atz msg E1 E2 E3.
    assert (P : CoreAnalysis.polynomial_regression A z = pinv_fallback A z).
    { unfold CoreAnalysis.polynomial_regression, pinv_fallback, residual_of.
      rewrite E1, E2. cbn [res_bind]. rewrite E3. cbn [res_bind res_try is_LinAlgError].
      destruct (np_linalg_pinv A) as [P|]; [|reflexivity]. cbn [res_bind].
      destruct (np_dot P z) as [c|]; [|reflexivity]. cbn [res_bind].
      destruct (np_dot A c); reflexivity. }
    split; [exact P|].
    intros e E. rewrite P. unfold pinv_fallback. rewrite E. reflexivity.
  - intros c r. apply polynomial_regression_ok.
Qed.

(** ** Robust regression (C5, C10) *)

Lemma robust_iteration_small_mad A z w tol iteration c r world :
  f_ltb (np_median (map np_abs r)) (float_lit (1 # 10000000000)) = true ->
  robust_iteration A z w tol iteration c r world = (Ok Break, world).
Proof. intros E. unfold robust_iteration. rewrite E. reflexivity. Qed.

Lemma robust_iteration_refit_fails A z w tol iteration c r world Aw zw e :
  f_ltb (np_median (map np_abs r)) (float_lit (1 # 10000000000)) = false ->
  reweighted_system A z w r = Ok (Aw, zw) ->
  np_linalg_lstsq Aw zw = Raise e ->
  robust_iteration A z w tol iteration c r world = (Ok Break, world).
Proof.
  intros E Sys Sol. unfold robust_iteration. rewrite E.
  unfold reweighted_system, robust_weights_of in Sys.
  cbv [bind lift ret].
  destruct w as [wv|].
  - destruct (np_mul (huber_weights _ _) wv) as [rw|]; [|discriminate].
    cbn [res_bind] in Sys.
    destruct (scale_rows A (map np_sqrt rw)); [|discriminate].
    destruct (np_mul z (map np_sqrt rw)); [|discriminate].
    inversion Sys; subst. rewrite Sol. reflexivity.
  - cbn [res_bind] in Sys.
    destruct (scale_rows A _); [|discriminate].
    destruct (np_mul z _); [|discriminate].
    inversion Sys; subst. rewrite Sol. reflexivity.
Qed.

Lemma robust_iteration_refit A z w tol iteration c r world Aw zw c' ss rk sv change :
  f_ltb (np_median (map np_abs r)) (float_lit (1 # 10000000000)) = false ->
  reweighted_system A z w r = Ok (Aw, zw) ->
  np_linalg_lstsq Aw zw = Ok (c', ss, rk, sv) ->
  coefficient_change c' c = Ok change ->
  robust_iteration A z w tol iteration c r world
  = if f_ltb change tol then (Ok Break, log_to (converged_message iteration) world)
    else match residual_of A z c' with
         | Ok r' => (Ok (Continue (c', r')), world)
         | Raise e => (Raise e, world)
         end.
Proof.
  intros E Sys Sol Chg. unfold robust_iteration. rewrite E.
  unfold reweighted_system, robust_weights_of in Sys.
  unfold coefficient_change in Chg. unfold residual_of.
  cbv [bind lift ret pushInfo log_event].
  destruct w as [wv|].
  - destruct (np_mul (huber_weights _ _) wv) as [rw|]; [|discriminate].
    cbn [res_bind] in Sys.
    destruct (scale_rows A (map np_sqrt rw)); [|discriminate].
    destruct (np_mul z (map np_sqrt rw)); [|discriminate].
    inversion Sys; subst. rewrite Sol.
    destruct (np_sub c' c); [|discriminate]. cbn [res_bind] in Chg. rewrite Chg.
    destruct (f_ltb change tol); [reflexivity|].
    destruct (np_dot A c') as [pred|]; [|reflexivity]. cbn [res_bind].
    destruct (np_sub z pred); reflexivity.
  - cbn [res_bind] in Sys.
    destruct (scale_rows A _); [|discriminate].
    destruct (np_mul z _); [|discriminate].
    inversion Sys; subst. rewrite Sol.
    destruct (np_sub c' c); [|discriminate]. cbn [res_bind] in Chg. rewrite Chg.
    destruct (f_ltb change tol); [reflexivity|].
    destruct (np_dot A c') as [pred|]; [|reflexivity]. cbn [res_bind].
    destruct (np_sub z pred); reflexivity.
Qed.

(** A pass that continues hands on a consistent pair. *)
Lemma robust_iteration_continue A z w tol iteration c r world c' r' world' :
  robust_iteration A z w tol iteration c r world = (Ok (Continue (c', r')), world') ->
  residual_of A z c' = Ok r'.
Proof.
  intros Run. unfold robust_iteration in Run. run_cases Run.
  all: inversion Run; subst; clear Run.
  all: unfold residual_of; use_equations; reflexivity.
Qed.

Lemma robust_loop_break A z w tol iteration rest last c r world world' :
  robust_iteration A z w tol iteration c r world = (Ok Break, world') ->
  robust_loop A z w tol (iteration :: rest) last c r world
  = (Ok (c, r, Some iteration), world').
Proof. intros E. cbn [robust_loop]. unfold bind. rewrite E. reflexivity. Qed.

Lemma robust_loop_continue A z w tol iteration rest last c r world c' r' world' :
  robust_iteration A z w tol iteration c r world = (Ok (Continue (c', r')), world') ->
  robust_loop A z w tol (iteration :: rest) last c r world
  = robust_loop A z w tol rest (Some iteration) c' r' world'.
Proof. intros E. cbn [robust_loop]. unfold bind. rewrite E. reflexivity. Qed.

(** The loop keeps the pair consistent and stops within its range. *)
Lemma robust_loop_result A z w tol (iterations : list nat) :
  forall last c r world c' r' last' world',
    robust_loop A z w tol iterations last c r world = (Ok (c', r', last'), world') ->
    (residual_of A z c = Ok r -> residual_of A z c' = Ok r')
    /\ (last' = last \/ exists it, last' = Some it /\ In it iterations).
Proof.
  induction iterations as [|iteration rest IH]; intros last c r world c' r' last' world' Run.
  - cbn [robust_loop] in Run. unfold ret in Run. inversion Run; subst. auto.
  - cbn [robust_loop] in Run. unfold bind in Run.
    destruct (robust_iteration A z w tol iteration c r world) as [[[|[c1 r1]]|e] w1] eqn:Step;
      [| |discriminate].
    + unfold ret in Run. inversion Run; subst. split; [auto|].
      right. exists iteration. split; [reflexivity | left; reflexivity].
    + apply IH in Run. destruct Run as [Inv Last]. split.
      * intros _. apply Inv. eapply robust_iteration_continue; eassumption.
      * right. destruct Last as [->|(it & -> & I)].
        -- exists iteration. split; [reflexivity | left; reflexivity].
        -- exists it. split; [reflexivity | right; exact I].
Qed.

Lemma robust_regression_fit_ok A z w max_iter tol world c r st world' :
  robust_regression_fit A z w max_iter tol world = (Ok (c, r, st), world') ->
  residual_of A z c = Ok r
  /\ exists n, robust_iterations st = Some n /\ 1 <= n <= max_iter.
Proof.
  intros Run. unfold robust_regression_fit in Run.
  cbv [bind pushInfo log_event] in Run.
  destruct (least_squares_fit A z w _) as [[[[c0 r0] st0]|e] w1] eqn:Fit; [|discriminate].
  destruct (robust_loop A z w tol (range max_iter) None c0 r0 w1)
    as [[[[c1 r1] last]|e] w2] eqn:Loop; [|discriminate].
  destruct last as [it|]; [|discriminate].
  unfold ret in Run. inversion Run; subst; clear Run.
  apply robust_loop_result in Loop. destruct Loop as [Inv Last].
  split.
  - apply Inv. apply least_squares_fit_ok in Fit.
    destruct Fit as (? & ? & ? & ? & ? & _ & _ & R & _). exact R.
  - cbn [robust_iterations]. exists (it + 1). split; [reflexivity|].
    destruct Last as [|(it' & E & I)]; [discriminate|].
    inversion E; subst. unfold range in I. apply in_seq in I. lia.
Qed.

Lemma huber_weights_per_sample (r : list F) (k : F) :
  huber_weights (map np_abs r) k
  = map (fun res => if f_leb (np_abs res) k then f1 else fdiv k (np_abs res)) r.
Proof. unfold huber_weights. rewrite map_map. reflexivity. Qed.

(** C5. One pass of the reweighting loop, at iteration [iteration] with
    current fit [(c, r)], where [mad] is the median of the absolute
    residuals and [k = 1.345 * mad]:
    - if [mad < 1e-10] the loop stops at once and returns [(c, r)];
    - otherwise sample [i] gets the weight 1 when [|r_i| <= k] and
      [k / |r_i|] when not, times the caller's weight when weights were
      given, and least squares is solved on rows and targets scaled by
      the square roots of these weights;
    - if that solve raises, the loop stops with [(c, r)];
    - if the largest absolute change of a coefficient is below [tol] the
      loop stops with [(c, r)], noting the iteration count in the log;
    - else the loop goes on with the new coefficients and their residuals,
      and ends when the range of [max_iter] iterations is used up.
    [robust_regression_fit] is this loop and nothing else: it logs its
    start, takes the fit of [least_squares_fit] as the first current fit,
    runs the passes [0, 1, ..., max_iter - 1] in this order from it, and
    returns the fit the loop ends with, recording the number of the last
    pass plus one, which lies between 1 and [max_iter]; the defaults are
    20 iterations and [tol = 1e-6]. *)
Theorem robust_iteration_spec (A : Matrix F) (z : list F) (w : option (list F))
  (tol : F) (iteration : nat) (c r : list F) (world : World) :
  let mad := np_median (map np_abs r) in
  let k := fmul (float_lit (1345 # 1000)) mad in
  let huber :=
    map (fun res => if f_leb (np_abs res) k then f1 else fdiv k (np_abs res)) r in
  (f_ltb mad (float_lit (1 # 10000000000)) = true ->
   forall rest last,
     robust_loop A z w tol (iteration :: rest) last c r world
     = (Ok (c, r, Some iteration), world))
  /\ (f_ltb mad (float_lit (1 # 10000000000)) = false ->
      forall rw Aw zw,
        match w with Some wv => np_mul huber wv | None => Ok huber end = Ok rw ->
        scale_rows A (map np_sqrt rw) = Ok Aw ->
        np_mul z (map np_sqrt rw) = Ok zw ->
        (forall e, np_linalg_lstsq Aw zw = Raise e ->
                   forall rest last,
                     robust_loop A z w tol (iteration :: rest) last c r world
                     = (Ok (c, r, Some iteration), world))
        /\ (forall c' ss rk sv diff change,
              np_linalg_lstsq Aw zw = Ok (c', ss, rk, sv) ->
              np_sub c' c = Ok diff ->
              np_max (map np_abs diff) = Ok change ->
              forall rest last,
                (f_ltb change tol = true ->
                 robust_loop A z w tol (iteration :: rest) last c r world
                 = (Ok (c, r, Some iteration), log_to (converged_message iteration) world))
                /\ (f_ltb change tol = false ->
                    forall r', residual_of A z c' = Ok r' ->
                      robust_loop A z w tol (iteration :: rest) last c r world
                      = robust_loop A z w tol rest (Some iteration) c' r' world)))
  /\ (forall last, robust_loop A z w tol [] last c r world = (Ok (c, r, last), world))
  /\ (forall max_iter c0 r0 st0 world0 c' r' it world',
        least_squares_fit A z w (log_to (PushInfo "Starting robust regression...") world)
        = (Ok (c0, r0, st0), world0) ->
        robust_loop A z w tol (range max_iter) None c0 r0 world0
        = (Ok (c', r', Some it), world') ->
        robust_regression_fit A z w max_iter tol world
        = (Ok (c', r',
               mkModelStats (rank st0) (singular_values st0) (effective_parameters st0)
                 (Some (it + 1))),
           world'))
  /\ (forall max_iter c' r' st world',
        robust_regression_fit A z w max_iter tol world = (Ok (c', r', st), world') ->
        exists c0 r0 st0 world0 it,
          least_squares_fit A z w (log_to (PushInfo "Starting robust regression...") world)
          = (Ok (c0, r0, st0), world0)
          /\ robust_loop A z w tol (range max_iter) None c0 r0 world0
             = (Ok (c', r', Some it), world')
          /\ st = mkModelStats (rank st0) (singular_values st0) (effective_parameters st0)
                    (Some (it + 1))
          /\ 1 <= it + 1 <= max_iter)
  /\ default_max_iter = 20
  /\ default_tol = float_lit (1 # 1000000).
Proof.
  cbv zeta. split; [|split; [|split; [|split; [|split; [|split]]]]]; try reflexivity.
  - intros Small rest last. apply robust_loop_break.
    apply robust_iteration_small_mad. exact Small.
  - intros Big rw Aw zw Hrw HA Hz.
    assert (Sys : reweighted_system A z w r = Ok (Aw, zw)).
    { unfold reweighted_system, robust_weights_of.
      rewrite huber_weights_per_sample.
      destruct w as [wv|]; [rewrite Hrw | inversion Hrw; subst];
        cbn [res_bind]; rewrite HA; cbn [res_bind]; rewrite Hz; reflexivity. }
    split.
    + intros e Sol rest last. apply robust_loop_break.
      eapply robust_iteration_refit_fails; eassumption.
    + intros c' ss rk sv diff change Sol Hd Hc rest last.
      assert (Chg : coefficient_change c' c = Ok change)
        by (unfold coefficient_change; rewrite Hd; exact Hc).
      pose proof (robust_iteration_refit A z w tol iteration c r world
                    Aw zw c' ss rk sv change Big Sys Sol Chg) as Step.
      split.
      * intros Conv. rewrite Conv in Step. apply robust_loop_break. exact Step.
      * intros NotConv r' Hr. rewrite NotConv, Hr in Step.
        apply robust_loop_continue. exact Step.
  - intros max_iter c0 r0 st0 world0 c' r' it world' Fit Loop.
    unfold robust_regression_fit. cbv [bind pushInfo log_event].
    fold (log_to (PushInfo "Starting robust regression...") world).
    rewrite Fit, Loop. reflexivity.
  - intros max_iter c' r' st world' Run.
    unfold robust_regression_fit in Run. cbv [bind pushInfo log_event] in Run.
    fold (log_to (PushInfo "Starting robust regression...") world) in Run.
    destruct (least_squares_fit A z w _) as [[[[c0 r0] st0]|e] world0] eqn:Fit;
      [|discriminate Run].
    destruct (robust_loop A z w tol (range max_iter) None c0 r0 world0)
      as [[[[c1 r1] last]|e] world1] eqn:Loop; [|discriminate Run].
    destruct last as [it|]; [|discriminate Run].
    unfold ret in Run. inversion Run; subst; clear Run.
    exists c0, r0, st0, world0, it.
    split; [reflexivity|]. split; [exact Loop|]. split; [reflexivity|]. split; [lia|].
    apply robust_loop_result in Loop. destruct Loop as [_ [Same|(it' & E & I)]];
      [discriminate Same|].
    inversion E; subst. unfold range in I. apply in_seq in I. lia.
Qed.

(** C10. Whenever [robust_regression_fit] returns, by whichever exit of
    its loop, the residuals it returns are [z - np.dot(A, coefficients)]
    for the coefficients it returns.  In particular, when the convergence
    test of a pass succeeds, the loop returns the pair [(c0, r0)] it
    entered the pass with; the coefficients [c1] of that pass's refit are
    dropped. *)
Theorem robust_regression_fit_consistent (A : Matrix F) (z : list F)
  (w : option (list F)) (max_iter : nat) (tol : F) (world world' : World)
  (c r : list F) (st : ModelStats) :
  robust_regression_fit A z w max_iter tol world = (Ok (c, r, st), world') ->
  residual_of A z c = Ok r
  /\ (forall iteration rest last c0 r0 w0 Aw zw c1 ss rk sv change,
        f_ltb (np_median (map np_abs r0)) (float_lit (1 # 10000000000)) = false ->
        reweighted_system A z w r0 = Ok (Aw, zw) ->
        np_linalg_lstsq Aw zw = Ok (c1, ss, rk, sv) ->
        coefficient_change c1 c0 = Ok change ->
        f_ltb change tol = true ->
        robust_loop A z w tol (iteration :: rest) last c0 r0 w0
        = (Ok (c0, r0, Some iteration), log_to (converged_message iteration) w0)).
Proof.
  intros Run. split.
  - apply robust_regression_fit_ok in Run. apply Run.
  - intros iteration rest last c0 r0 w0 Aw zw c1 ss rk sv change Big Sys Sol Chg Conv.
    apply robust_loop_break.
    rewrite (robust_iteration_refit A z w tol iteration c0 r0 w0
               Aw zw c1 ss rk sv change Big Sys Sol Chg).
    rewrite Conv. reflexivity.
Qed.

End SolverProperties.

(** ** Cross-validation (C3, C4, C7) and statistics (C8) *)

Section CrossValidation.
Context {F : Type} {FA : Float64 F} {NL : NumLib F}.

Lemma take_idx_length {A} (a : list A) (idx : list nat) (t : list A) :
  take_idx a idx = Ok t -> length t = length idx.
Proof.
  revert t; induction idx as [|i idx IH]; intros t E; simpl in E.
  - inversion E. reflexivity.
  - destruct (nth_error a i); [|discriminate].
    destruct (take_idx a idx) as [t'|]; [|discriminate].
    inversion E. simpl. f_equal. apply IH. reflexivity.
Qed.

Lemma cv_fold_fit_scored x y z w degree train_idx test_idx world mse r2 world' :
  cv_fold_fit x y z w degree train_idx test_idx world = (Ok (Some (mse, r2)), world') ->
  fold_fit_spec x y z w degree train_idx test_idx mse r2.
Proof.
  intros Run. unfold cv_fold_fit in Run. run_cases Run.
  all: inversion Run; subst; clear Run.
  all: match goal with
       | Fit : least_squares_fit _ _ _ _ = _ |- _ =>
           apply least_squares_fit_ok in Fit;
           destruct Fit as (As & zs & ss & rk & sv & Sys & Sol & _)
       end.
  all: unfold solved_system, usable_weights in Sys.
  - match goal with
    | Ew : take_idx _ train_idx = Ok ?wt, Ez : take_idx z train_idx = Ok ?zt |- _ =>
        rewrite (take_idx_length _ _ _ Ew), <- (take_idx_length _ _ _ Ez),
          Nat.eqb_refl in Sys
    end.
    apply res_bind_ok in Sys. destruct Sys as (Aw & HA & Sys).
    apply res_bind_ok in Sys. destruct Sys as (zw & Hz & Sys).
    inversion Sys; subst.
    unfold fold_fit_spec. repeat eexists; eauto.
  - inversion Sys; subst.
    unfold fold_fit_spec. repeat eexists; eauto.
Qed.

Lemma cv_loop_scores x y z w degree indices fold_size n (folds : list nat) :
  forall ms rs world ms' rs' world',
    cv_loop x y z w degree indices fold_size n folds ms rs world
    = (Ok (ms', rs'), world') ->
    exists scores,
      ms' = ms ++ map fst scores
      /\ rs' = rs ++ map snd scores
      /\ Forall (fun s => exists fold,
                   In fold folds
                   /\ fold_fit_spec x y z w degree
                        (fold_train indices fold_size n fold)
                        (fold_test indices fold_size n fold) (fst s) (snd s))
                scores.
Proof.
  assert (Weaken : forall fold rest scores,
    Forall (fun s => exists f, In f rest
              /\ fold_fit_spec x y z w degree (fold_train indices fold_size n f)
                   (fold_test indices fold_size n f) (fst s) (snd s)) scores ->
    Forall (fun s => exists f, In f (fold :: rest)
              /\ fold_fit_spec x y z w degree (fold_train indices fold_size n f)
                   (fold_test indices fold_size n f) (fst s) (snd s)) scores).
  { intros fold rest scores. apply Forall_impl.
    intros s (f & I & S). exists f. split; [right; exact I | exact S]. }
  induction folds as [|fold rest IH]; intros ms rs world ms' rs' world' Run.
  - cbn [cv_loop] in Run. unfold ret in Run. inversion Run; subst.
    exists []. rewrite !app_nil_r. auto.
  - cbn [cv_loop] in Run. run_cases Run.
    all: try (inversion Run; subst; exists []; rewrite !app_nil_r; auto; fail).
    all: try (apply IH in Run; destruct Run as (scores & -> & -> & All);
              exists scores; auto; fail).
    all: apply IH in Run; destruct Run as (scores & -> & -> & All).
    all: match goal with
         | Fit : cv_fold_fit _ _ _ _ _ _ _ _ = (Ok (Some (?m, ?r)), _) |- _ =>
             apply cv_fold_fit_scored in Fit;
             exists ((m, r) :: scores); cbn [map fst snd];
             rewrite <- !app_assoc; repeat split; auto;
             constructor; [exists fold; split; [left; reflexivity | exact Fit] | auto]
         end.
Qed.

(** C3, as the code has it.  Every fold counted by [cross_validation]
    was fitted by [least_squares_fit] on its training partition, never by
    the reweighting loop; the fit is weighted by the caller's weights of
    the training samples when weights were supplied, and unweighted only
    when none were. *)
Theorem cross_validation_folds_fit (x y z : list F) (w : option (list F))
  (degree k : nat) (world world' : World) (cv : CVResult) :
  10 <= length z ->
  cross_validation x y z w degree k world = (Ok (Some cv), world') ->
  exists indices scores,
    indices = fst (np_random_shuffle (np_random_state world) (range (length z)))
    /\ folds_completed cv = length scores
    /\ mse_mean cv = np_mean (map fst scores)
    /\ r2_mean cv = np_mean (map snd scores)
    /\ Forall (fun s => exists fold,
                 fold < Nat.min k (length z)
                 /\ fold_fit_spec x y z w degree
                      (fold_train indices (length z / k) (length z) fold)
                      (fold_test indices (length z / k) (length z) fold)
                      (fst s) (snd s))
              scores.
Proof.
  intros _ Run. unfold cross_validation in Run.
  destruct (length z <? 10).
  { cbv [bind pushWarning log_event ret] in Run. discriminate Run. }
  unfold bind at 1 in Run. unfold shuffle in Run.
  destruct (np_random_shuffle (np_random_state world) (range (length z)))
    as [indices g] eqn:Sh.
  destruct (k =? 0); [discriminate Run|].
  unfold bind in Run.
  match type of Run with
  | context [cv_loop ?a ?b ?c ?d ?e ?f ?g ?h ?i ?j ?k ?l] =>
      destruct (cv_loop a b c d e f g h i j k l) as [[[ms rs]|e0] w1] eqn:Loop
  end; [|discriminate Run].
  apply cv_loop_scores in Loop. destruct Loop as (scores & Hm & Hr & All).
  cbn [app] in Hm, Hr. subst ms rs.
  destruct (map fst scores) eqn:Em; [discriminate Run|].
  unfold ret in Run. inversion Run; subst; clear Run. cbn.
  exists indices, scores. rewrite <- Em.
  repeat split; try reflexivity.
  - rewrite <- (length_map fst scores), Em. reflexivity.
  - revert All. apply Forall_impl. intros s (fold & I & S).
    exists fold. split; [|exact S].
    unfold range in I. apply in_seq in I. lia.
Qed.

Lemma log_blind_ret {A} (a : A) : log_blind (ret a).
Proof. intros w1 w2 S. auto. Qed.

Lemma log_blind_lift {A} (r : Res A) : log_blind (lift r).
Proof. intros w1 w2 S. auto. Qed.

Lemma log_blind_raise {A} (e : exn) : log_blind (@raise A e).
Proof. intros w1 w2 S. auto. Qed.

Lemma log_blind_log_event (e : event) : log_blind (log_event e).
Proof. intros w1 w2 S. split; [reflexivity | exact S]. Qed.

Lemma log_blind_isCanceled : log_blind isCanceled.
Proof.
  intros w1 w2 [C G]. unfold isCanceled, same_inputs. rewrite C.
  destruct (cancel_answers w2) eqn:E; cbn [fst snd cancel_answers np_random_state].
  - rewrite C, E. auto.
  - auto.
Qed.

Lemma log_blind_shuffle (indices : list nat) : log_blind (shuffle indices).
Proof.
  intros w1 w2 [C G]. unfold shuffle. rewrite G.
  destruct (np_random_shuffle (np_random_state w2) indices).
  split; [reflexivity | split; auto].
Qed.

Lemma log_blind_bind {A B} (m : M A) (k : A -> M B) :
  log_blind m -> (forall a, log_blind (k a)) -> log_blind (bind m k).
Proof.
  intros Hm Hk w1 w2 S. unfold bind.
  destruct (Hm w1 w2 S) as [E S'].
  destruct (m w1) as [r1 u1], (m w2) as [r2 u2]. cbn [fst snd] in *. subst r2.
  destruct r1; [apply Hk; exact S' | auto].
Qed.

Lemma log_blind_try_except {A} (m : M A) (h : exn -> M A) :
  log_blind m -> (forall e, log_blind (h e)) -> log_blind (try_except m h).
Proof.
  intros Hm Hh w1 w2 S. unfold try_except.
  destruct (Hm w1 w2 S) as [E S'].
  destruct (m w1) as [r1 u1], (m w2) as [r2 u2]. cbn [fst snd] in *. subst r2.
  destruct r1; [auto | apply Hh; exact S'].
Qed.

Ltac log_blindness :=
  repeat first
    [ apply log_blind_ret | apply log_blind_lift | apply log_blind_raise
    | apply log_blind_log_event | apply log_blind_isCanceled
    | apply log_blind_shuffle
    | apply log_blind_bind; [|intros]
    | apply log_blind_try_except; [|intros]
    | match goal with
      | |- log_blind (match ?x with _ => _ end) => destruct x
      end ].

Lemma log_blind_least_squares_fit A z w : log_blind (least_squares_fit A z w).
Proof. unfold least_squares_fit, pushInfo. log_blindness. Qed.

Lemma log_blind_cv_fold_fit x y z w degree train_idx test_idx :
  log_blind (cv_fold_fit x y z w degree train_idx test_idx).
Proof.
  unfold cv_fold_fit.
  repeat first [ apply log_blind_least_squares_fit | progress log_blindness ].
Qed.

Lemma log_blind_cv_loop x y z w degree indices fold_size n (folds : list nat) :
  forall ms rs, log_blind (cv_loop x y z w degree indices fold_size n folds ms rs).
Proof.
  induction folds as [|fold rest IH]; intros ms rs; cbn [cv_loop]; unfold pushWarning.
  - log_blindness.
  - repeat first [ apply IH | apply log_blind_cv_fold_fit | progress log_blindness ].
Qed.

Lemma log_blind_cross_validation x y z w degree k :
  log_blind (cross_validation x y z w degree k).
Proof.
  unfold cross_validation, pushWarning.
  repeat first [ apply log_blind_cv_loop | progress log_blindness ].
Qed.

(** C4. The only randomness [cross_validation] consumes is the state of
    NumPy's global generator, which [np.random.seed] sets.  Two runs on the
    same samples that start by seeding with the same seed, and whose
    [feedback] objects answer [isCanceled] alike, draw the same permutation
    of the sample indices (hence the same folds), compute the same
    per-fold [mse] and [r2] lists and return the same result, whatever the
    generator state and the log were before. *)
Theorem cross_validation_seed_deterministic (x y z : list F) (w : option (list F))
  (degree k : nat) (seed : N) (world1 world2 : World) :
  cancel_answers world1 = cancel_answers world2 ->
  let seeded := fun wd => snd (np_random_seed seed wd) in
  let shuffled := fun wd => shuffle (range (length z)) (seeded wd) in
  fst (shuffled world1) = fst (shuffled world2)
  /\ (forall indices,
        fst (cv_loop x y z w degree indices (length z / k) (length z)
               (range (Nat.min k (length z))) [] [] (snd (shuffled world1)))
        = fst (cv_loop x y z w degree indices (length z / k) (length z)
                 (range (Nat.min k (length z))) [] [] (snd (shuffled world2))))
  /\ fst (cross_validation x y z w degree k (seeded world1))
     = fst (cross_validation x y z w degree k (seeded world2)).
Proof.
  intros C. cbv zeta.
  assert (S : same_inputs (snd (np_random_seed seed world1))
                          (snd (np_random_seed seed world2)))
    by (split; [exact C | reflexivity]).
  split; [|split].
  - apply (log_blind_shuffle (range (length z)) _ _ S).
  - intros indices. apply log_blind_cv_loop.
    apply (log_blind_shuffle (range (length z)) _ _ S).
  - apply (log_blind_cross_validation x y z w degree k _ _ S).
Qed.

(** The guards on the sample count: [cross_validation] itself refuses
    fewer than 10 samples and accepts 10; the driver calls it only for
    more than 10. *)
Lemma cross_validation_too_few x y z w degree k world :
  length z < 10 ->
  cross_validation x y z w degree k world
  = (Ok None, log_to (PushWarning "Too few points for cross-validation") world).
Proof.
  intros L. unfold cross_validation.
  destruct (Nat.ltb_spec (length z) 10); [reflexivity | lia].
Qed.

Lemma trend_surface_analysis_cv_guard x y z w degree cl robust world res world' :
  length z <= 10 ->
  trend_surface_analysis x y z w degree cl true robust world = (Ok res, world') ->
  res_cv_results res = None.
Proof.
  intros L Run. unfold trend_surface_analysis in Run.
  destruct (Nat.ltb_spec 10 (length z)); [lia|].
  cbn [andb] in Run. run_cases Run.
  all: inversion Run; reflexivity.
Qed.

(** C8, as the code has it.  With [n <= p] samples the statistics record
    has every goodness-of-fit field equal to zero and no cross-validation
    entries, while [n_observations] is [n] and [n_parameters] is [p], which
    is at least 1. *)
Theorem calculate_statistics_degenerate (z_obs z_pred residuals : list F)
  (degree : nat) (cv_results : option CVResult) :
  length z_obs <= (degree + 1) * (degree + 2) / 2 ->
  calculate_statistics z_obs z_pred residuals degree cv_results
  = mkModelStatistics (length z_obs) ((degree + 1) * (degree + 2) / 2)
      f0 f0 f0 f0 f0 f0 f0 f0 f0 None None None
  /\ 1 <= n_parameters (calculate_statistics z_obs z_pred residuals degree cv_results).
Proof.
  intros L. unfold calculate_statistics.
  destruct (Nat.leb_spec (length z_obs) ((degree + 1) * (degree + 2) / 2)); [|lia].
  split; [reflexivity|]. cbn [n_parameters].
  pose proof (exponent_pairs_length degree) as E. unfold n_terms_of in E.
  destruct (exponent_pairs_head degree) as [rest P]. rewrite P in E.
  rewrite <- E. simpl. lia.
Qed.

End CrossValidation.

(** ** Concrete runs *)

Import ExactQ.
#[local] Existing Instance ExactQ.numlib.
#[local] Existing Instance Binary64.Float64_binary64 | 100.
#[local] Existing Instance NanQ.Float64_qn | 100.
#[local] Existing Instance NanQ.numlib | 100.

(** The design matrix of the points (2, 5) and (3, 7) for degree 2, over
    the integers: six columns, the row of (3, 7) is
    [1, x, y, x^2, xy, y^2], and the pair [(d, j) = (2, 1)] sits in
    column 4. *)
Lemma create_design_matrix_columns_witness :
  exists A,
    create_design_matrix [2; 3]%Z [5; 7]%Z 2 = Ok A
    /\ shape A = (2, 6)
    /\ nth 1 (rows A) [] = [1; 3; 7; 9; 21; 49]%Z
    /\ nth 4 (nth 1 (rows A) []) 0%Z = 21%Z
    /\ nth 0 (nth 1 (rows A) []) 0%Z = 1%Z.
Proof.
  destruct (create_design_matrix_columns (FA := Float64_Z) [2; 3]%Z [5; 7]%Z 2
              eq_refl (le_S 1 1 (le_n 1)) eq_refl) as (A & HA & Hs & Hr).
  exists A. split; [exact HA|]. split; [exact Hs|].
  destruct (Hr 1 (le_n 2)) as (_ & Hrow & Hidx & Hone).
  split; [rewrite Hrow; reflexivity|].
  split; [apply (Hidx 2 1 (le_S 1 1 (le_n 1)) (le_n 2)) | exact Hone].
Defined.



(** A weighted fit of the bent plane: the coefficients differ from the
    unweighted ones, the residuals are taken against the unweighted
    targets. *)
Lemma least_squares_fit_residuals_unweighted_witness :
  (exists z_pred, np_dot plane_A [3 # 5; 3 # 2; 14 # 5]%Q = Ok z_pred
                  /\ np_sub bent_z z_pred = Ok [2 # 5; -1 # 10; -2 # 5; 1 # 10]%Q)
  /\ (exists As zs ss rk sv,
        solved_system plane_A bent_z (Some bent_w) = Ok (As, zs)
        /\ np_linalg_lstsq As zs = Ok ([3 # 5; 3 # 2; 14 # 5]%Q, ss, rk, sv)).
Proof.
  eapply (least_squares_fit_residuals_unweighted plane_A bent_z (Some bent_w) world0).
  vm_compute. reflexivity.
Defined.

(** Two inputs on which the claim fails, with the library behaving as
    NumPy does.

    A negative weight: its square root is NaN, the weighted matrix has a
    row of NaN, [np.linalg.lstsq] raises "SVD did not converge", and
    [least_squares_fit] raises at once, although the pseudo-inverse of the
    design matrix exists and [pinv(A) @ z], the fallback of the plugin,
    gives the coefficients of the unweighted fit.

    A target with a NaN: [np.linalg.lstsq] and [np.linalg.solve] return NaN
    coefficients without raising, and both [least_squares_fit] and
    [polynomial_regression] return them without an error. *)
Lemma fit_without_retry_or_nan_check :
  (exists As zs,
      solved_system NanQ.plane_A NanQ.bent_z (Some NanQ.negative_w) = Ok (As, zs)
      /\ nth 1 (rows As) [] = [NanQ.NaN; NanQ.NaN; NanQ.NaN]
      /\ np_linalg_lstsq As zs
         = Raise (LinAlgError "SVD did not converge in Linear Least Squares"))
  /\ (exists P,
        np_linalg_pinv NanQ.plane_A = Ok P
        /\ np_dot P NanQ.bent_z
           = Ok [NanQ.Fin (3 # 4); NanQ.Fin (3 # 2); NanQ.Fin (5 # 2)])
  /\ least_squares_fit NanQ.plane_A NanQ.bent_z (Some NanQ.negative_w) world0
     = (Raise (QgsProcessingException
                 "Matrix solving failed: SVD did not converge in Linear Least Squares. Try reducing polynomial degree."),
        world0)
  /\ fst (least_squares_fit NanQ.plane_A NanQ.nan_z None world0)
     = Ok ([NanQ.NaN; NanQ.NaN; NanQ.NaN], [NanQ.NaN; NanQ.NaN; NanQ.NaN; NanQ.NaN],
           mkModelStats 3 [] 3 None)
  /\ CoreAnalysis.polynomial_regression NanQ.plane_A NanQ.nan_z
     = Ok ([NanQ.NaN; NanQ.NaN; NanQ.NaN], [NanQ.NaN; NanQ.NaN; NanQ.NaN; NanQ.NaN]).
Proof.
  split; [|split; [|split; [|split]]]; try (vm_compute; reflexivity).
  - do 2 eexists. split; [vm_compute; reflexivity|]. split; vm_compute; reflexivity.
  - eexists. split; vm_compute; reflexivity.
Qed.

(** Three points on the line [x = y]: the normal equations are singular,
    [np.linalg.solve] raises, and the plugin returns the minimum-norm
    coefficients of the pseudo-inverse with their residuals; on the same
    points [least_squares_fit] returns what [np.linalg.lstsq] produced. *)
Lemma solver_failure_handling_witness :
  (exists AtA Atz,
      matmul (transpose NanQ.line_A) NanQ.line_A = Ok AtA
      /\ np_dot (transpose NanQ.line_A) NanQ.line_z = Ok Atz
      /\ np_linalg_solve AtA Atz = Raise (LinAlgError "Singular matrix"))
  /\ CoreAnalysis.polynomial_regression NanQ.line_A NanQ.line_z
     = pinv_fallback NanQ.line_A NanQ.line_z
  /\ pinv_fallback NanQ.line_A NanQ.line_z
     = Ok ([NanQ.Fin (5 # 6); NanQ.Fin (3 # 4); NanQ.Fin (3 # 4)],
           [NanQ.Fin (1 # 6); NanQ.Fin (-1 # 3); NanQ.Fin (1 # 6)])
  /\ (exists ss rk sv,
        np_linalg_lstsq NanQ.line_A NanQ.line_z
        = Ok ([NanQ.Fin (5 # 6); NanQ.Fin (3 # 4); NanQ.Fin (3 # 4)], ss, rk, sv)).
Proof.
  pose proof (solver_failure_handling NanQ.line_A NanQ.line_z None world0)
    as (_ & Returned & Fallback & _).
  split.
  { do 2 eexists. split; [vm_compute; reflexivity|].
    split; [vm_compute; reflexivity|]. vm_compute. reflexivity. }
  split; [|split; [vm_compute; reflexivity|]].
  - apply (Fallback
             (mkMatrix 3 [[NanQ.Fin 3; NanQ.Fin 3; NanQ.Fin 3];
                          [NanQ.Fin 3; NanQ.Fin 5; NanQ.Fin 5];
                          [NanQ.Fin 3; NanQ.Fin 5; NanQ.Fin 5]])
             [NanQ.Fin 7; NanQ.Fin 10; NanQ.Fin 10] "Singular matrix");
      vm_compute; reflexivity.
  - destruct (Returned [NanQ.Fin (5 # 6); NanQ.Fin (3 # 4); NanQ.Fin (3 # 4)]
                [NanQ.Fin (1 # 6); NanQ.Fin (-1 # 3); NanQ.Fin (1 # 6)]
                (mkModelStats 2 [] 2 None)
                (log_to (PushInfo "Used ordinary least squares") world0)
                ltac:(vm_compute; reflexivity))
      as (As & zs & ss & rk & sv & Sys & Sol).
    exists ss, rk, sv. inversion Sys; subst. exact Sol.
Defined.

(** One pass on the ten weighted samples.  Four residuals of the initial
    weighted fit exceed [k = 1.345 * MAD] and are down-weighted by
    [k / |r|], the others keep weight 1; the weights are multiplied by the
    caller's; the refit moves the coefficients by more than [tol]; and with
    [max_iter = 1] the range is then used up, so that
    [robust_regression_fit] returns the refitted coefficients with their
    residuals and one recorded iteration. *)
Lemma robust_iteration_spec_witness :
  create_design_matrix ten_x ten_y 1 = Ok ten_A
  /\ exists c0 r0 c' r' st world',
       fst (least_squares_fit ten_A ten_z (Some ten_w)
              (log_to (PushInfo "Starting robust regression...") world0))
       = Ok (c0, r0, mkModelStats 3 [] 3 None)
       /\ c0 = [42937 # 44845; 78763 # 89690; 197241 # 89690]%Q
       /\ robust_weights_of None r0
          = Ok [1; 26631 # 36800; 1; 8353257 # 11842000; 1; 25059771 # 37823200;
                8353257 # 9250400; 1; 1; 1]%Q
       /\ robust_weights_of (Some ten_w) r0
          = Ok [1; 26631 # 9200; 1; 75179313 # 11842000; 1; 25059771 # 9455800;
                8353257 # 9250400; 1; 9; 1]%Q
       /\ robust_regression_fit ten_A ten_z (Some ten_w) 1 default_tol world0
          = (Ok (c', r', st), world')
       /\ robust_iterations st = Some 1
       /\ c' <> c0
       /\ residual_of ten_A ten_z c' = Ok r'.
Proof.
  split; [vm_compute; reflexivity|].
  destruct (least_squares_fit ten_A ten_z (Some ten_w)
              (log_to (PushInfo "Starting robust regression...") world0))
    as [[[[c0 r0] st0]|e] world1] eqn:Fit; [|vm_compute in Fit; discriminate Fit].
  assert (Values : (c0, r0, st0, world1)
                   = ([42937 # 44845; 78763 # 89690; 197241 # 89690]%Q,
                      [1908 # 44845; 43286 # 44845; 2567 # 8969; -17763 # 17938;
                       29663 # 89690; 47279 # 44845; 34689 # 44845; 44583 # 89690;
                       -16319 # 89690; 24288 # 44845]%Q,
                      mkModelStats 3 [] 3 None,
                      log_to (PushInfo "Used weighted least squares")
                        (log_to (PushInfo "Starting robust regression...") world0)))
    by (vm_compute in Fit; inversion Fit; reflexivity).
  inversion Values; subst c0 r0 st0 world1; clear Values.
  pose proof (robust_iteration_spec ten_A ten_z (Some ten_w) default_tol 0
                [42937 # 44845; 78763 # 89690; 197241 # 89690]%Q
                [1908 # 44845; 43286 # 44845; 2567 # 8969; -17763 # 17938;
                 29663 # 89690; 47279 # 44845; 34689 # 44845; 44583 # 89690;
                 -16319 # 89690; 24288 # 44845]%Q
                (log_to (PushInfo "Used weighted least squares")
                   (log_to (PushInfo "Starting robust regression...") world0))) as Pass.
  cbv zeta in Pass. destruct Pass as (_ & Refit & _).
  edestruct Refit as (_ & Solved);
    [vm_compute; reflexivity | vm_compute; reflexivity | vm_compute; reflexivity
    | vm_compute; reflexivity |].
  edestruct Solved as (_ & Continues);
    [vm_compute; reflexivity | vm_compute; reflexivity | vm_compute; reflexivity |].
  specialize (Continues ltac:(vm_compute; reflexivity)).
  lazymatch type of Continues with
  | forall r' : _, residual_of _ _ ?c = _ -> _ =>
      destruct (residual_of ten_A ten_z c) as [r'|e] eqn:Res;
      [|vm_compute in Res; discriminate Res];
      specialize (Continues r' eq_refl);
      pose proof (robust_iteration_spec ten_A ten_z (Some ten_w) default_tol 0 c r'
                    (log_to (PushInfo "Used weighted least squares")
                       (log_to (PushInfo "Starting robust regression...") world0)))
        as Exhausted
  end.
  cbv zeta in Exhausted. destruct Exhausted as (_ & _ & Exhausted & _).
  pose proof (robust_iteration_spec ten_A ten_z (Some ten_w) default_tol 0 [] [] world0)
    as Function.
  cbv zeta in Function. destruct Function as (_ & _ & _ & Function & _).
  do 6 eexists.
  split; [reflexivity|]. split; [reflexivity|].
  split; [vm_compute; reflexivity|]. split; [vm_compute; reflexivity|].
  split; [|split; [|split]].
  - apply (Function 1 _ _ _ _ _ _ 0 _ Fit).
    unfold range. cbn [seq]. rewrite Continues. apply Exhausted.
  - reflexivity.
  - intros Same. vm_compute in Same. discriminate Same.
  - exact Res.
Defined.

Lemma robust_regression_fit_consistent_witness :
  residual_of plane_A bent_z [3 # 4; 3 # 2; 5 # 2]%Q
  = Ok [1 # 4; -1 # 4; -1 # 4; 1 # 4]%Q.
Proof.
  eapply (proj1 (robust_regression_fit_consistent plane_A bent_z None 20 default_tol
                   world0 _ _ _ _ _)).
  Unshelve. all: try (vm_compute; reflexivity).
Defined.

(** On the ten samples, cross-validation with the caller's weights scores
    differently from cross-validation without them, and each of its five
    folds reports a weighted fit: the folds do apply the weights. *)
Lemma cross_validation_applies_weights :
  fst (cross_validation ten_x ten_y ten_z (Some ten_w) 1 default_k world7)
  <> fst (cross_validation ten_x ten_y ten_z None 1 default_k world7)
  /\ feedback_log (snd (cross_validation ten_x ten_y ten_z (Some ten_w) 1 default_k world7))
     = repeat (PushInfo "Used weighted least squares") 5.
Proof.
  split; [|vm_compute; reflexivity].
  vm_compute. intros E. discriminate E.
Qed.

Lemma cross_validation_folds_fit_witness :
  exists cv world' indices scores,
    cross_validation ten_x ten_y ten_z (Some ten_w) 1 default_k world7
    = (Ok (Some cv), world')
    /\ indices = [7; 8; 9; 0; 1; 2; 3; 4; 5; 6]
    /\ folds_completed cv = length scores
    /\ Forall (fun s => exists fold,
                 fold < 5
                 /\ fold_fit_spec ten_x ten_y ten_z (Some ten_w) 1
                      (fold_train indices 2 10 fold) (fold_test indices 2 10 fold)
                      (fst s) (snd s))
              scores.
Proof.
  destruct (cross_validation ten_x ten_y ten_z (Some ten_w) 1 default_k world7)
    as [[[cv|]|e] world'] eqn:Run; try (vm_compute in Run; discriminate Run).
  destruct (cross_validation_folds_fit ten_x ten_y ten_z (Some ten_w) 1 default_k
              world7 world' cv (le_n 10) Run)
    as (indices & scores & Hi & Hn & _ & _ & All).
  exists cv, world', indices, scores.
  split; [reflexivity|]. split; [exact Hi|]. split; [exact Hn | exact All].
Defined.

(** Seeding with 7 from a fresh world and from a used one (other log,
    other generator state) gives the same permutation and the same
    cross-validation result. *)
Lemma cross_validation_seed_deterministic_witness :
  fst (shuffle (range (length ten_z)) (snd (np_random_seed 7 world0)))
  = fst (shuffle (range (length ten_z)) (snd (np_random_seed 7 world_used)))
  /\ fst (cross_validation ten_x ten_y ten_z (Some ten_w) 1 default_k
            (snd (np_random_seed 7 world0)))
     = fst (cross_validation ten_x ten_y ten_z (Some ten_w) 1 default_k
              (snd (np_random_seed 7 world_used))).
Proof.
  destruct (cross_validation_seed_deterministic ten_x ten_y ten_z (Some ten_w) 1
              default_k 7%N world0 world_used eq_refl) as (Perm & _ & Same).
  split; [exact Perm | exact Same].
Defined.

(** C7 at ten samples.  [cross_validation] accepts the ten samples and
    scores five folds, but [trend_surface_analysis], asked to
    cross-validate, returns without cross-validation results: its guard
    [len(z) > 10] leaves out the count 10 that [cross_validation] admits. *)
Theorem cross_validation_skipped_at_ten_samples :
  length ten_z = 10
  /\ (exists cv world',
        cross_validation ten_x ten_y ten_z None 1 default_k world7
        = (Ok (Some cv), world')
        /\ folds_completed cv = 5)
  /\ (exists res world',
        trend_surface_analysis ten_x ten_y ten_z None 1 (95 # 100)%Q true false world7
        = (Ok res, world')
        /\ res_cv_results res = None
        /\ cv_folds (res_statistics res) = None
        /\ np_random_state world' = np_random_state world7).
Proof.
  split; [reflexivity|]. split.
  - destruct (cross_validation ten_x ten_y ten_z None 1 default_k world7)
      as [[[cv|]|e] world'] eqn:Run; try (vm_compute in Run; discriminate Run).
    exists cv, world'. split; [reflexivity|].
    vm_compute in Run. inversion Run. reflexivity.
  - destruct (trend_surface_analysis ten_x ten_y ten_z None 1 (95 # 100)%Q true false world7)
      as [[res|e] world'] eqn:Run; try (vm_compute in Run; discriminate Run).
    exists res, world'. split; [reflexivity|].
    vm_compute in Run. inversion Run. repeat split; reflexivity.
Qed.

(** Three samples and degree 1 ([n = p = 3]): the record is not all zero. *)
Lemma calculate_statistics_counts_not_zero :
  length three_z <= (1 + 1) * (1 + 2) / 2
  /\ n_observations (calculate_statistics three_z three_z [0; 0; 0]%Q 1 None) <> 0
  /\ n_parameters (calculate_statistics three_z three_z [0; 0; 0]%Q 1 None) <> 0.
Proof. repeat split; vm_compute; try lia; discriminate. Qed.

Lemma calculate_statistics_degenerate_witness :
  calculate_statistics three_z three_z [0; 0; 0]%Q 1 None
  = mkModelStatistics 3 3 0%Q 0%Q 0%Q 0%Q 0%Q 0%Q 0%Q 0%Q 0%Q None None None
  /\ 1 <= n_parameters (calculate_statistics three_z three_z [0; 0; 0]%Q 1 None).
Proof.
  exact (calculate_statistics_degenerate three_z three_z [0; 0; 0]%Q 1 None (le_n 3)).
Defined.

(** * Further properties of the modelled code *)

(** ** Shapes accepted by [create_design_matrix] *)

Section DesignMatrixShapes.
Context {F : Type} {FA : Float64 F}.

Lemma n_terms_of_positive (degree : nat) : 1 <= n_terms_of degree.
Proof.
  rewrite <- exponent_pairs_length.
  destruct (exponent_pairs_head degree) as [rest ->]. simpl. lia.
Qed.

(** X1.  [create_design_matrix] rejects coordinate arrays of different
    lengths with [ValueError], unless [y] has exactly one element. *)
Theorem create_design_matrix_length_mismatch (x y : list F) (degree : nat) :
  length x <> length y -> length y <> 1 ->
  exists msg, create_design_matrix x y degree = Raise (ValueError msg).
Proof.
  intros Ne Ny. rewrite create_design_matrix_flat.
  destruct (exponent_pairs_head degree) as [rest ->].
  cbn [res_fold]. unfold fill_column at 1.
  pose proof (n_terms_of_positive degree) as Pos.
  destruct (Nat.ltb_spec 0 (n_terms_of degree)) as [_|]; [|lia].
  cbn [fst snd]. unfold np_mul, broadcast2, np_power. rewrite !length_map.
  destruct (Nat.eqb_spec (length x) (length y)) as [|_]; [contradiction|].
  destruct x as [|a [|a' x]].
  - destruct y as [|b [|b' y]]; cbn; try (eexists; reflexivity);
      cbn in Ne, Ny; congruence.
  - cbn [map]. cbn [res_bind]. unfold set_column. cbn [np_ones n_cols rows].
    destruct (Nat.leb_spec (n_terms_of degree) 0) as [|_]; [lia|].
    rewrite length_map. cbn [repeat length].
    destruct (Nat.eqb_spec (length y) 1) as [|_]; [contradiction|].
    destruct y as [|b [|b' y]]; cbn; try (eexists; reflexivity).
    cbn in Ny. congruence.
  - destruct y as [|b [|b' y]]; cbn; try (eexists; reflexivity).
    cbn in Ny. congruence.
Qed.

Lemma broadcast_single_operand (g h : F -> F) (x : list F) (y0 : F) :
  length x <> 1 ->
  np_mul (map g x) (map h [y0]) = np_mul (map g x) (map h (repeat y0 (length x))).
Proof.
  intros N1.
  assert (E : forall l : list F,
             map (fun v => fmul v (h y0)) l
             = map (fun p => fmul (fst p) (snd p))
                   (combine l (map h (repeat y0 (length l))))).
  { induction l as [|a l IH]; cbn; [reflexivity | f_equal; exact IH]. }
  unfold np_mul, broadcast2.
  rewrite !length_map, repeat_length, Nat.eqb_refl. cbn [length map].
  destruct (Nat.eqb_spec (length x) 1) as [|_]; [contradiction|].
  pose proof (E (map g x)) as E'. rewrite length_map in E'. rewrite <- E'.
  destruct x as [|a [|a' x]]; reflexivity.
Qed.

(** X2.  A [y] array with a single element is not rejected: it is stretched
    over all points, as if it had been repeated [len(x)] times. *)
Theorem create_design_matrix_broadcasts_single_y (x : list F) (y0 : F) (degree : nat) :
  length x <> 1 ->
  create_design_matrix x [y0] degree
  = create_design_matrix x (repeat y0 (length x)) degree.
Proof.
  intros N1. rewrite !create_design_matrix_flat. f_equal.
  generalize (np_ones (length x) (n_terms_of degree), 0).
  induction (exponent_pairs degree) as [|dj ps IH]; intros st; [reflexivity|].
  cbn [res_fold].
  assert (S : fill_column x [y0] (n_terms_of degree) st dj
              = fill_column x (repeat y0 (length x)) (n_terms_of degree) st dj).
  { unfold fill_column. destruct st as [A col].
    destruct (col <? n_terms_of degree); [|reflexivity].
    unfold np_power. rewrite broadcast_single_operand by exact N1. reflexivity. }
  rewrite S. clear S.
  destruct (fill_column x (repeat y0 (length x)) (n_terms_of degree) st dj);
    cbn [res_bind]; [apply IH | reflexivity].
Qed.

End DesignMatrixShapes.

(** ** Coefficient vectors of the wrong length in [evaluate_polynomial] *)

Section EvaluatorEdges.
Context {F : Type} {FA : Float64 F}.

Lemma add_term_extra (x y : F) (c extra : list F) (ps : list (nat * nat)) :
  forall v idx, idx + length ps <= length c ->
    fold_left (add_term x y (c ++ extra)) ps (v, idx)
    = fold_left (add_term x y c) ps (v, idx).
Proof.
  induction ps as [|dj ps IH]; intros v idx L; [reflexivity|].
  cbn [length] in L. cbn [fold_left]. unfold add_term at 2 4.
  rewrite length_app.
  destruct (Nat.ltb_spec idx (length c + length extra)); [|lia].
  destruct (Nat.ltb_spec idx (length c)); [|lia].
  rewrite app_nth1 by assumption. apply IH. lia.
Qed.

(** X3.  Coefficients beyond the [(degree+1)(degree+2)/2]-th are never read:
    appending anything to a full coefficient vector leaves the value
    unchanged. *)
Theorem evaluate_polynomial_ignores_extra_coefficients
  (x y : F) (c extra : list F) (degree : nat) :
  (degree + 1) * (degree + 2) / 2 <= length c ->
  evaluate_polynomial x y (c ++ extra) degree = evaluate_polynomial x y c degree.
Proof.
  intros L. rewrite !evaluate_polynomial_flat. f_equal.
  apply add_term_extra. rewrite exponent_pairs_length. exact L.
Qed.

(** X4.  For a coefficient vector of any length the value is the sum, from 0
    and in loop order, of [coefficient * x^(d-j) * y^j] over the positions
    that the coefficient vector and the list of exponent pairs both have:
    a vector that is too short silently drops the later monomials, one
    that is too long has its tail ignored. *)
Theorem evaluate_polynomial_any_length (x y : F) (c : list F) (degree : nat) :
  evaluate_polynomial x y c degree
  = np_sum (map (fun p => weighted_term x y (fst p) (snd p))
                (combine (exponent_pairs degree) c)).
Proof.
  rewrite evaluate_polynomial_flat.
  apply (add_terms_sum_any x y (exponent_pairs degree) [] c f0).
Qed.

Section ConstantSurface.
Hypothesis fmul_1_r : forall a : F, fmul a f1 = a.
Hypothesis fmul_0_l : forall a : F, fmul f0 a = f0.
Hypothesis fadd_0_l : forall a : F, fadd f0 a = a.
Hypothesis fadd_0_r : forall a : F, fadd a f0 = a.

Lemma add_term_zero_tail (x y c0 : F) (m : nat) (ps : list (nat * nat)) :
  forall v idx, 1 <= idx ->
    fst (fold_left (add_term x y (c0 :: repeat f0 m)) ps (v, idx)) = v.
Proof.
  induction ps as [|dj ps IH]; intros v idx L; [reflexivity|].
  cbn [fold_left]. unfold add_term at 2.
  destruct (idx <? length (c0 :: repeat f0 m)); [|apply IH; exact L].
  assert (Z : nth idx (c0 :: repeat f0 m) f0 = f0).
  { destruct idx as [|i]; [lia|]. cbn [nth].
    destruct (Nat.lt_ge_cases i (length (repeat f0 m))) as [Lt|Ge].
    - rewrite repeat_length in Lt. apply nth_repeat_lt. exact Lt.
    - apply nth_overflow. exact Ge. }
  rewrite Z, !fmul_0_l, fadd_0_r. apply IH. lia.
Qed.

(** X5.  A coefficient vector [c0, 0, ..., 0] evaluates to [c0] at every
    point and for every degree, given the unit and zero laws of the
    arithmetic. *)
Theorem evaluate_polynomial_constant (x y c0 : F) (m degree : nat) :
  evaluate_polynomial x y (c0 :: repeat f0 m) degree = c0.
Proof.
  rewrite evaluate_polynomial_flat.
  destruct (exponent_pairs_head degree) as [rest ->].
  cbn [fold_left]. unfold add_term at 2. cbn [length fst snd nth Nat.sub fpow].
  change (0 <? S (length (repeat f0 m))) with true. cbv iota.
  rewrite !fmul_1_r, fadd_0_l. apply add_term_zero_tail. lia.
Qed.

End ConstantSurface.

End EvaluatorEdges.

(** ** Failures and edge cases of the solvers *)

Section SolverEdges.
Context {F : Type} {FA : Float64 F} {NL : NumLib F}.

(** X6.  Whatever goes wrong inside [least_squares_fit] (solver failure,
    shape mismatch in the scaling or in the residuals) reaches the caller as
    a [QgsProcessingException], never as another exception. *)
Theorem least_squares_fit_raises_only_QgsProcessingException
  (A : Matrix F) (z : list F) (w : option (list F)) (world world' : World) (e : exn) :
  least_squares_fit A z w world = (Raise e, world') ->
  exists msg, e = QgsProcessingException msg.
Proof.
  unfold least_squares_fit, try_except. intros Run.
  match type of Run with
  | (match ?body with _ => _ end) = _ => destruct body as [[v|e0] w1]
  end; [discriminate Run|].
  destruct (is_LinAlgError e0); unfold raise in Run; inversion Run; eexists; reflexivity.
Qed.

(** X7.  A successful [least_squares_fit] leaves the world as it was except
    for one message in the log, which names the mode that ran: weighted
    exactly when weights of the same length as [z] were given. *)
Theorem least_squares_fit_logs_mode
  (A : Matrix F) (z : list F) (w : option (list F)) (world world' : World)
  (c r : list F) (st : ModelStats) :
  least_squares_fit A z w world = (Ok (c, r, st), world') ->
  world' = log_to (PushInfo (match usable_weights w z with
                             | Some _ => "Used weighted least squares"
                             | None => "Used ordinary least squares"
                             end)) world.
Proof.
  intros Run. unfold least_squares_fit in Run. run_cases Run.
  all: inversion Run; subst; reflexivity.
Qed.

Lemma broadcast2_mismatch (op : F -> F -> F) (a b : list F) :
  length a <> length b -> length a <> 1 -> length b <> 1 ->
  broadcast2 op a b = Raise (ValueError "operands could not be broadcast together").
Proof.
  intros N Na Nb. unfold broadcast2.
  destruct (Nat.eqb_spec (length a) (length b)) as [|_]; [contradiction|].
  destruct a as [|a0 [|a1 a]], b as [|b0 [|b1 b]]; cbn in *; congruence.
Qed.

Lemma broadcast2_same_length (op : F -> F -> F) (a b r : list F) :
  length a = length b -> broadcast2 op a b = Ok r -> length r = length a.
Proof.
  intros E. unfold broadcast2. rewrite E, Nat.eqb_refl. intros R. inversion R.
  rewrite length_map, length_combine, E, Nat.min_id. reflexivity.
Qed.

Lemma residual_of_length (A : Matrix F) (z c r : list F) :
  length (rows A) = length z -> residual_of A z c = Ok r -> length r = length z.
Proof.
  intros E R. unfold residual_of in R. apply res_bind_ok in R.
  destruct R as (p & Dot & Sub). unfold np_dot in Dot.
  destruct (n_cols A =? length c); [|discriminate]. inversion Dot; subst.
  apply (broadcast2_same_length fsub) in Sub; [exact Sub|].
  rewrite length_map. symmetry. exact E.
Qed.

(** X8.  Weights whose length differs from [len(z)] are silently ignored by
    [least_squares_fit], which then runs the ordinary fit; the reweighting
    loop of [robust_regression_fit] instead multiplies its weights by them
    and raises [ValueError], uncaught, at its first pass. *)
Theorem mismatched_weights (A : Matrix F) (z wv : list F) (max_iter : nat) (tol : F)
  (world world' : World) (c r : list F) (st : ModelStats) :
  length wv <> length z ->
  least_squares_fit A z (Some wv) world = least_squares_fit A z None world
  /\ (length (rows A) = length z -> length z <> 1 -> length wv <> 1 ->
      1 <= max_iter ->
      least_squares_fit A z None (log_to (PushInfo "Starting robust regression...") world)
      = (Ok (c, r, st), world') ->
      f_ltb (np_median (map np_abs r)) (float_lit (1 # 10000000000)) = false ->
      exists msg,
        robust_regression_fit A z (Some wv) max_iter tol world
        = (Raise (ValueError msg), world')).
Proof.
  intros Ne.
  assert (Ignored : forall wd,
            least_squares_fit A z (Some wv) wd = least_squares_fit A z None wd).
  { intros wd. unfold least_squares_fit, usable_weights.
    destruct (Nat.eqb_spec (length wv) (length z)); [contradiction | reflexivity]. }
  split; [apply Ignored|].
  intros Rows Nz Nw Pos Fit Big.
  exists "operands could not be broadcast together".
  unfold robust_regression_fit. cbv [bind pushInfo log_event].
  fold (log_to (PushInfo "Starting robust regression...") world).
  rewrite Ignored, Fit.
  destruct max_iter as [|n]; [lia|].
  unfold range. cbn [seq robust_loop]. unfold bind at 1. unfold robust_iteration.
  rewrite Big. cbv [bind lift].
  pose proof (least_squares_fit_ok _ _ _ _ _ _ _ _ Fit)
    as (_ & _ & _ & _ & _ & _ & _ & Res & _).
  unfold np_mul at 1. rewrite broadcast2_mismatch; [reflexivity | | | exact Nw].
  - unfold huber_weights. rewrite !length_map.
    rewrite (residual_of_length A z c r Rows Res). auto.
  - unfold huber_weights. rewrite !length_map.
    rewrite (residual_of_length A z c r Rows Res). exact Nz.
Qed.

(** X9.  With [max_iter = 0] the loop body never binds [iteration], so
    [robust_regression_fit] cannot return: after a successful initial fit it
    raises [UnboundLocalError]. *)
Theorem robust_regression_fit_zero_iterations
  (A : Matrix F) (z : list F) (w : option (list F)) (tol : F) (world : World) :
  (forall res world', robust_regression_fit A z w 0 tol world <> (Ok res, world'))
  /\ (forall c r st world1,
        least_squares_fit A z w (log_to (PushInfo "Starting robust regression...") world)
        = (Ok (c, r, st), world1) ->
        exists msg,
          robust_regression_fit A z w 0 tol world
          = (Raise (UnboundLocalError msg), world1)).
Proof.
  unfold robust_regression_fit. cbv [bind pushInfo log_event].
  fold (log_to (PushInfo "Starting robust regression...") world).
  split.
  - intros res world'.
    destruct (least_squares_fit A z w _) as [[[[c r] st]|e] w1]; [|discriminate].
    cbn. discriminate.
  - intros c r st world1 Fit. rewrite Fit. eexists. reflexivity.
Qed.

(** X10.  When the initial fit is already near-exact (median absolute
    residual below [1e-10]) the robust fit returns the coefficients and
    residuals of that fit unchanged and records one iteration. *)
Theorem robust_regression_fit_exact_fit_unchanged
  (A : Matrix F) (z : list F) (w : option (list F)) (max_iter : nat) (tol : F)
  (world world' : World) (c r : list F) (st : ModelStats) :
  1 <= max_iter ->
  least_squares_fit A z w (log_to (PushInfo "Starting robust regression...") world)
  = (Ok (c, r, st), world') ->
  f_ltb (np_median (map np_abs r)) (float_lit (1 # 10000000000)) = true ->
  robust_regression_fit A z w max_iter tol world
  = (Ok (c, r, mkModelStats (rank st) (singular_values st)
                 (effective_parameters st) (Some 1)),
     world').
Proof.
  intros Pos Fit Small.
  unfold robust_regression_fit. cbv [bind pushInfo log_event].
  fold (log_to (PushInfo "Starting robust regression...") world).
  rewrite Fit. destruct max_iter as [|n]; [lia|].
  unfold range. cbn [seq].
  rewrite (robust_loop_break A z w tol 0 (seq 1 n) None c r world' world')
    by (apply robust_iteration_small_mad; exact Small).
  reflexivity.
Qed.

(** X11.  Whenever the plugin's [polynomial_regression] returns, through the
    normal equations or through the pseudo-inverse, its residuals are [z - A
    @ coefficients], and the coefficients are what [np.linalg.solve] gave
    for [(A.T @ A, A.T @ z)] or else [pinv(A) @ z]. *)
Theorem polynomial_regression_residuals (A : Matrix F) (z c r : list F) :
  CoreAnalysis.polynomial_regression A z = Ok (c, r) ->
  residual_of A z c = Ok r
  /\ ((exists AtA Atz, matmul (transpose A) A = Ok AtA
                       /\ np_dot (transpose A) z = Ok Atz
                       /\ np_linalg_solve AtA Atz = Ok c)
      \/ (exists P, np_linalg_pinv A = Ok P /\ np_dot P z = Ok c)).
Proof.
  unfold CoreAnalysis.polynomial_regression, res_try, residual_of. intros Run.
  destruct (matmul (transpose A) A) as [AtA|e1] eqn:E1; cbn [res_bind] in Run.
  - destruct (np_dot (transpose A) z) as [Atz|e2] eqn:E2; cbn [res_bind] in Run.
    + destruct (np_linalg_solve AtA Atz) as [c0|e3] eqn:E3; cbn [res_bind] in Run.
      * destruct (np_dot A c0) as [p|e4] eqn:E4; cbn [res_bind] in Run.
        -- destruct (np_sub z p) as [r0|e5] eqn:E5; cbn [res_bind] in Run.
           ++ inversion Run; subst. rewrite E4. cbn [res_bind]. split; [exact E5|].
              left. eauto.
           ++ destruct (is_LinAlgError e5); [|discriminate].
              destruct (np_linalg_pinv A) as [P|] eqn:EP; [|discriminate].
              cbn [res_bind] in Run.
              destruct (np_dot P z) as [c1|] eqn:Ec; [|discriminate].
              cbn [res_bind] in Run.
              destruct (np_dot A c1) as [p1|] eqn:Ep; [|discriminate].
              cbn [res_bind] in Run.
              destruct (np_sub z p1) as [r1|] eqn:Er; [|discriminate].
              inversion Run; subst. rewrite Ep. cbn [res_bind]. split; [exact Er|].
              right. eauto.
        -- destruct (is_LinAlgError e4); [|discriminate].
           destruct (np_linalg_pinv A) as [P|] eqn:EP; [|discriminate].
           cbn [res_bind] in Run.
           destruct (np_dot P z) as [c1|] eqn:Ec; [|discriminate].
           cbn [res_bind] in Run.
           destruct (np_dot A c1) as [p1|] eqn:Ep; [|discriminate].
           cbn [res_bind] in Run.
           destruct (np_sub z p1) as [r1|] eqn:Er; [|discriminate].
           inversion Run; subst. rewrite Ep. cbn [res_bind]. split; [exact Er|].
           right. eauto.
      * destruct (is_LinAlgError e3); [|discriminate].
        destruct (np_linalg_pinv A) as [P|] eqn:EP; [|discriminate].
        cbn [res_bind] in Run.
        destruct (np_dot P z) as [c1|] eqn:Ec; [|discriminate].
        cbn [res_bind] in Run.
        destruct (np_dot A c1) as [p1|] eqn:Ep; [|discriminate].
        cbn [res_bind] in Run.
        destruct (np_sub z p1) as [r1|] eqn:Er; [|discriminate].
        inversion Run; subst. rewrite Ep. cbn [res_bind]. split; [exact Er|].
        right. eauto.
    + destruct (is_LinAlgError e2); [|discriminate].
      destruct (np_linalg_pinv A) as [P|] eqn:EP; [|discriminate].
      cbn [res_bind] in Run.
      destruct (np_dot P z) as [c1|] eqn:Ec; [|discriminate].
      cbn [res_bind] in Run.
      destruct (np_dot A c1) as [p1|] eqn:Ep; [|discriminate].
      cbn [res_bind] in Run.
      destruct (np_sub z p1) as [r1|] eqn:Er; [|discriminate].
      inversion Run; subst. rewrite Ep. cbn [res_bind]. split; [exact Er|].
      right. eauto.
  - destruct (is_LinAlgError e1); [|discriminate].
    destruct (np_linalg_pinv A) as [P|] eqn:EP; [|discriminate].
    cbn [res_bind] in Run.
    destruct (np_dot P z) as [c1|] eqn:Ec; [|discriminate].
    cbn [res_bind] in Run.
    destruct (np_dot A c1) as [p1|] eqn:Ep; [|discriminate].
    cbn [res_bind] in Run.
    destruct (np_sub z p1) as [r1|] eqn:Er; [|discriminate].
    inversion Run; subst. rewrite Ep. cbn [res_bind]. split; [exact Er|].
    right. eauto.
Qed.

End SolverEdges.

(** ** What the computations leave untouched *)

Section Frames.
Context {F : Type} {FA : Float64 F} {NL : NumLib F}.
Context {B : Type} (proj : World -> B).
Hypothesis proj_log : forall e w, proj (snd (log_event e w)) = proj w.

Lemma preserves_ret {A} (a : A) : preserves proj (ret a).
Proof. intros w. reflexivity. Qed.

Lemma preserves_lift {A} (r : Res A) : preserves proj (lift r).
Proof. intros w. reflexivity. Qed.

Lemma preserves_raise {A} (e : exn) : preserves proj (@raise A e).
Proof. intros w. reflexivity. Qed.

Lemma preserves_log_event (e : event) : preserves proj (log_event e).
Proof. intros w. apply proj_log. Qed.

Lemma preserves_bind {A C} (m : M A) (k : A -> M C) :
  preserves proj m -> (forall a, preserves proj (k a)) -> preserves proj (bind m k).
Proof.
  intros Hm Hk w. unfold bind. specialize (Hm w).
  destruct (m w) as [[a|e] w1]; cbn [snd] in *; [|exact Hm].
  rewrite Hk. exact Hm.
Qed.

Lemma preserves_try_except {A} (m : M A) (h : exn -> M A) :
  preserves proj m -> (forall e, preserves proj (h e)) -> preserves proj (try_except m h).
Proof.
  intros Hm Hh w. unfold try_except. specialize (Hm w).
  destruct (m w) as [[a|e] w1]; cbn [snd] in *; [exact Hm|].
  rewrite Hh. exact Hm.
Qed.

Ltac frame_step :=
  first
    [ apply preserves_ret | apply preserves_lift | apply preserves_raise
    | apply preserves_log_event
    | apply preserves_bind; [|intros]
    | apply preserves_try_except; [|intros]
    | match goal with
      | |- preserves _ (match ?x with _ => _ end) => destruct x
      end ].

Ltac frame := repeat frame_step.

Lemma preserves_least_squares_fit A z w : preserves proj (least_squares_fit A z w).
Proof. unfold least_squares_fit, pushInfo. frame. Qed.

Lemma preserves_robust_iteration A z w tol iteration c r :
  preserves proj (robust_iteration A z w tol iteration c r).
Proof. unfold robust_iteration, pushInfo. frame. Qed.

Lemma preserves_robust_loop A z w tol (iterations : list nat) :
  forall last c r, preserves proj (robust_loop A z w tol iterations last c r).
Proof.
  induction iterations as [|it rest IH]; intros last c r; cbn [robust_loop].
  - frame.
  - apply preserves_bind; [apply preserves_robust_iteration|].
    intros [|[c' r']]; [frame | apply IH].
Qed.

Lemma preserves_robust_regression_fit A z w max_iter tol :
  preserves proj (robust_regression_fit A z w max_iter tol).
Proof.
  unfold robust_regression_fit, pushInfo.
  repeat first [ apply preserves_least_squares_fit | apply preserves_robust_loop
               | frame_step ].
Qed.

Hypothesis proj_cancel : forall w, proj (snd (isCanceled w)) = proj w.

Lemma preserves_isCanceled : preserves proj isCanceled.
Proof. intros w. apply proj_cancel. Qed.

Lemma preserves_cv_fold_fit x y z w degree train_idx test_idx :
  preserves proj (cv_fold_fit x y z w degree train_idx test_idx).
Proof.
  unfold cv_fold_fit.
  repeat first [ apply preserves_least_squares_fit | frame_step ].
Qed.

Lemma preserves_cv_loop x y z w degree indices fold_size n (folds : list nat) :
  forall ms rs, preserves proj (cv_loop x y z w degree indices fold_size n folds ms rs).
Proof.
  induction folds as [|fold rest IH]; intros ms rs; cbn [cv_loop]; unfold pushWarning.
  - frame.
  - repeat first [ apply IH | apply preserves_cv_fold_fit | apply preserves_isCanceled
                 | frame_step ].
Qed.

Lemma preserves_trend_surface_analysis_without_cv x y z w degree cl robust :
  preserves proj (trend_surface_analysis x y z w degree cl false robust).
Proof.
  unfold trend_surface_analysis, pushInfo. cbn [andb].
  repeat first [ apply preserves_least_squares_fit
               | apply preserves_robust_regression_fit
               | frame_step ].
Qed.

End Frames.

(** ** Cross-validation: containment of failures, fold counts, cancellation *)

Section CrossValidationEdges.
Context {F : Type} {FA : Float64 F} {NL : NumLib F}.

Lemma never_raises_ret {A} (a : A) : never_raises (ret a).
Proof. intros w. do 2 eexists. reflexivity. Qed.

Lemma never_raises_bind {A C} (m : M A) (k : A -> M C) :
  never_raises m -> (forall a, never_raises (k a)) -> never_raises (bind m k).
Proof.
  intros Hm Hk w. unfold bind. destruct (Hm w) as (a & w1 & ->). apply Hk.
Qed.

Lemma never_raises_log_event (e : event) : never_raises (log_event e).
Proof. intros w. do 2 eexists. reflexivity. Qed.

Lemma never_raises_isCanceled : never_raises isCanceled.
Proof.
  intros w. unfold isCanceled. destruct (cancel_answers w); do 2 eexists; reflexivity.
Qed.

Lemma never_raises_shuffle (indices : list nat) : never_raises (shuffle indices).
Proof.
  intros w. unfold shuffle. destruct (np_random_shuffle _ _). do 2 eexists. reflexivity.
Qed.

(** A handler that cannot raise contains every exception of the block. *)
Lemma never_raises_try_except {A} (m : M A) (h : exn -> M A) :
  (forall e, never_raises (h e)) -> never_raises (try_except m h).
Proof.
  intros Hh w. unfold try_except. destruct (m w) as [[a|e] w1].
  - do 2 eexists. reflexivity.
  - apply Hh.
Qed.

Lemma never_raises_cv_loop x y z w degree indices fold_size n (folds : list nat) :
  forall ms rs, never_raises (cv_loop x y z w degree indices fold_size n folds ms rs).
Proof.
  induction folds as [|fold rest IH]; intros ms rs; cbn [cv_loop].
  - apply never_raises_ret.
  - apply never_raises_bind; [apply never_raises_isCanceled|].
    intros [|]; [apply never_raises_ret|].
    destruct (n <=? fold * fold_size); [apply never_raises_ret|].
    match goal with |- never_raises (if ?b then _ else _) => destruct b end; [apply IH|].
    apply never_raises_bind.
    + apply never_raises_try_except. intros e.
      apply never_raises_bind; [apply never_raises_log_event|].
      intros _. apply never_raises_ret.
    + intros [[m r]|]; apply IH.
Qed.

(** X12.  [cross_validation] is non-fatal: for [k >= 1] it never raises,
    whatever the library routines do inside the folds; and when it gets past
    the sample-count guard it advances the random generator by exactly one
    shuffle of [arange(n)]. *)
Theorem cross_validation_never_raises (x y z : list F) (w : option (list F))
  (degree k : nat) (world : World) :
  k <> 0 ->
  exists result world',
    cross_validation x y z w degree k world = (Ok result, world')
    /\ np_random_state world'
       = if length z <? 10 then np_random_state world
         else snd (np_random_shuffle (np_random_state world) (range (length z))).
Proof.
  intros Hk. unfold cross_validation.
  destruct (length z <? 10).
  { do 2 eexists. split; reflexivity. }
  unfold bind at 1, shuffle.
  destruct (np_random_shuffle (np_random_state world) (range (length z)))
    as [indices g] eqn:Sh.
  destruct (Nat.eqb_spec k 0) as [|_]; [contradiction|].
  unfold bind.
  match goal with
  | |- context [cv_loop ?a ?b ?c ?d ?e ?f ?g ?h ?i ?j ?l ?wd] =>
      destruct (never_raises_cv_loop a b c d e f g h i j l wd)
        as ([ms rs] & w1 & Run);
      pose proof (preserves_cv_loop np_random_state (fun _ _ => eq_refl)
                    (fun wd0 => ltac:(unfold isCanceled;
                                      destruct (cancel_answers wd0); reflexivity))
                    a b c d e f g h i j l wd) as Rng;
      rewrite Run in Rng |- *
  end.
  cbn [snd np_random_state] in Rng.
  destruct ms; do 2 eexists; (split; [reflexivity | exact Rng]).
Qed.

Lemma cv_loop_counts x y z w degree indices fold_size n (folds : list nat) :
  forall ms rs world ms' rs' world',
    cv_loop x y z w degree indices fold_size n folds ms rs world
    = (Ok (ms', rs'), world') ->
    length ms <= length ms' <= length ms + length folds
    /\ (length ms = length rs -> length ms' = length rs').
Proof.
  induction folds as [|fold rest IH]; intros ms rs world ms' rs' world' Run.
  - cbn [cv_loop] in Run. unfold ret in Run. inversion Run; subst. cbn. lia.
  - cbn [cv_loop] in Run. run_cases Run.
    all: try (inversion Run; subst; cbn [length]; lia).
    all: apply IH in Run; rewrite ?length_app in Run; cbn [length] in *; lia.
Qed.

(** X13.  A result of [cross_validation] counts at least one fold and at
    most [min(k, n)] folds. *)
Theorem cross_validation_folds_completed_bounds (x y z : list F)
  (w : option (list F)) (degree k : nat) (world world' : World) (cv : CVResult) :
  cross_validation x y z w degree k world = (Ok (Some cv), world') ->
  1 <= folds_completed cv <= Nat.min k (length z) /\ 10 <= length z.
Proof.
  intros Run. unfold cross_validation in Run.
  destruct (Nat.ltb_spec (length z) 10) as [|Ge].
  { cbv [bind pushWarning log_event ret] in Run. discriminate Run. }
  unfold bind at 1 in Run. unfold shuffle in Run.
  destruct (np_random_shuffle (np_random_state world) (range (length z)))
    as [indices g].
  destruct (k =? 0); [discriminate Run|].
  unfold bind in Run.
  match type of Run with
  | context [cv_loop ?a ?b ?c ?d ?e ?f ?g ?h ?i ?j ?l ?wd] =>
      destruct (cv_loop a b c d e f g h i j l wd) as [[[ms rs]|e0] w1] eqn:Loop
  end; [|discriminate Run].
  apply cv_loop_counts in Loop. unfold range in Loop. rewrite length_seq in Loop.
  cbn [length] in Loop.
  destruct ms as [|m ms]; [discriminate Run|].
  unfold ret in Run. inversion Run; subst; clear Run.
  cbn [folds_completed length] in *. lia.
Qed.

(** X14.  If the first poll of [isCanceled] answers yes, [cross_validation]
    returns no result and fits nothing: the log is untouched, only the
    shuffle has been drawn. *)
Theorem cross_validation_cancelled_at_once (x y z : list F) (w : option (list F))
  (degree k : nat) (world : World) (answers : list bool) :
  10 <= length z -> k <> 0 -> cancel_answers world = true :: answers ->
  cross_validation x y z w degree k world
  = (Ok None,
     mkWorld (feedback_log world) answers
       (snd (np_random_shuffle (np_random_state world) (range (length z))))).
Proof.
  intros Ge Hk Cancel. unfold cross_validation.
  destruct (Nat.ltb_spec (length z) 10); [lia|].
  unfold bind at 1, shuffle.
  destruct (np_random_shuffle (np_random_state world) (range (length z)))
    as [indices g].
  destruct (Nat.eqb_spec k 0) as [|_]; [contradiction|].
  destruct (Nat.min k (length z)) as [|m] eqn:Min; [lia|].
  unfold range. cbn [seq cv_loop].
  cbv [bind isCanceled]. cbn [cancel_answers]. rewrite Cancel. reflexivity.
Qed.

End CrossValidationEdges.

(** ** The folds of cross-validation *)

Section Folds.
Variables (indices : list nat) (n k : nat).
Hypothesis indices_length : length indices = n.
Hypothesis k_positive : k <> 0.

Lemma fold_end (fold : nat) :
  fold < k -> fold * (n / k) + n / k <= k * (n / k) /\ k * (n / k) <= n.
Proof.
  intros L. split; [nia|]. apply Nat.Div0.mul_div_le.
Qed.

Lemma fold_test_positions (fold v : nat) :
  fold < k ->
  In v (fold_test indices (n / k) n fold) ->
  exists p, fold * (n / k) <= p < (fold + 1) * (n / k)
            /\ nth_error indices p = Some v.
Proof.
  intros L I. destruct (fold_end fold L) as [E1 E2].
  unfold fold_test, slice in I. rewrite Nat.min_l in I by lia.
  replace (fold * (n / k) + n / k - fold * (n / k)) with (n / k) in I by lia.
  apply In_nth_error in I. destruct I as [i I].
  rewrite nth_error_firstn in I.
  destruct (Nat.ltb_spec i (n / k)); [|discriminate].
  rewrite nth_error_skipn in I.
  exists (fold * (n / k) + i). split; [lia | exact I].
Qed.

(** The split of one fold: a partition of the index array. *)
Lemma fold_partition (fold : nat) :
  fold < k ->
  Permutation (fold_test indices (n / k) n fold ++ fold_train indices (n / k) n fold)
              indices
  /\ length (fold_test indices (n / k) n fold) = n / k
  /\ length (fold_train indices (n / k) n fold) = n - n / k
  /\ (forall v, In v (fold_test indices (n / k) n fold) ->
        exists p, fold * (n / k) <= p < (fold + 1) * (n / k)
                  /\ nth_error indices p = Some v)
  /\ (forall p v, k * (n / k) <= p -> nth_error indices p = Some v ->
        In v (fold_train indices (n / k) n fold)).
Proof.
  intros L. destruct (fold_end fold L) as [E1 E2].
  unfold fold_test, fold_train, slice. rewrite Nat.min_l by lia.
  replace (fold * (n / k) + n / k - fold * (n / k)) with (n / k) by lia.
  set (s := fold * (n / k)) in *. set (fs := n / k) in *.
  assert (Split : skipn s indices = firstn fs (skipn s indices) ++ skipn (s + fs) indices).
  { rewrite <- (firstn_skipn fs (skipn s indices)) at 1.
    rewrite skipn_skipn. do 2 f_equal. lia. }
  split; [|split; [|split; [|split]]].
  - rewrite Permutation_app_swap_app, <- Split, firstn_skipn. reflexivity.
  - rewrite length_firstn, length_skipn. lia.
  - rewrite length_app, length_firstn, length_skipn. lia.
  - intros v I. apply (fold_test_positions fold v L).
    unfold fold_test, slice. rewrite Nat.min_l by lia.
    replace (fold * (n / k) + n / k - fold * (n / k)) with (n / k) by lia.
    exact I.
  - intros p v Lp Hp. apply in_or_app. right.
    apply (nth_error_In _ (p - (s + fs))).
    rewrite nth_error_skipn. replace (s + fs + (p - (s + fs))) with p by lia.
    exact Hp.
Qed.

(** Test parts of different folds share no entry. *)
Lemma fold_tests_disjoint (fold fold' v : nat) :
  NoDup indices -> fold < k -> fold' < k -> fold <> fold' ->
  In v (fold_test indices (n / k) n fold) ->
  ~ In v (fold_test indices (n / k) n fold').
Proof.
  intros ND L L' Ne I I'.
  destruct (fold_test_positions fold v L I) as (p & Rp & Hp).
  destruct (fold_test_positions fold' v L' I') as (p' & Rp' & Hp').
  assert (p = p').
  { apply (proj1 (NoDup_nth_error indices) ND).
    - apply nth_error_Some. rewrite Hp. discriminate.
    - rewrite Hp, Hp'. reflexivity. }
  subst p'. apply Ne. nia.
Qed.

End Folds.

(** ** The folds [cross_validation] fits and scores *)

Section CountedFolds.
Context {F : Type} {FA : Float64 F} {NL : NumLib F}.

(** Each score the fold loop appends belongs to one fold of its range, no
    fold is counted twice, and the fold was fitted and scored on the two
    partitions the loop cut out for it. *)
Lemma cv_loop_counted x y z w degree indices fold_size n (folds : list nat) :
  forall ms rs world ms' rs' world',
    cv_loop x y z w degree indices fold_size n folds ms rs world
    = (Ok (ms', rs'), world') ->
    exists counted : list (nat * (F * F)),
      ms' = ms ++ map (fun c => fst (snd c)) counted
      /\ rs' = rs ++ map (fun c => snd (snd c)) counted
      /\ incl (map fst counted) folds
      /\ (NoDup folds -> NoDup (map fst counted))
      /\ Forall (fun c =>
                   fold_fit_spec x y z w degree
                     (fold_train indices fold_size n (fst c))
                     (fold_test indices fold_size n (fst c))
                     (fst (snd c)) (snd (snd c)))
                counted.
Proof.
  induction folds as [|fold rest IH]; intros ms rs world ms' rs' world' Run.
  - cbn [cv_loop] in Run. unfold ret in Run. inversion Run; subst.
    exists []. rewrite !app_nil_r. cbn [map].
    repeat split; auto using incl_nil_l, NoDup_nil.
  - assert (Skip : forall counted : list (nat * (F * F)),
              incl (map fst counted) rest ->
              (NoDup rest -> NoDup (map fst counted)) ->
              incl (map fst counted) (fold :: rest)
              /\ (NoDup (fold :: rest) -> NoDup (map fst counted))).
    { intros counted I N. split; [apply incl_tl; exact I|].
      intros ND. apply N. inversion ND; assumption. }
    cbn [cv_loop] in Run. run_cases Run.
    all: try (inversion Run; subst; exists []; rewrite !app_nil_r; cbn [map];
              repeat split; auto using incl_nil_l, NoDup_nil; fail).
    all: try (apply IH in Run; destruct Run as (counted & -> & -> & I & N & All);
              exists counted; destruct (Skip counted I N); auto; fail).
    all: apply IH in Run; destruct Run as (counted & -> & -> & I & N & All).
    all: match goal with
         | Fit : cv_fold_fit _ _ _ _ _ _ _ _ = (Ok (Some (?m, ?r)), _) |- _ =>
             apply cv_fold_fit_scored in Fit;
             exists ((fold, (m, r)) :: counted); cbn [map fst snd];
             rewrite <- !app_assoc;
             split; [reflexivity|]; split; [reflexivity|];
             split; [|split; [|constructor; [exact Fit | exact All]]]
         end.
    all: try (apply incl_cons; [left; reflexivity | apply incl_tl; exact I]).
    all: intros ND; inversion ND as [|? ? NotIn ND']; subst;
      constructor; [intros In'; apply NotIn, I, In' | apply N, ND'].
Qed.

(** The folds counted in a result of [cross_validation]. *)
Lemma cross_validation_counted (x y z : list F) (w : option (list F))
  (degree k : nat) (world world' : World) (cv : CVResult) :
  cross_validation x y z w degree k world = (Ok (Some cv), world') ->
  k <> 0
  /\ exists counted : list (nat * (F * F)),
       folds_completed cv = length counted
       /\ NoDup (map fst counted)
       /\ Forall (fun c =>
                    fst c < k
                    /\ fold_fit_spec x y z w degree
                         (fold_train
                            (fst (np_random_shuffle (np_random_state world)
                                    (range (length z))))
                            (length z / k) (length z) (fst c))
                         (fold_test
                            (fst (np_random_shuffle (np_random_state world)
                                    (range (length z))))
                            (length z / k) (length z) (fst c))
                         (fst (snd c)) (snd (snd c)))
                 counted.
Proof.
  intros Run. unfold cross_validation in Run.
  destruct (length z <? 10).
  { cbv [bind pushWarning log_event ret] in Run. discriminate Run. }
  unfold bind at 1 in Run. unfold shuffle in Run.
  destruct (np_random_shuffle (np_random_state world) (range (length z)))
    as [indices g] eqn:Sh.
  destruct (Nat.eqb_spec k 0) as [|Hk]; [discriminate Run|].
  split; [exact Hk|].
  unfold bind in Run.
  match type of Run with
  | context [cv_loop ?a ?b ?c ?d ?e ?f ?g ?h ?i ?j ?l ?wd] =>
      destruct (cv_loop a b c d e f g h i j l wd) as [[[ms rs]|e0] w1] eqn:Loop
  end; [|discriminate Run].
  apply cv_loop_counted in Loop. destruct Loop as (counted & Hm & Hr & I & N & All).
  cbn [app] in Hm, Hr. subst ms rs.
  destruct (map (fun c : nat * (F * F) => fst (snd c)) counted) eqn:Em;
    [discriminate Run|].
  pose proof (length_map (fun c : nat * (F * F) => fst (snd c)) counted) as Hlen.
  rewrite Em in Hlen.
  unfold ret in Run. inversion Run; subst; clear Run.
  exists counted. split; [|split].
  - exact Hlen.
  - apply N. unfold range. apply seq_NoDup.
  - rewrite Forall_forall in All |- *. intros c Hc. split; [|apply All; exact Hc].
    assert (In (fst c) (range (Nat.min k (length z)))) as Hin
      by (apply I, in_map, Hc).
    unfold range in Hin. apply in_seq in Hin. lia.
Qed.

(** X15.  Fold splitting in [cross_validation].  Let [indices] be the
    shuffled array, [n = len(z)], and suppose the shuffle kept the length
    [n].  In a run that returns a result, every counted fold was fitted
    on a training array and scored on a test array that together are a
    permutation of [indices]; the test array has exactly [n // k] entries,
    taken from positions [fold * (n // k) .. (fold + 1) * (n // k) - 1],
    the training array has the other [n - n // k], and the [n mod k]
    entries at positions from [k * (n // k)] on are in the training array
    of every fold: they are never tested. *)
Theorem cross_validation_fold_partition (x y z : list F) (w : option (list F))
  (degree k : nat) (world world' : World) (cv : CVResult) :
  let n := length z in
  let indices := fst (np_random_shuffle (np_random_state world) (range n)) in
  length indices = n ->
  cross_validation x y z w degree k world = (Ok (Some cv), world') ->
  exists counted : list (nat * (F * F)),
    folds_completed cv = length counted
    /\ Forall (fun c =>
                 exists train test,
                   fst c < k
                   /\ fold_fit_spec x y z w degree train test (fst (snd c)) (snd (snd c))
                   /\ Permutation (test ++ train) indices
                   /\ length test = n / k
                   /\ length train = n - n / k
                   /\ (forall v, In v test ->
                         exists p, fst c * (n / k) <= p < (fst c + 1) * (n / k)
                                   /\ nth_error indices p = Some v)
                   /\ (forall p v, k * (n / k) <= p -> nth_error indices p = Some v ->
                                   In v train))
              counted.
Proof.
  cbv zeta. intros Len Run.
  apply cross_validation_counted in Run. destruct Run as (Hk & counted & Count & _ & All).
  exists counted. split; [exact Count|].
  revert All. apply Forall_impl. intros c (Lt & Fit).
  destruct (fold_partition _ _ k Len Hk (fst c) Lt) as (Perm & Ltest & Ltrain & Pos & Rest).
  do 2 eexists. split; [exact Lt|]. split; [exact Fit|].
  split; [exact Perm|]. split; [exact Ltest|]. split; [exact Ltrain|].
  split; [exact Pos | exact Rest].
Qed.

(** X16.  When the shuffled array has its length [n = len(z)] and no
    repeated entry, no sample is tested in two of the folds that a result
    of [cross_validation] counts: the test arrays of any two of them are
    disjoint. *)
Theorem cross_validation_folds_disjoint (x y z : list F) (w : option (list F))
  (degree k : nat) (world world' : World) (cv : CVResult) :
  let n := length z in
  let indices := fst (np_random_shuffle (np_random_state world) (range n)) in
  length indices = n -> NoDup indices ->
  cross_validation x y z w degree k world = (Ok (Some cv), world') ->
  exists counted : list (list nat * list nat * (F * F)),
    folds_completed cv = length counted
    /\ Forall (fun c =>
                 fold_fit_spec x y z w degree (fst (fst c)) (snd (fst c))
                   (fst (snd c)) (snd (snd c)))
              counted
    /\ forall i j a b,
         i <> j -> nth_error counted i = Some a -> nth_error counted j = Some b ->
         forall v, In v (snd (fst a)) -> ~ In v (snd (fst b)).
Proof.
  cbv zeta. intros Len ND Run.
  apply cross_validation_counted in Run.
  destruct Run as (Hk & counted & Count & Distinct & All).
  set (indices := fst (np_random_shuffle (np_random_state world) (range (length z)))) in *.
  set (n := length z) in *.
  set (parts := fun c : nat * (F * F) =>
                  (fold_train indices (n / k) n (fst c),
                   fold_test indices (n / k) n (fst c), snd c)).
  exists (map parts counted). split; [rewrite length_map; exact Count|]. split.
  - apply Forall_map. revert All. apply Forall_impl. intros c (_ & Fit). exact Fit.
  - intros i j a b Ne Ha Hb v Hv.
    rewrite nth_error_map in Ha, Hb.
    destruct (nth_error counted i) as [ci|] eqn:Ei; [|discriminate Ha].
    destruct (nth_error counted j) as [cj|] eqn:Ej; [|discriminate Hb].
    cbn [option_map] in Ha, Hb. inversion Ha; inversion Hb; subst a b.
    cbn [parts fst snd] in Hv |- *.
    rewrite Forall_forall in All.
    destruct (All ci (nth_error_In _ _ Ei)) as (Li & _).
    destruct (All cj (nth_error_In _ _ Ej)) as (Lj & _).
    apply (fold_tests_disjoint indices n k Len Hk (fst ci) (fst cj) v ND Li Lj);
      [|exact Hv].
    intros Same. apply Ne.
    apply (proj1 (NoDup_nth_error (map fst counted)) Distinct).
    + rewrite length_map. apply nth_error_Some. rewrite Ei. discriminate.
    + rewrite !nth_error_map, Ei, Ej. cbn [option_map]. rewrite Same. reflexivity.
Qed.

End CountedFolds.

(** ** The analysis driver and the diagnostics *)

Section Driver.
Context {F : Type} {FA : Float64 F} {NL : NumLib F}.

(** X17.  With fewer points than polynomial terms the analysis stops before
    any fit, with a [QgsProcessingException] that names both counts; only
    the design-matrix shape has been logged. *)
Theorem trend_surface_analysis_insufficient_data (x y z : list F)
  (w : option (list F)) (degree : nat) (cl : F) (cvf robust : bool) (world : World) :
  length x = length y ->
  length x < (degree + 1) * (degree + 2) / 2 ->
  trend_surface_analysis x y z w degree cl cvf robust world
  = (Raise (QgsProcessingException
              ("Insufficient data points (" ++ str_nat (length x)
               ++ ") for polynomial degree " ++ str_nat degree
               ++ " (requires at least "
               ++ str_nat ((degree + 1) * (degree + 2) / 2) ++ " points)")%string),
     log_to (PushInfo ("Design matrix shape: (" ++ str_nat (length x) ++ ", "
                       ++ str_nat ((degree + 1) * (degree + 2) / 2) ++ ")")%string)
            world).
Proof.
  intros E L. unfold trend_surface_analysis.
  rewrite (create_design_matrix_rows x y degree E).
  cbv [bind lift]. unfold shape. cbn [rows n_cols].
  rewrite length_map, length_combine, <- E, Nat.min_id.
  unfold n_terms_of. cbv [pushInfo log_event].
  destruct (Nat.ltb_spec (length x) ((degree + 1) * (degree + 2) / 2)); [|lia].
  reflexivity.
Qed.

(** X18.  Whatever the solver and with or without cross-validation, a result
    of [trend_surface_analysis] is coherent: its design matrix is the one of
    the inputs and has at least as many rows as columns, its predictions are
    [np.dot(A, coefficients)], its residuals are [z - predictions], and its
    statistics are those of exactly these vectors and of the
    cross-validation result it carries. *)
Theorem trend_surface_analysis_result_coherent (x y z : list F)
  (w : option (list F)) (degree : nat) (cl : F) (cvf robust : bool)
  (world world' : World) (res : AnalysisResult) :
  trend_surface_analysis x y z w degree cl cvf robust world = (Ok res, world') ->
  create_design_matrix x y degree = Ok (res_design_matrix res)
  /\ n_cols (res_design_matrix res) <= length (rows (res_design_matrix res))
  /\ np_dot (res_design_matrix res) (res_coefficients res) = Ok (res_predictions res)
  /\ np_sub z (res_predictions res) = Ok (res_residuals res)
  /\ res_statistics res
     = calculate_statistics z (res_predictions res) (res_residuals res) degree
         (res_cv_results res)
  /\ res_confidence_intervals res
     = calculate_confidence_intervals (res_design_matrix res) (res_coefficients res)
         (res_residuals res) cl (res_model_stats res) (length z)
  /\ res_degree res = degree.
Proof.
  intros Run. unfold trend_surface_analysis in Run.
  unfold bind at 1 in Run. unfold lift at 1 in Run.
  destruct (create_design_matrix x y degree) as [A|e] eqn:EA; [|discriminate Run].
  unfold shape in Run. unfold bind at 1 in Run. cbv [pushInfo log_event] in Run.
  destruct (Nat.ltb_spec (length (rows A)) (n_cols A)) as [|Enough];
    [discriminate Run|].
  unfold bind at 1 in Run.
  match type of Run with
  | context [(if robust then ?a else ?b) ?wd] =>
      destruct ((if robust then a else b) wd) as [[[[c r] st]|e] w1] eqn:Fit
  end; [|discriminate Run].
  assert (Res : residual_of A z c = Ok r).
  { destruct robust.
    - apply robust_regression_fit_ok in Fit. apply Fit.
    - apply least_squares_fit_ok in Fit.
      destruct Fit as (? & ? & ? & ? & ? & _ & _ & R & _). exact R. }
  unfold residual_of in Res.
  unfold bind at 1 in Run. unfold lift at 1 in Run.
  destruct (np_dot A c) as [p|e] eqn:Dot; [|discriminate Run].
  cbn [res_bind] in Res.
  unfold bind at 1 in Run.
  match type of Run with
  | context [(if ?g then ?a else ?b) w1] =>
      destruct ((if g then a else b) w1) as [[cv|e] w2] eqn:CV
  end; [|discriminate Run].
  cbv [bind pushInfo log_event ret] in Run. inversion Run; subst; clear Run.
  cbn. repeat split; auto.
Qed.

(** X19.  With cross-validation switched off the analysis, successful or
    not, draws nothing from the random generator and never polls for
    cancellation; a successful one carries no cross-validation result. *)
Theorem trend_surface_analysis_without_cv (x y z : list F) (w : option (list F))
  (degree : nat) (cl : F) (robust : bool) (world : World) :
  let run := trend_surface_analysis x y z w degree cl false robust world in
  np_random_state (snd run) = np_random_state world
  /\ cancel_answers (snd run) = cancel_answers world
  /\ (forall res, fst run = Ok res ->
        res_cv_results res = None /\ cv_folds (res_statistics res) = None).
Proof.
  cbv zeta. split; [|split].
  - apply (preserves_trend_surface_analysis_without_cv np_random_state
             (fun _ _ => eq_refl)).
  - apply (preserves_trend_surface_analysis_without_cv cancel_answers
             (fun _ _ => eq_refl)).
  - intros res Run.
    destruct (trend_surface_analysis x y z w degree cl false robust world)
      as [r w'] eqn:E. cbn [fst] in Run. subst r.
    unfold trend_surface_analysis in E. cbn [andb] in E. run_cases E.
    all: inversion E; subst; cbn [res_cv_results res_statistics].
    all: split; [reflexivity|]; unfold calculate_statistics.
    all: destruct (length z <=? (degree + 1) * (degree + 2) / 2); reflexivity.
Qed.

(** X20.  The guards of [calculate_statistics] for a sample count above the
    parameter count [p]: with [n = p + 1] the adjusted R2 is R2 itself (no
    division by [n - p - 1 = 0]); with a residual sum of squares that is not
    positive AIC and BIC are 0 (no logarithm of 0); with a total sum of
    squares that is not positive R2 is 0; and the three cross-validation
    entries are present exactly when a cross-validation result was passed. *)
Theorem calculate_statistics_guards (z_obs z_pred residuals : list F)
  (degree : nat) (cv_results : option CVResult) :
  (degree + 1) * (degree + 2) / 2 < length z_obs ->
  let s := calculate_statistics z_obs z_pred residuals degree cv_results in
  let ss_res := np_sum (np_power residuals 2) in
  let ss_tot := np_sum (np_power (map (fun v => fsub v (np_mean z_obs)) z_obs) 2) in
  n_observations s = length z_obs
  /\ n_parameters s = (degree + 1) * (degree + 2) / 2
  /\ (length z_obs = (degree + 1) * (degree + 2) / 2 + 1 -> r2_adjusted s = r2 s)
  /\ (f_ltb f0 ss_res = false -> aic s = f0 /\ bic s = f0)
  /\ (f_ltb f0 ss_tot = false -> r2 s = f0)
  /\ (forall e, stats_normaltest residuals = Raise e -> normality_p s = f0)
  /\ cv_mse s = option_map mse_mean cv_results
  /\ cv_r2 s = option_map r2_mean cv_results
  /\ cv_folds s = option_map folds_completed cv_results.
Proof.
  intros L. cbv zeta. unfold calculate_statistics.
  destruct (Nat.leb_spec (length z_obs) ((degree + 1) * (degree + 2) / 2)); [lia|].
  cbn [n_observations n_parameters r2_adjusted r2 aic bic normality_p
       cv_mse cv_r2 cv_folds].
  repeat split.
  - intros E. rewrite E.
    replace ((degree + 1) * (degree + 2) / 2 + 1 - (degree + 1) * (degree + 2) / 2 - 1)
      with 0 by lia.
    reflexivity.
  - match goal with Z : f_ltb _ _ = false |- _ => rewrite Z end. reflexivity.
  - match goal with Z : f_ltb _ _ = false |- _ => rewrite Z end. reflexivity.
  - intros Z. rewrite Z. reflexivity.
  - intros e Z. rewrite Z. reflexivity.
  - destruct cv_results; reflexivity.
  - destruct cv_results; reflexivity.
  - destruct cv_results; reflexivity.
Qed.

(** [calculate_confidence_intervals] always reports one standard error per
    coefficient when it cannot invert: all zeros (with [rse = 0] and
    [t = 0]) when there are no more samples than coefficients, and all
    equal to [1 * rse] when [np.linalg.inv] raises; the t quantile falls
    back to 1.96 when [stats.t.ppf] raises. *)
Theorem calculate_confidence_intervals_fallbacks (A : Matrix F)
  (coefficients residuals : list F) (cl : F) (st : ModelStats) (n : nat) :
  let ci := calculate_confidence_intervals A coefficients residuals cl st n in
  let rse_value :=
    np_sqrt (fdiv (np_sum (np_power residuals 2))
                  (of_int (Z.of_nat n - Z.of_nat (length coefficients)))) in
  confidence_level ci = cl
  /\ (n <= length coefficients ->
      rse ci = f0 /\ t_value ci = f0
      /\ std_errors ci = repeat f0 (length coefficients))
  /\ (length coefficients < n ->
      rse ci = rse_value
      /\ (forall AtA e, matmul (transpose A) A = Ok AtA ->
                        np_linalg_inv AtA = Raise e ->
                        std_errors ci = repeat (fmul f1 rse_value) (length coefficients))
      /\ (forall e, stats_t_ppf (fsub f1 (fdiv (fsub f1 cl) (of_int 2)))
                      (Z.of_nat n - Z.of_nat (length coefficients)) = Raise e ->
                    t_value ci = float_lit (196 # 100))).
Proof.
  cbv zeta. unfold calculate_confidence_intervals.
  destruct (Nat.leb_spec n (length coefficients)).
  - cbn [confidence_level rse t_value std_errors].
    split; [reflexivity|]. split; [|lia].
    intros _. rewrite map_const_repeat. auto.
  - cbn [confidence_level rse t_value std_errors].
    split; [reflexivity|]. split; [lia|].
    intros _. split; [reflexivity|]. split.
    + intros AtA e E1 E2. rewrite E1. cbn [res_bind]. rewrite E2. cbn [res_bind].
      apply map_const_repeat.
    + intros e E. rewrite E. reflexivity.
Qed.

End Driver.

(** ** Data collection *)

Section CollectionProperties.
Context {F : Type} {FA : Float64 F} {NL : NumLib F} {RL : RasterLib F}.

Lemma collect_point_keeps (feature : Feature) (weight_field : string) (zv : F)
  (st st' : list (F * F) * list F * list F) (point : F * F) :
  np_isnan zv = false ->
  collected weight_field st ->
  collect_point feature weight_field zv st point = Ok st' ->
  collected weight_field st'.
Proof.
  intros NaN. destruct st as [[pts zs] ws]. intros (L & W & N & E) Run.
  unfold collect_point in Run.
  assert (N' : Forall (fun v => np_isnan v = false) (zs ++ [zv])).
  { apply Forall_app. split; [exact N | constructor; [exact NaN | constructor]]. }
  destruct (truthy weight_field) eqn:T.
  - destruct (get_attribute feature weight_field) as [[v|]|]; cbn [res_bind] in Run;
      inversion Run; subst; unfold collected; rewrite ?length_app; cbn [length];
      repeat split; try lia; try exact N'; intros; congruence.
  - inversion Run; subst. unfold collected. rewrite !length_app. cbn [length].
    repeat split; try lia; try exact N'. intros _. apply E. reflexivity.
Qed.

Lemma collect_points_keep (feature : Feature) (weight_field : string) (zv : F)
  (points : list (F * F)) :
  np_isnan zv = false ->
  forall st st', collected weight_field st ->
    res_fold (collect_point feature weight_field zv) points st = Ok st' ->
    collected weight_field st'.
Proof.
  intros NaN. induction points as [|pt points IH]; intros st st' C Run; cbn in Run.
  - inversion Run; subst. exact C.
  - destruct (collect_point feature weight_field zv st pt) as [st1|] eqn:E;
      [|discriminate]. cbn [res_bind] in Run.
    apply (IH st1 st'); [|exact Run].
    apply (collect_point_keeps feature weight_field zv st st1 pt NaN C E).
Qed.

Lemma collect_loop_keeps (total : Z) (z_field weight_field : string)
  (features : list Feature) :
  forall i st world st' world',
    collected weight_field st ->
    collect_loop total z_field weight_field features i st world = (Ok st', world') ->
    collected weight_field st'.
Proof.
  induction features as [|feature rest IH]; intros i st world st' world' C Run.
  - cbn in Run. unfold ret in Run. inversion Run; subst. exact C.
  - cbn [collect_loop] in Run. unfold setProgress in Run. run_cases Run.
    all: try (inversion Run; subst; exact C).
    all: try (apply (IH _ _ _ _ _ C) in Run; exact Run).
    all: match goal with
         | E : _ = Ok ?st1 |- _ =>
             lazymatch type of st1 with
             | (list (F * F) * list F * list F)%type =>
                 apply (IH _ st1 _ _ _) in Run; [exact Run|]
             end
         end.
    all: match goal with
         | E : res_fold _ _ _ = Ok _ |- _ =>
             eapply collect_points_keep; [| exact C | exact E]; assumption
         | E : collect_point _ _ _ _ _ = Ok _ |- _ =>
             eapply collect_point_keeps; [| exact C | exact E]; assumption
         end.
Qed.

Lemma collect_data_collected (source : FeatureSource) (z_field weight_field : string)
  (world world' : World) (points : list (F * F)) (z_values : list F)
  (weights : option (list F)) :
  collect_data source z_field weight_field world = (Ok (points, z_values, weights), world') ->
  length z_values = length points
  /\ Forall (fun v => np_isnan v = false) z_values
  /\ match weights with
     | Some wl => if truthy weight_field then length wl = length points else wl = []
     | None => truthy weight_field = true
     end.
Proof.
  intros Run. unfold collect_data in Run. unfold bind at 1 in Run.
  destruct (collect_loop (featureCount source) z_field weight_field
              (getFeatures source) 0 ([], [], []) world)
    as [[[[pts zs] ws]|e] w1] eqn:Loop; [|discriminate Run].
  assert (C : collected weight_field (pts, zs, ws)).
  { assert (C0 : collected weight_field ([], [], []))
      by (unfold collected; cbn; auto).
    apply (collect_loop_keeps _ _ _ _ _ _ _ _ _ C0 Loop). }
  destruct C as (L & W & N & E).
  destruct (truthy weight_field) eqn:T; cbn [andb] in Run.
  - destruct (Nat.eqb_spec (length ws) (length pts)) as [Eq|Ne]; cbn [negb] in Run;
      cbv [bind pushWarning pushInfo log_event ret] in Run;
      inversion Run; subst; auto.
  - cbv [bind pushWarning pushInfo log_event ret] in Run.
    inversion Run; subst. auto.
Qed.

(** X21.  Whatever [collect_data] returns, there is one value per point, and
    the weights are either absent (only when a weight field was asked for
    and some point lacked a weight), or one per point, or the empty list
    when no weight field was asked for. *)
Theorem collect_data_lengths (source : FeatureSource) (z_field weight_field : string)
  (world world' : World) (points : list (F * F)) (z_values : list F)
  (weights : option (list F)) :
  collect_data source z_field weight_field world = (Ok (points, z_values, weights), world') ->
  length z_values = length points
  /\ match weights with
     | Some wl => if truthy weight_field then length wl = length points else wl = []
     | None => truthy weight_field = true
     end.
Proof.
  intros Run. apply collect_data_collected in Run. destruct Run as (L & _ & W).
  split; assumption.
Qed.

(** X22.  No value that [np.isnan] flags is ever collected: features with
    such a value (or with none) contribute no point. *)
Theorem collect_data_skips_nan (source : FeatureSource) (z_field weight_field : string)
  (world world' : World) (points : list (F * F)) (z_values : list F)
  (weights : option (list F)) :
  collect_data source z_field weight_field world = (Ok (points, z_values, weights), world') ->
  Forall (fun v => np_isnan v = false) z_values.
Proof.
  intros Run. apply collect_data_collected in Run. apply Run.
Qed.

(** X23.  When [processAlgorithm] reaches a result, at least three points
    were collected, the coordinate and value arrays handed to the analysis
    have one length, and the weights handed over are either none or one per
    value: they are never of a length [least_squares_fit] would ignore. *)
Theorem collect_and_analyze_inputs (source : FeatureSource)
  (z_field weight_field : string) (degree : nat) (cl : F) (cvf robust : bool)
  (world world' : World) (res : AnalysisResult) :
  collect_and_analyze source z_field weight_field degree cl cvf robust world
  = (Ok res, world') ->
  exists points z_values weights world1 world2,
    collect_data source z_field weight_field
      (log_to (PushInfo "Collecting data points...") world)
    = (Ok (points, z_values, weights), world1)
    /\ 3 <= length points
    /\ length (map fst points) = length z_values
    /\ length (map snd points) = length z_values
    /\ usable_weights (weights_array weights) z_values = weights_array weights
    /\ trend_surface_analysis (map fst points) (map snd points) z_values
         (weights_array weights) degree cl cvf robust world2
       = (Ok res, world').
Proof.
  intros Run. unfold collect_and_analyze in Run.
  unfold bind at 1 in Run. cbv [pushInfo log_event] in Run.
  fold (log_to (PushInfo "Collecting data points...") world) in Run.
  unfold bind at 1 in Run.
  destruct (collect_data source z_field weight_field _)
    as [[[[pts zs] ws]|e] w1] eqn:Collect; [|discriminate Run].
  pose proof (collect_data_collected _ _ _ _ _ _ _ _ Collect) as (L & _ & W).
  destruct (Nat.ltb_spec (length pts) 3) as [|Ge]; [discriminate Run|].
  cbv [bind pushInfo log_event lift] in Run.
  destruct (np_min zs) as [lo|]; [|discriminate Run].
  destruct (np_max zs) as [hi|]; [|discriminate Run].
  exists pts, zs, ws, w1. eexists.
  split; [reflexivity|]. split; [exact Ge|].
  rewrite !length_map. split; [auto|]. split; [auto|].
  split; [|exact Run].
  destruct ws as [[|v wl]|]; cbn [weights_array usable_weights]; try reflexivity.
  destruct (truthy weight_field); [|discriminate W].
  rewrite W, L, Nat.eqb_refl. reflexivity.
Qed.

End CollectionProperties.

(** ** The plugin's R2 *)

Section RSquared.
Context {F : Type} {FA : Float64 F} {NL : NumLib F} {RL : RasterLib F}.
Hypothesis fsub_diag : forall a : F, fsub a a = f0.
Hypothesis fmul_0_l : forall a : F, fmul f0 a = f0.
Hypothesis fadd_0_0 : fadd f0 f0 = f0.
Hypothesis fdiv_0_l : forall s : F, f_eqb s f0 = false -> fdiv f0 s = f0.
Hypothesis fsub_0_r : fsub f1 f0 = f1.

Lemma np_sub_self (z : list F) : np_sub z z = Ok (repeat f0 (length z)).
Proof.
  unfold np_sub, broadcast2. rewrite Nat.eqb_refl. f_equal.
  induction z as [|a z IH]; cbn; [reflexivity|]. rewrite fsub_diag, IH. reflexivity.
Qed.

Lemma sum_of_squared_zeros (n : nat) : np_sum (np_power (repeat f0 n) 2) = f0.
Proof.
  unfold np_sum, np_power.
  assert (G : forall acc, acc = f0 ->
              fold_left fadd (map (fun v => fpow v 2) (repeat f0 n)) acc = f0).
  { induction n as [|n IH]; intros acc ->; cbn [repeat map fold_left]; [reflexivity|].
    apply IH. cbn [fpow]. rewrite fmul_0_l. exact fadd_0_0. }
  apply G. reflexivity.
Qed.

(** X24.  For predictions equal to the observations [calculate_r2] returns 1,
    except when the observations have no spread (total sum of squares
    equal to 0), where it returns 0.  The arithmetic laws used are
    [a - a = 0], [0 * a = 0], [0 + 0 = 0], [0 / s = 0] for [s] not 0, and
    [1 - 0 = 1]. *)
Theorem calculate_r2_perfect_fit (z : list F) :
  calculate_r2 z z
  = Ok (if f_eqb (np_sum (np_power (map (fun v => fsub v (np_mean z)) z) 2)) f0
        then f0 else f1).
Proof.
  unfold calculate_r2. rewrite np_sub_self. cbn [res_bind].
  rewrite sum_of_squared_zeros.
  destruct (f_eqb _ f0) eqn:E; cbn [negb]; [reflexivity|].
  rewrite (fdiv_0_l _ E), fsub_0_r. reflexivity.
Qed.

End RSquared.

(** ** The rasters *)

Lemma update_nth_length {A} (i : nat) (f : A -> A) (l : list A) :
  length (update_nth i f l) = length l.
Proof.
  revert i; induction l as [|h t IH]; intros [|i]; cbn; auto.
Qed.

Lemma update_nth_twice {A} (i : nat) (f g : A -> A) (l : list A) :
  update_nth i f (update_nth i g l) = update_nth i (fun a => f (g a)) l.
Proof.
  revert i; induction l as [|h t IH]; intros [|i]; cbn; try reflexivity.
  rewrite IH. reflexivity.
Qed.

Lemma update_nth_same {A} (i : nat) (l : list A) : update_nth i (fun a => a) l = l.
Proof.
  revert i; induction l as [|h t IH]; intros [|i]; cbn; try reflexivity.
  rewrite IH. reflexivity.
Qed.

Lemma update_nth_middle {A} (f : A -> A) (l1 : list A) (a : A) (l2 : list A) :
  update_nth (length l1) f (l1 ++ a :: l2) = l1 ++ f a :: l2.
Proof. induction l1 as [|h t IH]; cbn; [reflexivity | rewrite IH; reflexivity]. Qed.

Section GridProperties.
Context {F : Type} {FA : Float64 F} {NL : NumLib F} {RL : RasterLib F}.

Lemma set_nth_length (i : nat) (v : F) (l : list F) : length (set_nth i v l) = length l.
Proof. revert i; induction l as [|h t IH]; intros [|i]; cbn; auto. Qed.

(** Writing the cells [0 .. j-1] of a row one after the other. *)
Lemma set_nth_sweep (f : nat -> F) (l0 : list F) (j : nat) :
  j <= length l0 ->
  fold_left (fun l c => set_nth c (f c) l) (seq 0 j) l0 = map f (seq 0 j) ++ skipn j l0.
Proof.
  induction j as [|j IH]; intros L; [reflexivity|].
  rewrite seq_S, fold_left_app, IH by lia. cbn [fold_left Nat.add].
  destruct (skipn j l0) as [|a rest] eqn:Sk.
  { apply (f_equal (@length F)) in Sk. rewrite length_skipn in Sk. cbn in Sk. lia. }
  assert (Sk' : skipn (S j) l0 = rest).
  { replace (S j) with (1 + j) by lia. rewrite <- skipn_skipn, Sk. reflexivity. }
  rewrite Sk', map_app, <- app_assoc. cbn [map app].
  pose proof (set_nth_middle (map f (seq 0 j)) (f j) a rest) as Mid.
  rewrite length_map, length_seq in Mid. exact Mid.
Qed.

Lemma set_nth_sweep_zeros (f : nat -> F) (n_columns : nat) :
  fold_left (fun l c => set_nth c (f c) l) (range n_columns) (repeat f0 n_columns)
  = map f (range n_columns).
Proof.
  unfold range. rewrite set_nth_sweep by (rewrite repeat_length; lia).
  rewrite skipn_all2 by (rewrite repeat_length; lia). apply app_nil_r.
Qed.

Variables (coefficients : list F) (degree : nat) (rse_value xmin ymax cell_size : F).

Lemma fill_row_sweeps (row : nat) (cols : list nat) :
  forall trend_data confidence_data,
    fold_left (fun st col =>
                 let '(trend_data, confidence_data) := st in
                 let x_val := fadd xmin (fmul (of_int (Z.of_nat col)) cell_size) in
                 let trend_val :=
                   evaluate_polynomial x_val
                     (fsub ymax (fmul (of_int (Z.of_nat row)) cell_size))
                     coefficients degree in
                 (set_cell trend_data row col trend_val,
                  set_cell confidence_data row col rse_value))
              cols (trend_data, confidence_data)
    = (update_nth row
         (fun r => fold_left
                     (fun l c =>
                        set_nth c (trend_cell coefficients degree xmin ymax cell_size row c) l)
                     cols r)
         trend_data,
       update_nth row
         (fun r => fold_left (fun l c => set_nth c (constant_cell rse_value row c) l)
                     cols r)
         confidence_data).
Proof.
  induction cols as [|c cols IH]; intros T C; cbn [fold_left].
  - rewrite !update_nth_same. reflexivity.
  - rewrite IH. unfold set_cell. rewrite !update_nth_twice. reflexivity.
Qed.

Lemma partial_grid_next (g : nat -> nat -> F) (n_rows n_columns done : nat) :
  done < n_rows ->
  update_nth done
    (fun r => fold_left (fun l c => set_nth c (g done c) l) (range n_columns) r)
    (partial_grid g n_rows n_columns done)
  = partial_grid g n_rows n_columns (S done).
Proof.
  intros L. unfold partial_grid.
  replace (n_rows - done) with (S (n_rows - S done)) by lia. cbn [repeat].
  assert (Len : length (map (fun row => map (g row) (range n_columns)) (range done)) = done)
    by (unfold range; rewrite length_map, length_seq; reflexivity).
  rewrite <- Len at 1. rewrite update_nth_middle, set_nth_sweep_zeros.
  unfold range. rewrite (seq_S done 0), map_app, <- app_assoc. reflexivity.
Qed.

Lemma fill_row_partial (n_rows n_columns done : nat) :
  done < n_rows ->
  fill_row coefficients degree rse_value xmin ymax cell_size n_columns done
    (partial_grid (trend_cell coefficients degree xmin ymax cell_size) n_rows n_columns done,
     partial_grid (constant_cell rse_value) n_rows n_columns done)
  = (partial_grid (trend_cell coefficients degree xmin ymax cell_size) n_rows n_columns (S done),
     partial_grid (constant_cell rse_value) n_rows n_columns (S done)).
Proof.
  intros L. unfold fill_row. rewrite fill_row_sweeps.
  rewrite !partial_grid_next by exact L. reflexivity.
Qed.

Lemma rows_before_cancel_nil (limit : nat) : rows_before_cancel [] limit = limit.
Proof. destruct limit; reflexivity. Qed.

Lemma rows_before_cancel_le (answers : list bool) (limit : nat) :
  rows_before_cancel answers limit <= limit.
Proof.
  revert answers; induction limit as [|limit IH]; intros [|[] rest]; cbn; try lia.
  specialize (IH rest). lia.
Qed.

(** The row loop of [generate_rasters] fills the rows in order and stops
    at the first poll of [isCanceled] that answers yes. *)
Lemma fill_rows_partial (n_rows n_columns : nat) (m : nat) :
  forall done world data' world',
    done + m = n_rows ->
    fill_rows coefficients degree rse_value xmin ymax cell_size n_rows n_columns
      (seq done m)
      (partial_grid (trend_cell coefficients degree xmin ymax cell_size) n_rows n_columns done,
     partial_grid (constant_cell rse_value) n_rows n_columns done)
      world
    = (Ok data', world') ->
    let filled := done + rows_before_cancel (cancel_answers world) m in
    data' = (partial_grid (trend_cell coefficients degree xmin ymax cell_size)
               n_rows n_columns filled,
             partial_grid (constant_cell rse_value) n_rows n_columns filled).
Proof.
  induction m as [|m IH]; intros done world data' world' E Run; cbv zeta.
  - cbn in Run. unfold ret in Run.
    replace (done + rows_before_cancel (cancel_answers world) 0) with done
      by (destruct (cancel_answers world); cbn; lia).
    congruence.
  - cbn [seq fill_rows] in Run. rewrite fill_row_partial in Run by lia.
    unfold setProgress in Run. run_cases Run.
    all: try (apply IH in Run; [|lia]; cbn [cancel_answers] in Run; cbv zeta in Run;
              repeat match goal with
                     | H : cancel_answers _ = _ |- _ => rewrite H in Run; clear H
                     end;
              rewrite ?rows_before_cancel_nil in Run; rewrite ?rows_before_cancel_nil;
              cbn [rows_before_cancel];
              rewrite Run; f_equal; f_equal; lia).
    all: cbn [rows_before_cancel]; rewrite Nat.add_0_r; congruence.
Qed.

End GridProperties.

Section RasterProperties.
Context {F : Type} {FA : Float64 F} {NL : NumLib F} {RL : RasterLib F}.

Lemma grid_dimension_positive (lo hi cell_size : F) (n : Z) :
  grid_dimension lo hi cell_size = Ok n -> 1 <= Z.to_nat n.
Proof.
  unfold grid_dimension. intros Run.
  destruct (py_truediv (fsub hi lo) cell_size) as [q|]; [|discriminate].
  cbn [res_bind] in Run. destruct (py_int q) as [i|]; [|discriminate].
  cbn [res_bind] in Run. inversion Run. lia.
Qed.

Lemma np_zeros_partial (cell : nat -> nat -> F) (n_rows n_columns : nat) :
  np_zeros n_rows n_columns = partial_grid cell n_rows n_columns 0.
Proof. unfold np_zeros, partial_grid. cbn. rewrite Nat.sub_0_r. reflexivity. Qed.

(** Everything [generate_rasters] hands to [save_raster]. *)
Lemma generate_rasters_outcome (x y : list F) (results : AnalysisResult)
  (extent : option Extent) (cell_size : F) (crs : string)
  (output_trend output_residuals output_confidence : string)
  (world world' : World) (writes : list RasterWrite) :
  generate_rasters x y results extent cell_size crs output_trend output_residuals
    output_confidence world = (Ok writes, world') ->
  exists xmin xmax ymin ymax cols rows,
    raster_extent x y extent = Ok (xmin, xmax, ymin, ymax)
    /\ grid_dimension xmin xmax cell_size = Ok cols
    /\ grid_dimension ymin ymax cell_size = Ok rows
    /\ let n_rows := Z.to_nat rows in
       let n_columns := Z.to_nat cols in
       let filled := rows_before_cancel (cancel_answers world) n_rows in
       writes =
         [mkRasterWrite output_trend
            (partial_grid
               (trend_cell (res_coefficients results) (res_degree results) xmin ymax
                  cell_size)
               n_rows n_columns filled)
            xmin ymax cell_size crs "Trend Surface"]
         ++ (if truthy output_residuals then
               [mkRasterWrite output_residuals (np_zeros n_rows n_columns) xmin ymax
                  cell_size crs "Residuals"]
             else [])
         ++ (if truthy output_confidence then
               [mkRasterWrite output_confidence
                  (partial_grid
                     (constant_cell (rse (res_confidence_intervals results)))
                     n_rows n_columns filled)
                  xmin ymax cell_size crs "Confidence"]
             else []).
Proof.
  unfold generate_rasters. intros Run.
  unfold bind at 1 in Run. unfold lift at 1 in Run.
  destruct (raster_extent x y extent) as [[[[xmin xmax] ymin] ymax]|] eqn:Ext;
    [|discriminate].
  unfold bind at 1 in Run. unfold lift at 1 in Run.
  destruct (grid_dimension xmin xmax cell_size) as [cols|] eqn:Cols; [|discriminate].
  unfold bind at 1 in Run. unfold lift at 1 in Run.
  destruct (grid_dimension ymin ymax cell_size) as [rows|] eqn:Rows; [|discriminate].
  unfold bind at 1 in Run. unfold pushInfo, log_event in Run.
  unfold bind at 1 in Run.
  rewrite (np_zeros_partial
             (trend_cell (res_coefficients results) (res_degree results) xmin ymax
                cell_size)) in Run at 1.
  rewrite (np_zeros_partial
             (constant_cell (rse (res_confidence_intervals results)))) in Run at 1.
  match type of Run with
  | context [fill_rows ?c ?d ?r ?a ?b ?s ?n ?m ?todo ?data ?w] =>
      destruct (fill_rows c d r a b s n m todo data w) as [[data'|] w1] eqn:Fill;
      [|discriminate]
  end.
  apply fill_rows_partial in Fill; [|reflexivity]. cbv zeta in Fill.
  cbn [cancel_answers Nat.add] in Fill. subst data'.
  unfold ret in Run. inversion Run; subst.
  exists xmin, xmax, ymin, ymax, cols, rows. repeat split; assumption.
Qed.

Lemma partial_grid_length (cell : nat -> nat -> F) (n_rows n_columns done : nat) :
  done <= n_rows -> length (partial_grid cell n_rows n_columns done) = n_rows.
Proof.
  intros L. unfold partial_grid, range.
  rewrite length_app, length_map, length_seq, repeat_length. lia.
Qed.

Lemma partial_grid_rows (cell : nat -> nat -> F) (n_rows n_columns done : nat) :
  Forall (fun r => length r = n_columns) (partial_grid cell n_rows n_columns done).
Proof.
  unfold partial_grid. apply Forall_app. split.
  - apply Forall_map, Forall_forall. intros row _. unfold range.
    rewrite length_map, length_seq. reflexivity.
  - apply Forall_forall. intros r In. apply repeat_spec in In. subst r.
    apply repeat_length.
Qed.

Lemma partial_grid_nth (cell : nat -> nat -> F) (n_rows n_columns done row col : nat) :
  done <= n_rows -> row < n_rows -> col < n_columns ->
  nth col (nth row (partial_grid cell n_rows n_columns done) []) f0
  = if row <? done then cell row col else f0.
Proof.
  intros D R C. unfold partial_grid, range.
  destruct (row <? done) eqn:T.
  - apply Nat.ltb_lt in T.
    rewrite app_nth1 by (rewrite length_map, length_seq; exact T).
    rewrite (nth_indep _ [] (map (cell 0) (seq 0 n_columns)))
      by (rewrite length_map, length_seq; exact T).
    rewrite (map_nth (fun r => map (cell r) (seq 0 n_columns)) (seq 0 done) 0 row).
    rewrite seq_nth by exact T. cbn [Nat.add].
    rewrite (nth_indep _ f0 (cell row 0)) by (rewrite length_map, length_seq; exact C).
    rewrite (map_nth (cell row) (seq 0 n_columns) 0 col).
    rewrite seq_nth by exact C. reflexivity.
  - apply Nat.ltb_ge in T.
    rewrite app_nth2 by (rewrite length_map, length_seq; exact T).
    rewrite length_map, length_seq.
    rewrite (nth_indep _ [] (repeat f0 n_columns)) by (rewrite repeat_length; lia).
    rewrite nth_repeat. apply nth_repeat.
Qed.

(** X25.  A run of [generate_rasters] that returns has
    written the trend raster first, whatever else was requested.  Its
    origin is the upper left corner of the extent when one is given; the
    grid has at least one row, and all its rows have one length, at least
    one.  Every cell of the grid, in row [row] and column [col], holds the
    polynomial evaluated at [x = xmin + col * cell_size] and
    [y = ymax - row * cell_size], stored as float32, for the rows reached
    before the first poll of [isCanceled] that answers yes; the rows from
    that one on keep the initial zero, and the raster is written all the
    same. *)
Theorem generate_rasters_trend_cells (x y : list F) (results : AnalysisResult)
  (extent : option Extent) (cell_size : F) (crs : string)
  (output_trend output_residuals output_confidence : string)
  (world world' : World) (writes : list RasterWrite) :
  generate_rasters x y results extent cell_size crs output_trend output_residuals
    output_confidence world = (Ok writes, world') ->
  exists trend others,
    writes = trend :: others
    /\ rw_path trend = output_trend
    /\ rw_description trend = "Trend Surface"
    /\ rw_cell_size trend = cell_size
    /\ (forall e, extent = Some e ->
                  rw_xmin trend = xMinimum e /\ rw_ymax trend = yMaximum e)
    /\ 1 <= length (rw_data trend)
    /\ exists n_columns,
         1 <= n_columns
         /\ Forall (fun r => length r = n_columns) (rw_data trend)
         /\ forall row col, row < length (rw_data trend) -> col < n_columns ->
              nth col (nth row (rw_data trend) []) f0
              = if row <? rows_before_cancel (cancel_answers world)
                            (length (rw_data trend)) then
                  np_float32
                    (evaluate_polynomial
                       (fadd (rw_xmin trend) (fmul (of_int (Z.of_nat col)) cell_size))
                       (fsub (rw_ymax trend) (fmul (of_int (Z.of_nat row)) cell_size))
                       (res_coefficients results) (res_degree results))
                else f0.
Proof.
  intros Run. apply generate_rasters_outcome in Run.
  destruct Run as (xmin & xmax & ymin & ymax & cols & rows & Ext & Cols & Rows & ->).
  pose proof (grid_dimension_positive _ _ _ _ Rows) as R1.
  pose proof (grid_dimension_positive _ _ _ _ Cols) as C1.
  pose proof (rows_before_cancel_le (cancel_answers world) (Z.to_nat rows)) as Le.
  cbn [app]. eexists _, _.
  split; [reflexivity|].
  cbn [rw_path rw_description rw_data rw_xmin rw_ymax rw_cell_size].
  rewrite partial_grid_length by exact Le.
  split; [reflexivity|]. split; [reflexivity|]. split; [reflexivity|].
  split; [|split; [exact R1|]].
  - intros e ->. cbn in Ext. inversion Ext. split; reflexivity.
  - exists (Z.to_nat cols). split; [exact C1|]. split; [apply partial_grid_rows|].
    intros row col R C. apply partial_grid_nth; assumption.
Qed.

(** X26.  The residual raster is a placeholder: every raster written with
    the description "Residuals" has all its cells zero, whatever the
    residuals of the analysis are, and one is written exactly when a
    residual output was requested. *)
Theorem generate_rasters_residuals_placeholder (x y : list F) (results : AnalysisResult)
  (extent : option Extent) (cell_size : F) (crs : string)
  (output_trend output_residuals output_confidence : string)
  (world world' : World) (writes : list RasterWrite) :
  generate_rasters x y results extent cell_size crs output_trend output_residuals
    output_confidence world = (Ok writes, world') ->
  (forall w, In w writes -> rw_description w = "Residuals" ->
             rw_path w = output_residuals
             /\ Forall (Forall (fun v => v = f0)) (rw_data w))
  /\ (truthy output_residuals = true <->
      exists w, In w writes /\ rw_description w = "Residuals").
Proof.
  intros Run. apply generate_rasters_outcome in Run.
  destruct Run as (xmin & xmax & ymin & ymax & cols & rows & _ & _ & _ & ->).
  assert (Zeros : Forall (Forall (fun v : F => v = f0))
                    (np_zeros (Z.to_nat rows) (Z.to_nat cols))).
  { unfold np_zeros. apply Forall_forall. intros r In. apply repeat_spec in In.
    subst r. apply Forall_forall. intros v In. exact (repeat_spec _ _ _ In). }
  split.
  - intros w Hin D. cbn [app In] in Hin. destruct Hin as [<- | Hin]; [discriminate D|].
    apply in_app_or in Hin. destruct Hin as [Hin | Hin].
    + destruct (truthy output_residuals); [|contradiction Hin].
      destruct Hin as [<- | []]. split; [reflexivity | exact Zeros].
    + destruct (truthy output_confidence); [|contradiction Hin].
      destruct Hin as [<- | []]. discriminate D.
  - split.
    + intros ->. eexists. split; [right; left; reflexivity | reflexivity].
    + intros (w & Hin & D). cbn [app In] in Hin. destruct Hin as [<- | Hin]; [discriminate D|].
      apply in_app_or in Hin. destruct Hin as [Hin | Hin].
      * destruct (truthy output_residuals); [reflexivity | contradiction Hin].
      * destruct (truthy output_confidence); [|contradiction Hin].
        destruct Hin as [<- | []]. discriminate D.
Qed.

(** X27.  All the rasters of one run share one grid: the same number of rows
    and of columns, each at least one, the same origin, cell size and
    reference system; one to three rasters are written, the confidence
    raster holding the residual standard error in every cell of the rows
    reached. *)
Theorem generate_rasters_common_grid (x y : list F) (results : AnalysisResult)
  (extent : option Extent) (cell_size : F) (crs : string)
  (output_trend output_residuals output_confidence : string)
  (world world' : World) (writes : list RasterWrite) :
  generate_rasters x y results extent cell_size crs output_trend output_residuals
    output_confidence world = (Ok writes, world') ->
  exists xmin ymax n_rows n_columns,
    1 <= n_rows /\ 1 <= n_columns
    /\ length writes
       = 1 + (if truthy output_residuals then 1 else 0)
         + (if truthy output_confidence then 1 else 0)
    /\ (forall e, extent = Some e -> xmin = xMinimum e /\ ymax = yMaximum e)
    /\ Forall (fun w =>
                 length (rw_data w) = n_rows
                 /\ Forall (fun r => length r = n_columns) (rw_data w)
                 /\ rw_xmin w = xmin /\ rw_ymax w = ymax
                 /\ rw_cell_size w = cell_size /\ rw_crs w = crs) writes
    /\ (forall w row col,
          In w writes -> rw_description w = "Confidence" ->
          row < rows_before_cancel (cancel_answers world) n_rows -> col < n_columns ->
          nth col (nth row (rw_data w) []) f0
          = np_float32 (rse (res_confidence_intervals results))).
Proof.
  intros Run. apply generate_rasters_outcome in Run.
  destruct Run as (xmin & xmax & ymin & ymax & cols & rows & Ext & Cols & Rows & ->).
  pose proof (grid_dimension_positive _ _ _ _ Rows) as R1.
  pose proof (grid_dimension_positive _ _ _ _ Cols) as C1.
  pose proof (rows_before_cancel_le (cancel_answers world) (Z.to_nat rows)) as Le.
  exists xmin, ymax, (Z.to_nat rows), (Z.to_nat cols).
  split; [exact R1|]. split; [exact C1|]. split; [|split; [|split]].
  - rewrite !length_app. destruct (truthy output_residuals), (truthy output_confidence);
      reflexivity.
  - intros e ->. cbn in Ext. inversion Ext. split; reflexivity.
  - apply Forall_app; split; [|apply Forall_app; split].
    + constructor; [|constructor]. cbn [rw_data rw_xmin rw_ymax rw_cell_size rw_crs].
      repeat split; [apply partial_grid_length; exact Le | apply partial_grid_rows].
    + destruct (truthy output_residuals); constructor; [|constructor].
      cbn [rw_data rw_xmin rw_ymax rw_cell_size rw_crs]. unfold np_zeros.
      repeat split; [apply repeat_length|].
      apply Forall_forall. intros r In. apply repeat_spec in In. subst r.
      apply repeat_length.
    + destruct (truthy output_confidence); constructor; [|constructor].
      cbn [rw_data rw_xmin rw_ymax rw_cell_size rw_crs].
      repeat split; [apply partial_grid_length; exact Le | apply partial_grid_rows].
  - intros w row col Hin D R C. cbn [app In] in Hin.
    destruct Hin as [<- | Hin]; [discriminate D|].
    apply in_app_or in Hin. destruct Hin as [Hin | Hin].
    + destruct (truthy output_residuals); [|contradiction Hin].
      destruct Hin as [<- | []]. discriminate D.
    + destruct (truthy output_confidence); [|contradiction Hin].
      destruct Hin as [<- | []]. cbn [rw_data].
      rewrite partial_grid_nth by lia.
      apply Nat.ltb_lt in R. rewrite R. reflexivity.
Qed.

(** *** The plugin's trend surface *)

Lemma fill_trend_row_sweeps (coefficients : list F) (degree : nat)
  (xmin ymax cell_size : F) (row : nat) (cols : list nat) :
  forall trend_data,
    fold_left (fun trend_data col =>
                 let x_val := fadd xmin (fmul (of_int (Z.of_nat col)) cell_size) in
                 set_cell trend_data row col
                   (evaluate_polynomial x_val
                      (fsub ymax (fmul (of_int (Z.of_nat row)) cell_size))
                      coefficients degree))
              cols trend_data
    = update_nth row
        (fun r => fold_left
                    (fun l c =>
                       set_nth c (trend_cell coefficients degree xmin ymax cell_size row c) l)
                    cols r)
        trend_data.
Proof.
  induction cols as [|c cols IH]; intros T; cbn [fold_left].
  - rewrite update_nth_same. reflexivity.
  - rewrite IH. unfold set_cell. rewrite update_nth_twice. reflexivity.
Qed.

(** The row loop of [create_trend_surface] runs to the end. *)
Lemma fill_trend_rows_full (coefficients : list F) (degree : nat)
  (xmin ymax cell_size : F) (n_rows n_columns m : nat) :
  forall done world,
    done + m = n_rows ->
    exists world',
      fill_trend_rows coefficients degree xmin ymax cell_size n_rows n_columns
        (seq done m)
        (partial_grid (trend_cell coefficients degree xmin ymax cell_size)
           n_rows n_columns done)
        world
      = (Ok (partial_grid (trend_cell coefficients degree xmin ymax cell_size)
               n_rows n_columns n_rows), world')
      /\ cancel_answers world' = cancel_answers world.
Proof.
  induction m as [|m IH]; intros done world E.
  - exists world. rewrite Nat.add_0_r in E. subst done. split; reflexivity.
  - cbn [seq fill_trend_rows].
    unfold fill_trend_row. rewrite fill_trend_row_sweeps.
    rewrite partial_grid_next by lia.
    unfold bind at 1.
    destruct (done mod 100 =? 0).
    + unfold pushInfo, log_event.
      match goal with
      | |- context [fill_trend_rows _ _ _ _ _ _ _ _ _ ?w] =>
          destruct (IH (S done) w ltac:(lia)) as (world' & Run & Same)
      end.
      exists world'. split; [exact Run | exact Same].
    + unfold ret. destruct (IH (S done) world ltac:(lia)) as (world' & Run & Same).
      exists world'. split; [exact Run | exact Same].
Qed.

(** What [create_trend_surface] returns and hands to [save_raster]. *)
Lemma create_trend_surface_outcome (points : list (F * F)) (coefficients : list F)
  (degree : nat) (extent : option Extent) (cell_size : F) (crs output_path : string)
  (world world' : World) (path : string) (write : RasterWrite) :
  create_trend_surface points coefficients degree extent cell_size crs output_path world
  = (Ok (path, write), world') ->
  exists xmin xmax ymin ymax cols rows,
    surface_extent points extent = Ok (xmin, xmax, ymin, ymax)
    /\ grid_dimension xmin xmax cell_size = Ok cols
    /\ grid_dimension ymin ymax cell_size = Ok rows
    /\ path = output_path
    /\ write = mkRasterWrite output_path
                 (partial_grid (trend_cell coefficients degree xmin ymax cell_size)
                    (Z.to_nat rows) (Z.to_nat cols) (Z.to_nat rows))
                 xmin ymax cell_size crs "".
Proof.
  unfold create_trend_surface, try_except. intros Run.
  match type of Run with
  | context [match ?body world with _ => _ end] =>
      destruct (body world) as [[[p wr]|e] w1] eqn:Body
  end.
  2:{ unfold bind, pushInfo, log_event, raise in Run. discriminate Run. }
  inversion Run; subst; clear Run.
  unfold bind at 1 in Body. unfold pushInfo at 1, log_event at 1 in Body.
  unfold bind at 1 in Body. unfold lift at 1 in Body.
  destruct (surface_extent points extent) as [[[[xmin xmax] ymin] ymax]|] eqn:Ext;
    [|discriminate].
  unfold bind at 1 in Body. unfold lift at 1 in Body.
  destruct (grid_dimension xmin xmax cell_size) as [cols|] eqn:Cols; [|discriminate].
  unfold bind at 1 in Body. unfold lift at 1 in Body.
  destruct (grid_dimension ymin ymax cell_size) as [rows|] eqn:Rows; [|discriminate].
  unfold bind at 1 in Body. unfold pushInfo at 1, log_event at 1 in Body.
  unfold bind at 1 in Body.
  rewrite (np_zeros_partial (trend_cell coefficients degree xmin ymax cell_size)) in Body.
  match type of Body with
  | context [fill_trend_rows _ _ _ _ _ _ _ _ _ ?w] =>
      destruct (fill_trend_rows_full coefficients degree xmin ymax cell_size
                  (Z.to_nat rows) (Z.to_nat cols) (Z.to_nat rows) 0 w eq_refl)
        as (w2 & Fill & _)
  end.
  unfold range in Body. rewrite Fill in Body.
  unfold bind, pushInfo, log_event, ret in Body. inversion Body; subst.
  exists xmin, xmax, ymin, ymax, cols, rows. repeat split; assumption.
Qed.

Lemma rows_before_cancel_never (answers : list bool) (limit : nat) :
  Forall (fun b => b = false) answers -> rows_before_cancel answers limit = limit.
Proof.
  intros Never. revert limit.
  induction Never as [|b rest -> _ IH]; intros [|limit]; cbn; try reflexivity.
  rewrite IH. reflexivity.
Qed.

(** X28.  A run of the plugin's
    [create_trend_surface] that returns gives back the output path, and
    has handed [save_raster] a grid of at least one row and one column, in
    which the cell in row [row] and column [col] holds the polynomial at
    [x = xmin + col * cell_size], [y = ymax - row * cell_size] as float32;
    with a given extent, [xmin] and [ymax] are its west and north edges.
    No row is left unfilled. *)
Theorem create_trend_surface_cells (points : list (F * F)) (coefficients : list F)
  (degree : nat) (extent : option Extent) (cell_size : F) (crs output_path : string)
  (world world' : World) (path : string) (write : RasterWrite) :
  create_trend_surface points coefficients degree extent cell_size crs output_path world
  = (Ok (path, write), world') ->
  path = output_path
  /\ rw_path write = output_path
  /\ rw_cell_size write = cell_size
  /\ (forall e, extent = Some e ->
                rw_xmin write = xMinimum e /\ rw_ymax write = yMaximum e)
  /\ 1 <= length (rw_data write)
  /\ exists n_columns,
       1 <= n_columns
       /\ Forall (fun r => length r = n_columns) (rw_data write)
       /\ forall row col, row < length (rw_data write) -> col < n_columns ->
            nth col (nth row (rw_data write) []) f0
            = np_float32
                (evaluate_polynomial
                   (fadd (rw_xmin write) (fmul (of_int (Z.of_nat col)) cell_size))
                   (fsub (rw_ymax write) (fmul (of_int (Z.of_nat row)) cell_size))
                   coefficients degree).
Proof.
  intros Run. apply create_trend_surface_outcome in Run.
  destruct Run as (xmin & xmax & ymin & ymax & cols & rows & Ext & Cols & Rows & -> & ->).
  pose proof (grid_dimension_positive _ _ _ _ Rows) as R1.
  pose proof (grid_dimension_positive _ _ _ _ Cols) as C1.
  cbn [rw_path rw_cell_size rw_xmin rw_ymax rw_data].
  rewrite partial_grid_length by lia.
  split; [reflexivity|]. split; [reflexivity|]. split; [reflexivity|].
  split; [|split; [exact R1|]].
  - intros e ->. cbn in Ext. inversion Ext. split; reflexivity.
  - exists (Z.to_nat cols). split; [exact C1|]. split; [apply partial_grid_rows|].
    intros row col R C. rewrite partial_grid_nth by lia.
    apply Nat.ltb_lt in R. rewrite R. reflexivity.
Qed.

(** X29.  For the same coefficients, degree, extent and cell size, the
    script and the plugin write the same trend grid with the same origin,
    provided the script's run is never cancelled. *)
Theorem trend_rasters_agree (x y : list F) (points : list (F * F))
  (results : AnalysisResult) (e : Extent) (cell_size : F) (crs crs' : string)
  (output_trend output_residuals output_confidence output_path path : string)
  (world1 world1' world2 world2' : World) (writes : list RasterWrite)
  (write : RasterWrite) :
  Forall (fun answer => answer = false) (cancel_answers world1) ->
  generate_rasters x y results (Some e) cell_size crs output_trend output_residuals
    output_confidence world1 = (Ok writes, world1') ->
  create_trend_surface points (res_coefficients results) (res_degree results) (Some e)
    cell_size crs' output_path world2 = (Ok (path, write), world2') ->
  exists trend others,
    writes = trend :: others
    /\ rw_data trend = rw_data write
    /\ rw_xmin trend = rw_xmin write
    /\ rw_ymax trend = rw_ymax write
    /\ rw_cell_size trend = rw_cell_size write.
Proof.
  intros Never Script Plugin.
  apply generate_rasters_outcome in Script.
  destruct Script as (xmin & xmax & ymin & ymax & cols & rows & Ext & Cols & Rows & ->).
  apply create_trend_surface_outcome in Plugin.
  destruct Plugin as (xmin' & xmax' & ymin' & ymax' & cols' & rows' & Ext' & Cols' & Rows'
                      & -> & ->).
  cbn in Ext, Ext'. rewrite Ext in Ext'. inversion Ext'; subst.
  rewrite Cols in Cols'. rewrite Rows in Rows'. inversion Cols'; inversion Rows'; subst.
  rewrite (rows_before_cancel_never _ _ Never).
  cbn [app]. eexists _, _. split; [reflexivity|].
  cbn [rw_data rw_xmin rw_ymax rw_cell_size]. repeat split.
Qed.

End RasterProperties.

(** ** Concrete runs of the further properties *)

Import ExactQRaster.

(** Three abscissae against two ordinates. *)
Lemma create_design_matrix_length_mismatch_witness :
  exists msg, create_design_matrix [2; 3; 4]%Z [5; 7]%Z 2 = Raise (ValueError msg).
Proof.
  apply (create_design_matrix_length_mismatch (FA := Float64_Z) [2; 3; 4]%Z [5; 7]%Z 2).
  - cbn. lia.
  - cbn. lia.
Defined.

(** One ordinate for two abscissae: the matrix of [y = [5; 5]]. *)
Lemma create_design_matrix_broadcasts_single_y_witness :
  create_design_matrix [2; 3]%Z [5]%Z 1 = create_design_matrix [2; 3]%Z [5; 5]%Z 1
  /\ (exists A, create_design_matrix [2; 3]%Z [5]%Z 1 = Ok A
                /\ rows A = [[1; 2; 5]; [1; 3; 5]]%Z).
Proof.
  split.
  - apply (create_design_matrix_broadcasts_single_y (FA := Float64_Z) [2; 3]%Z 5%Z 1).
    cbn. lia.
  - eexists. split; vm_compute; reflexivity.
Defined.

(** A fourth coefficient for a plane is not read. *)
Lemma evaluate_polynomial_ignores_extra_coefficients_witness :
  evaluate_polynomial 3%Z 7%Z ([1; 2; 3] ++ [100])%Z 1
  = evaluate_polynomial 3%Z 7%Z [1; 2; 3]%Z 1.
Proof.
  apply (evaluate_polynomial_ignores_extra_coefficients (FA := Float64_Z)).
  cbn. lia.
Defined.

(** Over the integers the level surface [9] of degree 2. *)
Lemma evaluate_polynomial_constant_witness :
  evaluate_polynomial 3%Z 7%Z (9 :: repeat 0 5)%Z 2 = 9%Z.
Proof.
  exact (evaluate_polynomial_constant (FA := Float64_Z) Z.mul_1_r Z.mul_0_l Z.add_0_l
           Z.add_0_r 3%Z 7%Z 9%Z 5 2).
Defined.

(** A negative weight, whose square root is NaN. *)
Lemma least_squares_fit_raises_only_QgsProcessingException_witness :
  exists e world',
    least_squares_fit NanQ.plane_A NanQ.bent_z (Some NanQ.negative_w) world0
    = (Raise e, world')
    /\ exists msg, e = QgsProcessingException msg.
Proof.
  destruct (least_squares_fit NanQ.plane_A NanQ.bent_z (Some NanQ.negative_w) world0)
    as [[v|e] world'] eqn:Run; [vm_compute in Run; discriminate Run|].
  exists e, world'. split; [reflexivity|].
  exact (least_squares_fit_raises_only_QgsProcessingException
           NanQ.plane_A NanQ.bent_z (Some NanQ.negative_w) world0 world' e Run).
Defined.

(** The weighted fit of the bent plane logs the weighted mode. *)
Lemma least_squares_fit_logs_mode_witness :
  snd (least_squares_fit plane_A bent_z (Some bent_w) world0)
  = log_to (PushInfo "Used weighted least squares") world0.
Proof.
  destruct (least_squares_fit plane_A bent_z (Some bent_w) world0)
    as [[[[c r] st]|e] world'] eqn:Run; [|vm_compute in Run; discriminate Run].
  exact (least_squares_fit_logs_mode plane_A bent_z (Some bent_w) world0 world' c r st Run).
Defined.

(** Two weights for the four points of the bent plane. *)
Lemma mismatched_weights_witness :
  least_squares_fit plane_A bent_z (Some [1; 2]%Q) world0
  = least_squares_fit plane_A bent_z None world0
  /\ (exists msg,
        fst (robust_regression_fit plane_A bent_z (Some [1; 2]%Q) 20 default_tol world0)
        = Raise (ValueError msg)).
Proof.
  destruct (least_squares_fit plane_A bent_z None
              (log_to (PushInfo "Starting robust regression...") world0))
    as [[[[c r] st]|e] world'] eqn:Fit; [|vm_compute in Fit; discriminate Fit].
  destruct (mismatched_weights plane_A bent_z [1; 2]%Q 20 default_tol world0 world' c r st
              ltac:(cbn; lia)) as [Same Raises].
  split; [exact Same|].
  destruct Raises as [msg Raised];
    [reflexivity | cbn; lia | cbn; lia | cbn; lia | exact Fit | |].
  - vm_compute in Fit. inversion Fit. vm_compute. reflexivity.
  - exists msg. rewrite Raised. reflexivity.
Defined.

(** The exact plane: the robust fit returns the first fit. *)
Lemma robust_regression_fit_exact_fit_unchanged_witness :
  exists st world',
    robust_regression_fit plane_A plane_z None 20 default_tol world0
    = (Ok ([1; 1; 2]%Q, [0; 0; 0; 0]%Q, st), world')
    /\ robust_iterations st = Some 1.
Proof.
  destruct (least_squares_fit plane_A plane_z None
              (log_to (PushInfo "Starting robust regression...") world0))
    as [[[[c r] st]|e] world'] eqn:Fit; [|vm_compute in Fit; discriminate Fit].
  assert (Ec : c = [1; 1; 2]%Q) by (vm_compute in Fit; inversion Fit; reflexivity).
  assert (Er : r = [0; 0; 0; 0]%Q) by (vm_compute in Fit; inversion Fit; reflexivity).
  subst c r.
  do 2 eexists. split.
  - apply (robust_regression_fit_exact_fit_unchanged plane_A plane_z None 20 default_tol
             world0 world' _ _ st).
    + lia.
    + exact Fit.
    + vm_compute. reflexivity.
  - reflexivity.
Defined.

(** The plugin's fit of the bent plane. *)
Lemma polynomial_regression_residuals_witness :
  residual_of plane_A bent_z [3 # 4; 3 # 2; 5 # 2]%Q
  = Ok [1 # 4; -1 # 4; -1 # 4; 1 # 4]%Q.
Proof.
  apply (polynomial_regression_residuals plane_A bent_z).
  vm_compute. reflexivity.
Defined.

(** Five folds on the ten samples. *)
Lemma cross_validation_never_raises_witness :
  exists result world',
    cross_validation ten_x ten_y ten_z None 1 default_k world7 = (Ok result, world')
    /\ np_random_state world'
       = snd (np_random_shuffle (np_random_state world7) (range 10)).
Proof.
  exact (cross_validation_never_raises ten_x ten_y ten_z None 1 default_k world7
           ltac:(unfold default_k; lia)).
Defined.

Lemma cross_validation_folds_completed_bounds_witness :
  exists cv world',
    cross_validation ten_x ten_y ten_z None 1 default_k world7 = (Ok (Some cv), world')
    /\ 1 <= folds_completed cv <= 5.
Proof.
  destruct (cross_validation ten_x ten_y ten_z None 1 default_k world7)
    as [[[cv|]|e] world'] eqn:Run; try (vm_compute in Run; discriminate Run).
  exists cv, world'. split; [reflexivity|].
  exact (proj1 (cross_validation_folds_completed_bounds ten_x ten_y ten_z None 1
                  default_k world7 world' cv Run)).
Defined.

(** A caller who has cancelled before the first fold. *)
Lemma cross_validation_cancelled_at_once_witness :
  cross_validation ten_x ten_y ten_z None 1 default_k (mkWorld [] [true; false] 7%N)
  = (Ok None,
     mkWorld [] [false] (snd (np_random_shuffle 7%N (range (length ten_z))))).
Proof.
  apply (cross_validation_cancelled_at_once ten_x ten_y ten_z None 1 default_k
           (mkWorld [] [true; false] 7%N) [false]).
  - cbn. lia.
  - unfold default_k. lia.
  - reflexivity.
Defined.

(** Ten samples in three folds of three: every counted fold tests three
    of the shuffled indices and trains on the other seven, and the index at
    position 9 of the shuffled array is in every training array. *)
Lemma cross_validation_fold_partition_witness :
  exists cv world' counted,
    cross_validation ten_x ten_y ten_z None 1 3 world7 = (Ok (Some cv), world')
    /\ folds_completed cv = length counted
    /\ Forall (fun c : nat * (Q * Q) =>
                 exists train test,
                   fst c < 3
                   /\ Permutation (test ++ train) [7; 8; 9; 0; 1; 2; 3; 4; 5; 6]
                   /\ length test = 3
                   /\ length train = 7
                   /\ In 6 train)
              counted.
Proof.
  destruct (cross_validation ten_x ten_y ten_z None 1 3 world7)
    as [[[cv|]|e] world'] eqn:Run; try (vm_compute in Run; discriminate Run).
  destruct (cross_validation_fold_partition (NL := numlib) ten_x ten_y ten_z None 1 3
              world7 world' cv
              ltac:(vm_compute; reflexivity) Run) as (counted & Count & All).
  exists cv, world', counted. split; [reflexivity|]. split; [exact Count|].
  revert All. apply Forall_impl.
  intros c (train & test & Lt & _ & Perm & Ltest & Ltrain & _ & Rest).
  exists train, test. split; [exact Lt|]. split; [exact Perm|].
  split; [exact Ltest|]. split; [exact Ltrain|].
  apply (Rest 9 6); [cbn; lia | reflexivity].
Defined.

(** Five folds on the ten samples: no index is tested twice. *)
Lemma cross_validation_folds_disjoint_witness :
  exists cv world' counted,
    cross_validation ten_x ten_y ten_z None 1 default_k world7 = (Ok (Some cv), world')
    /\ folds_completed cv = length counted
    /\ forall i j (a b : list nat * list nat * (Q * Q)),
         i <> j -> nth_error counted i = Some a -> nth_error counted j = Some b ->
         forall v, In v (snd (fst a)) -> ~ In v (snd (fst b)).
Proof.
  destruct (cross_validation ten_x ten_y ten_z None 1 default_k world7)
    as [[[cv|]|e] world'] eqn:Run; try (vm_compute in Run; discriminate Run).
  destruct (cross_validation_folds_disjoint (NL := numlib) ten_x ten_y ten_z None 1
              default_k world7 world' cv ltac:(vm_compute; reflexivity)
              ltac:(vm_compute; repeat constructor; cbn; lia) Run)
    as (counted & Count & _ & Disjoint).
  exists cv, world', counted. split; [reflexivity|]. split; [exact Count | exact Disjoint].
Defined.

(** Two points for a plane. *)
Lemma trend_surface_analysis_insufficient_data_witness :
  fst (trend_surface_analysis [0; 1]%Q [0; 1]%Q [1; 4]%Q None 1 (95 # 100)%Q false false
         world0)
  = Raise (QgsProcessingException
             "Insufficient data points (2) for polynomial degree 1 (requires at least 3 points)").
Proof.
  rewrite (trend_surface_analysis_insufficient_data [0; 1]%Q [0; 1]%Q [1; 4]%Q None 1
             (95 # 100)%Q false false world0 eq_refl ltac:(cbn; lia)).
  reflexivity.
Defined.

(** The analysis of the exact plane. *)
Lemma trend_surface_analysis_result_coherent_witness :
  exists res world',
    trend_surface_analysis plane_x plane_y plane_z None 1 (95 # 100)%Q false false world0
    = (Ok res, world')
    /\ create_design_matrix plane_x plane_y 1 = Ok (res_design_matrix res)
    /\ np_dot (res_design_matrix res) (res_coefficients res) = Ok (res_predictions res)
    /\ np_sub plane_z (res_predictions res) = Ok (res_residuals res).
Proof.
  destruct (trend_surface_analysis plane_x plane_y plane_z None 1 (95 # 100)%Q false false
              world0) as [[res|e] world'] eqn:Run; [|vm_compute in Run; discriminate Run].
  exists res, world'. split; [reflexivity|].
  destruct (trend_surface_analysis_result_coherent plane_x plane_y plane_z None 1
              (95 # 100)%Q false false world0 world' res Run)
    as (Design & _ & Dot & Sub & _).
  split; [exact Design|]. split; [exact Dot | exact Sub].
Defined.

(** Four samples and the three parameters of a plane. *)
Lemma calculate_statistics_guards_witness :
  n_observations (calculate_statistics bent_z bent_z [0; 0; 0; 0]%Q 1 None) = 4
  /\ r2_adjusted (calculate_statistics bent_z bent_z [0; 0; 0; 0]%Q 1 None)
     = r2 (calculate_statistics bent_z bent_z [0; 0; 0; 0]%Q 1 None)
  /\ aic (calculate_statistics bent_z bent_z [0; 0; 0; 0]%Q 1 None) = 0%Q
  /\ cv_folds (calculate_statistics bent_z bent_z [0; 0; 0; 0]%Q 1 None) = None.
Proof.
  pose proof (calculate_statistics_guards bent_z bent_z [0; 0; 0; 0]%Q 1 None
                ltac:(cbn; lia)) as G.
  cbv zeta in G. destruct G as (N & _ & Adj & Aic & _ & _ & _ & _ & Folds).
  split; [exact N|]. split; [apply Adj; reflexivity|].
  split; [apply Aic; vm_compute; reflexivity | exact Folds].
Defined.

(** Five features, one of them without a value. *)
Lemma collect_data_lengths_witness :
  exists points z_values weights world',
    collect_data plane_source "z" "w" world0 = (Ok (points, z_values, Some weights), world')
    /\ length points = 4
    /\ length z_values = length points
    /\ length weights = length points.
Proof.
  destruct (collect_data plane_source "z" "w" world0)
    as [[[[points z_values] [weights|]]|e] world'] eqn:Run;
    try (vm_compute in Run; discriminate Run).
  exists points, z_values, weights, world'. split; [reflexivity|].
  destruct (collect_data_lengths plane_source "z" "w" world0 world' points z_values
              (Some weights) Run) as (Lz & Lw).
  split; [vm_compute in Run; inversion Run; reflexivity|].
  split; [exact Lz | exact Lw].
Defined.

Lemma collect_data_skips_nan_witness :
  exists points z_values weights world',
    collect_data plane_source "z" "w" world0 = (Ok (points, z_values, weights), world')
    /\ Forall (fun v => np_isnan v = false) z_values.
Proof.
  destruct (collect_data plane_source "z" "w" world0)
    as [[[[points z_values] weights]|e] world'] eqn:Run;
    [|vm_compute in Run; discriminate Run].
  exists points, z_values, weights, world'. split; [reflexivity|].
  exact (collect_data_skips_nan plane_source "z" "w" world0 world' points z_values
           weights Run).
Defined.

(** From the five features to the analysis of four points. *)
Lemma collect_and_analyze_inputs_witness :
  exists points z_values weights world1,
    collect_data plane_source "z" "w" (log_to (PushInfo "Collecting data points...") world0)
    = (Ok (points, z_values, weights), world1)
    /\ 3 <= length points
    /\ length (map fst points) = length z_values
    /\ usable_weights (weights_array weights) z_values = weights_array weights.
Proof.
  destruct (collect_and_analyze plane_source "z" "w" 1 (95 # 100)%Q false false world0)
    as [[res|e] world'] eqn:Run; [|vm_compute in Run; discriminate Run].
  destruct (collect_and_analyze_inputs plane_source "z" "w" 1 (95 # 100)%Q false false
              world0 world' res Run)
    as (points & z_values & weights & world1 & world2 & Collect & Three & Lx & _ & Usable
        & _).
  exists points, z_values, weights, world1.
  split; [exact Collect|]. split; [exact Three|]. split; [exact Lx | exact Usable].
Defined.

Lemma q_fsub_diag (a : Q) : fsub a a = f0.
Proof.
  change (Qred (a - a) = Qred 0). apply Qred_complete. ring.
Qed.

Lemma q_fmul_0_l (a : Q) : fmul f0 a = f0.
Proof.
  change (Qred (0 * a) = Qred 0). apply Qred_complete. ring.
Qed.

Lemma q_fdiv_0_l (s : Q) : f_eqb s f0 = false -> fdiv f0 s = f0.
Proof.
  intros _. change (Qred (0 / s) = Qred 0). apply Qred_complete.
  unfold Qdiv. ring.
Qed.

(** Over the rationals the plane values against themselves score 1. *)
Lemma calculate_r2_perfect_fit_witness :
  calculate_r2 plane_z plane_z = Ok 1%Q.
Proof.
  rewrite (calculate_r2_perfect_fit q_fsub_diag q_fmul_0_l eq_refl q_fdiv_0_l eq_refl
             plane_z).
  reflexivity.
Defined.

(** The plane [1 + x + 2y] on the extent [0, 2] x [0, 1] with cell size 1,
    cancelled at the second poll: two rows of three cells, the upper row at
    [y = 1] filled, the lower one left at zero. *)
Lemma generate_rasters_trend_cells_witness :
  exists trend others,
    fst (generate_rasters plane_x plane_y plane_result (Some plane_extent) 1%Q "EPSG:4326"
           "trend.tif" "residuals.tif" "confidence.tif" world_cancel_second)
    = Ok (trend :: others)
    /\ rw_description trend = "Trend Surface"
    /\ length (rw_data trend) = 2
    /\ rw_data trend = [[3; 4; 5]; [0; 0; 0]]%Q.
Proof.
  destruct (generate_rasters plane_x plane_y plane_result (Some plane_extent) 1%Q
              "EPSG:4326" "trend.tif" "residuals.tif" "confidence.tif"
              world_cancel_second)
    as [[writes|e] world'] eqn:Run; [|vm_compute in Run; discriminate Run].
  destruct (generate_rasters_trend_cells plane_x plane_y plane_result (Some plane_extent)
              1%Q "EPSG:4326" "trend.tif" "residuals.tif" "confidence.tif"
              world_cancel_second world' writes Run)
    as (trend & others & -> & _ & Description & _).
  exists trend, others. split; [reflexivity|]. split; [exact Description|].
  vm_compute in Run. inversion Run. split; reflexivity.
Defined.

Lemma generate_rasters_residuals_placeholder_witness :
  exists writes w,
    fst (generate_rasters plane_x plane_y plane_result (Some plane_extent) 1%Q "EPSG:4326"
           "trend.tif" "residuals.tif" "" world0)
    = Ok writes
    /\ In w writes /\ rw_description w = "Residuals"
    /\ rw_path w = "residuals.tif"
    /\ Forall (Forall (fun v => v = 0%Q)) (rw_data w).
Proof.
  destruct (generate_rasters plane_x plane_y plane_result (Some plane_extent) 1%Q
              "EPSG:4326" "trend.tif" "residuals.tif" "" world0)
    as [[writes|e] world'] eqn:Run; [|vm_compute in Run; discriminate Run].
  destruct (generate_rasters_residuals_placeholder plane_x plane_y plane_result
              (Some plane_extent) 1%Q "EPSG:4326" "trend.tif" "residuals.tif" "" world0
              world' writes Run) as (Zero & Written).
  destruct (proj1 Written eq_refl) as (w & Hin & Description).
  exists writes, w. split; [reflexivity|]. split; [exact Hin|].
  split; [exact Description|]. exact (Zero w Hin Description).
Defined.

(** A run cancelled at the second row: three rasters of two rows by three
    columns all the same. *)
Lemma generate_rasters_common_grid_witness :
  exists writes,
    fst (generate_rasters plane_x plane_y plane_result (Some plane_extent) 1%Q "EPSG:4326"
           "trend.tif" "residuals.tif" "confidence.tif" world_cancel_second)
    = Ok writes
    /\ length writes = 3
    /\ Forall (fun w => length (rw_data w) = 2
                        /\ Forall (fun r => length r = 3) (rw_data w)) writes.
Proof.
  destruct (generate_rasters plane_x plane_y plane_result (Some plane_extent) 1%Q
              "EPSG:4326" "trend.tif" "residuals.tif" "confidence.tif"
              world_cancel_second)
    as [[writes|e] world'] eqn:Run; [|vm_compute in Run; discriminate Run].
  destruct (generate_rasters_common_grid plane_x plane_y plane_result
              (Some plane_extent) 1%Q "EPSG:4326" "trend.tif" "residuals.tif"
              "confidence.tif" world_cancel_second world' writes Run)
    as (xmin & ymax & n_rows & n_columns & _ & _ & Count & _ & Grid & _).
  exists writes. split; [reflexivity|]. split; [exact Count|].
  assert (Er : n_rows = 2 /\ n_columns = 3).
  { vm_compute in Run. inversion Run as [[Writes World]]. rewrite <- Writes in Grid.
    apply Forall_inv in Grid. destruct Grid as (Hr & Hc & _).
    apply Forall_inv in Hc. cbn in Hr, Hc. split; congruence. }
  destruct Er as [-> ->].
  apply (Forall_impl _ (fun w H => conj (proj1 H) (proj1 (proj2 H))) Grid).
Defined.

(** The plugin's raster of the same plane. *)
Lemma create_trend_surface_cells_witness :
  exists write world',
    create_trend_surface [(0, 0); (1, 1)]%Q [1; 1; 2]%Q 1 (Some plane_extent) 1%Q
      "EPSG:4326" "trend.tif" world0
    = (Ok ("trend.tif", write), world')
    /\ rw_data write = [[3; 4; 5]; [1; 2; 3]]%Q.
Proof.
  destruct (create_trend_surface [(0, 0); (1, 1)]%Q [1; 1; 2]%Q 1 (Some plane_extent) 1%Q
              "EPSG:4326" "trend.tif" world0)
    as [[[path write]|e] world'] eqn:Run; [|vm_compute in Run; discriminate Run].
  destruct (create_trend_surface_cells [(0, 0); (1, 1)]%Q [1; 1; 2]%Q 1
              (Some plane_extent) 1%Q "EPSG:4326" "trend.tif" world0 world' path write Run)
    as (-> & _).
  exists write, world'. split; [reflexivity|].
  vm_compute in Run. inversion Run. reflexivity.
Defined.

Lemma trend_rasters_agree_witness :
  exists trend others write,
    fst (generate_rasters plane_x plane_y plane_result (Some plane_extent) 1%Q "EPSG:4326"
           "trend.tif" "" "" world0)
    = Ok (trend :: others)
    /\ fst (create_trend_surface [(0, 0); (1, 1)]%Q [1; 1; 2]%Q 1 (Some plane_extent) 1%Q
              "EPSG:3857" "surface.tif" world_used)
       = Ok ("surface.tif", write)
    /\ rw_data trend = rw_data write.
Proof.
  destruct (generate_rasters plane_x plane_y plane_result (Some plane_extent) 1%Q
              "EPSG:4326" "trend.tif" "" "" world0)
    as [[writes|e] world1'] eqn:Script; [|vm_compute in Script; discriminate Script].
  destruct (create_trend_surface [(0, 0); (1, 1)]%Q [1; 1; 2]%Q 1 (Some plane_extent) 1%Q
              "EPSG:3857" "surface.tif" world_used)
    as [[[path write]|e] world2'] eqn:Plugin; [|vm_compute in Plugin; discriminate Plugin].
  destruct (trend_rasters_agree plane_x plane_y [(0, 0); (1, 1)]%Q plane_result
              plane_extent 1%Q "EPSG:4326" "EPSG:3857" "trend.tif" "" "" "surface.tif"
              path world0 world1' world_used world2' writes write
              (Forall_nil _) Script Plugin)
    as (trend & others & -> & Data & _).
  exists trend, others, write. split; [reflexivity|]. split; [|exact Data].
  vm_compute in Plugin. inversion Plugin. reflexivity.
Defined.
